(** * Wine-quality trainer: a shallow embedding of [train.py]

    The program is glue over pandas, scikit-learn and MLflow.  The embedding
    keeps the control flow of [train.py] (the order of the calls, the
    [with] block around the run body, the [if] guards) and treats the
    libraries as an environment:

    - the tracking store, the file system and the chronological list of
      library calls form an explicit [World];
    - every library call may raise; which call raises what is decided by an
      oracle of the environment ([env_fault]), so that a statement
      quantified over the environment speaks about every failure pattern;
    - values computed by the libraries (the fitted tree, the predictions,
      the metrics, formatted timestamps) are kept symbolic. *)

From stdpp Require Import gmap strings list fin_maps.
From Stdlib Require Import ZArith Permutation.

Local Open Scope string_scope.
Local Open Scope list_scope.

(** ** Python values, exceptions and results *)

(** An exception is identified by its class name; the message is carried
    along but never inspected. *)
Record exn := Exn { exn_class : string; exn_msg : string }.

Inductive result (A : Type) : Type :=
| Ok (a : A)
| Raise (e : exn).
Arguments Ok {A} a.
Arguments Raise {A} e.

(** The values that reach [set_tag], [log_param] and the command line.
    [wine_quality.timestamp_utils] is not part of the sources: the results
    of [fmt_ts_seconds] and [fmt_ts_millis] are kept symbolic, as
    [VFmtSeconds] and [VFmtMillis] of their argument. *)
Inductive PyVal :=
| VNone
| VBool (b : bool)
| VInt (z : Z)
| VStr (s : string)
| VFmtSeconds (v : PyVal)
| VFmtMillis (v : PyVal).

Definition of_opt_str (o : option string) : PyVal :=
  match o with Some s => VStr s | None => VNone end.

Definition of_opt_int (o : option Z) : PyVal :=
  match o with Some z => VInt z | None => VNone end.

(** Python truthiness of an optional string: [None] and [""] are false. *)
Definition truthy (o : option string) : bool :=
  match o with
  | None => false
  | Some s => negb (String.eqb s "")
  end.

(** ** Tables *)

Inductive DType := Int64 | Float64 | Boolean | Object.

Inductive Cell :=
| CInt (z : Z)
| CFloat (literal : string)
| CBool (b : bool)
| CStr (s : string).

(** What the CSV reader produces before an index is attached. *)
Record Table := mkTable {
  t_columns : list (string * DType);
  t_records : list (list Cell)
}.

(** A pandas DataFrame: typed columns, and rows that carry their index
    label. *)
Record DataFrame := mkDF {
  df_columns : list (string * DType);
  df_rows : list (nat * list Cell)
}.

Definition df_index (d : DataFrame) : list nat := (df_rows d).*1.
Definition df_len (d : DataFrame) : nat := length (df_rows d).
Definition column_names (d : DataFrame) : list string := (df_columns d).*1.

(** ** Symbolic results of the estimator and of the metric functions *)

Inductive Model :=
| DecisionTreeRegressor (max_depth : option Z) (max_leaf_nodes : Z)
| Fitted (m : Model) (X y : DataFrame).

Inductive Predictions :=
| Predict (m : Model) (X : DataFrame).

Inductive MetricVal :=
| mean_squared_error (y : DataFrame) (p : Predictions)
| mean_absolute_error (y : DataFrame) (p : Predictions)
| r2_score (y : DataFrame) (p : Predictions)
| np_sqrt (v : MetricVal).

(** ** Model signatures *)

Inductive MlflowType := MLong | MDouble | MBoolean | MString.

Definition mlflow_type (t : DType) : MlflowType :=
  match t with
  | Int64 => MLong
  | Float64 => MDouble
  | Boolean => MBoolean
  | Object => MString
  end.

Inductive OutputSpec :=
| TensorOf (p : Predictions).

Record Signature := mkSignature {
  sig_inputs : list (string * MlflowType);
  sig_outputs : OutputSpec
}.

(** [mlflow.models.signature.infer_signature(model_input, model_output)]:
    one column specification per column of the input frame. *)
Definition infer_signature (model_input : DataFrame) (model_output : Predictions)
  : Signature :=
  {| sig_inputs := map (fun c => (c.1, mlflow_type c.2)) (df_columns model_input);
     sig_outputs := TensorOf model_output |}.

(** ** Files *)

Inductive FileData :=
| FText (s : string)
| FPlot (y : DataFrame) (p : Predictions).

(** ** The tracking store *)

Inductive RunStatus := RUNNING | FINISHED | FAILED.

Inductive Artifact :=
| ASklearnModel (artifact_path : string) (m : Model) (signature : option Signature)
| AOnnxModel (artifact_path : string) (m : Model) (X : DataFrame)
| AFile (local_path : string).

(** The pieces of the f-string that names a run. *)
Record RunName := mkRunName {
  rn_now : PyVal;
  rn_origin : string;
  rn_mlflow_version : string
}.

Record RunRec := mkRun {
  r_experiment_id : string;
  r_name : option RunName;
  r_status : RunStatus;
  r_start_time : Z;
  r_end_time : option Z;
  r_tags : gmap string PyVal;
  r_params : gmap string PyVal;
  r_metrics : gmap string MetricVal;
  r_artifacts : list Artifact
}.

Record Experiment := mkExperiment {
  e_id : string;
  e_tags : gmap string PyVal
}.

(** What [mlflow.start_run] and [client.get_run] hand back: [run.info]. *)
Record Run := mkHandle {
  info_run_id : string;
  info : RunRec
}.

(** The library calls, in the vocabulary of the source. *)
Inductive Event :=
| EvReadCsv (path : string)
| EvSetExperiment (name : string)
| EvGetExperimentByName (name : string)
| EvSetExperimentTag (experiment_id key : string) (v : PyVal)
| EvStartRun (run_id : string) (run_name : option RunName)
| EvEndRun (run_id : string) (status : RunStatus)
| EvGetExperiment (experiment_id : string)
| EvSetTag (run_id key : string) (v : PyVal)
| EvFit (m : Model)
| EvPredict (m : Model)
| EvLogParam (run_id key : string) (v : PyVal)
| EvLogMetric (run_id key : string) (v : MetricVal)
| EvLogModel (run_id artifact_path : string) (m : Model) (signature : option Signature)
| EvRegisterModel (run_id artifact_path name stage : string) (archive : bool)
| EvOnnxLogModel (run_id artifact_path : string) (name : option string)
| EvCreatePlotFile (path : string)
| EvLogArtifact (run_id local_path : string)
| EvOpen (path : string)
| EvWrite (path data : string)
| EvGetRun (run_id : string)
| EvClientSetTag (run_id key : string) (v : PyVal).

Record World := mkWorld {
  files : gmap string FileData;
  experiments : gmap string Experiment;   (* by experiment name *)
  active_experiment : option string;      (* experiment id set by set_experiment *)
  runs : gmap string RunRec;              (* by run id *)
  active_runs : list string;              (* the fluent API's stack of open runs *)
  trace : list Event                      (* oldest call first *)
}.

(** The call sites at which a library may raise for reasons outside the
    program.  Reading the CSV file and splitting it are not listed: whether
    they raise is determined by the file system, the parser and the size of
    the table. *)
Inductive Op :=
| OpSetExperiment
| OpGetExperimentByName
| OpSetExperimentTag (key : string)
| OpStartRun
| OpGetExperiment
| OpSetTag (key : string)
| OpFit
| OpPredict
| OpLogParam (key : string)
| OpMetric (name : string)
| OpLogMetric (key : string)
| OpInferSignature
| OpLogModel
| OpRegisterModel
| OpOnnxLogModel
| OpCreatePlotFile
| OpLogArtifact
| OpOpen
| OpWrite
| OpGetRun
| OpClientSetTag (key : string).

(** ** The environment *)

Record Env := mkEnv {
  (** which call raises, and what *)
  env_fault : Op -> option exn;
  (** the pandas CSV parser on the content of a file *)
  env_parse_csv : FileData -> result Table;
  (** [numpy.random.RandomState(42).permutation(n)] *)
  env_permutation : nat -> list nat;
  (** identifiers handed out by the store, by number of entries so far *)
  env_run_id : nat -> string;
  env_experiment_id : nat -> string;
  (** the store's clock in milliseconds, by number of calls so far *)
  env_clock : nat -> Z;
  (** [shortuuid.uuid()] *)
  env_uuid : nat -> string;
  (** [round(time.time())] when the module is loaded, and library constants *)
  env_time : Z;
  env_mlflow_version : string;
  env_sklearn_version : string;
  env_platform : string;
  env_python_version : string
}.

(** ** Updating the world *)

Definition set_files (f : gmap string FileData) (w : World) : World :=
  mkWorld f (experiments w) (active_experiment w) (runs w) (active_runs w) (trace w).

Definition set_experiments (x : gmap string Experiment) (w : World) : World :=
  mkWorld (files w) x (active_experiment w) (runs w) (active_runs w) (trace w).

Definition set_active_experiment (x : option string) (w : World) : World :=
  mkWorld (files w) (experiments w) x (runs w) (active_runs w) (trace w).

Definition set_runs (x : gmap string RunRec) (w : World) : World :=
  mkWorld (files w) (experiments w) (active_experiment w) x (active_runs w) (trace w).

Definition set_active_runs (x : list string) (w : World) : World :=
  mkWorld (files w) (experiments w) (active_experiment w) (runs w) x (trace w).

Definition log_event (ev : Event) (w : World) : World :=
  mkWorld (files w) (experiments w) (active_experiment w) (runs w) (active_runs w)
          (trace w ++ [ev]).

Definition add_tag (key : string) (v : PyVal) (r : RunRec) : RunRec :=
  mkRun (r_experiment_id r) (r_name r) (r_status r) (r_start_time r) (r_end_time r)
        (<[key := v]> (r_tags r)) (r_params r) (r_metrics r) (r_artifacts r).

Definition add_param (key : string) (v : PyVal) (r : RunRec) : RunRec :=
  mkRun (r_experiment_id r) (r_name r) (r_status r) (r_start_time r) (r_end_time r)
        (r_tags r) (<[key := v]> (r_params r)) (r_metrics r) (r_artifacts r).

Definition add_metric (key : string) (v : MetricVal) (r : RunRec) : RunRec :=
  mkRun (r_experiment_id r) (r_name r) (r_status r) (r_start_time r) (r_end_time r)
        (r_tags r) (r_params r) (<[key := v]> (r_metrics r)) (r_artifacts r).

Definition add_artifact (a : Artifact) (r : RunRec) : RunRec :=
  mkRun (r_experiment_id r) (r_name r) (r_status r) (r_start_time r) (r_end_time r)
        (r_tags r) (r_params r) (r_metrics r) (r_artifacts r ++ [a]).

Definition terminate (status : RunStatus) (t : Z) (r : RunRec) : RunRec :=
  mkRun (r_experiment_id r) (r_name r) status (r_start_time r) (Some t)
        (r_tags r) (r_params r) (r_metrics r) (r_artifacts r).

Definition add_experiment_tag (key : string) (v : PyVal) (x : Experiment) : Experiment :=
  mkExperiment (e_id x) (<[key := v]> (e_tags x)).

(** The world after a call that updates run [rid] and is recorded as [ev]. *)
Definition on_run (rid : string) (f : RunRec -> RunRec) (ev : Event) (w : World) : World :=
  log_event ev (set_runs (alter f rid (runs w)) w).

(** ** The state-and-exception monad of the program *)

Definition M (A : Type) : Type := World -> result A * World.

Definition ret {A} (a : A) : M A := fun w => (Ok a, w).

Definition raise {A} (e : exn) : M A := fun w => (Raise e, w).

Definition bind {A B} (m : M A) (k : A -> M B) : M B :=
  fun w =>
    match m w with
    | (Ok a, w') => k a w'
    | (Raise e, w') => (Raise e, w')
    end.

Definition lift {A} (r : result A) : M A := fun w => (r, w).

Definition emit (ev : Event) : M unit := fun w => (Ok tt, log_event ev w).

Definition modify (f : World -> World) : M unit := fun w => (Ok tt, f w).

Notation "'let!' x ':=' m 'in' k" := (bind m (fun x => k))
  (at level 10, x pattern, m at level 100, k at level 200).
Notation "m ';;' k" := (bind m (fun _ => k))
  (at level 100, k at level 200, right associativity).

(** Python's [if cond: body] for a statement body. *)
Definition when (b : bool) (body : M unit) : M unit :=
  if b then body else ret tt.

(** ** Data preparation: the pure part *)

Definition col_label : string := "quality".

(** [pd.read_csv] attaches a RangeIndex to the parsed records. *)
Definition with_range_index (t : Table) : DataFrame :=
  mkDF (t_columns t) (zip (seq 0 (length (t_records t))) (t_records t)).

(** [DataFrame.iloc[positions]]: rows by position, [IndexError] when a
    position is out of range. *)
Definition iloc (d : DataFrame) (positions : list nat) : result DataFrame :=
  match mapM (fun i => df_rows d !! i) positions with
  | Some rows => Ok (mkDF (df_columns d) rows)
  | None => Raise (Exn "IndexError" "positional indexers are out-of-bounds")
  end.

(** [ceil(test_size * n_samples)] for [test_size=0.30], the fraction taken
    as 3/10. *)
Definition n_test_of (n_samples : nat) : nat := (3 * n_samples + 9) / 10.

(** [train_test_split(data, test_size=0.30, random_state=42)], with the
    seeded permutation given by [permutation]: the test rows are the first
    [n_test] positions of the permutation, the train rows the following
    [n_train]. *)
Definition train_test_split (permutation : nat -> list nat) (data : DataFrame)
  : result (DataFrame * DataFrame) :=
  let n_samples := df_len data in
  let n_test := n_test_of n_samples in
  let n_train := n_samples - n_test in
  if (n_train =? 0)%nat then
    Raise (Exn "ValueError" "the resulting train set will be empty")
  else
    let p := permutation n_samples in
    let ind_test := take n_test p in
    let ind_train := take n_train (drop n_test p) in
    match iloc data ind_train with
    | Raise e => Raise e
    | Ok train =>
        match iloc data ind_test with
        | Raise e => Raise e
        | Ok test => Ok (train, test)
        end
    end.

(** Keep the entries of [l] whose mask bit is set. *)
Fixpoint select_mask {A} (mask : list bool) (l : list A) : list A :=
  match mask, l with
  | b :: mask', x :: l' =>
      if b then x :: select_mask mask' l' else select_mask mask' l'
  | _, _ => []
  end.

Definition select_columns (keep : string -> bool) (d : DataFrame) : DataFrame :=
  let mask := map (fun c => keep c.1) (df_columns d) in
  mkDF (select_mask mask (df_columns d))
       (map (fun r => (r.1, select_mask mask r.2)) (df_rows d)).

Definition has_column (label : string) (d : DataFrame) : bool :=
  existsb (String.eqb label) (column_names d).

(** [d.drop([label], axis=1)] *)
Definition df_drop (label : string) (d : DataFrame) : result DataFrame :=
  if has_column label d then
    Ok (select_columns (fun c => negb (String.eqb label c)) d)
  else Raise (Exn "KeyError" "not found in axis").

(** [d[[label]]] *)
Definition df_getitem (label : string) (d : DataFrame) : result DataFrame :=
  if has_column label d then
    Ok (select_columns (String.eqb label) d)
  else Raise (Exn "KeyError" "not in index").

(** ** [str.replace] *)

(** [s.replace(old, new)] for a non-empty [old]: a left-to-right scan that
    replaces each occurrence and resumes after it.  [skip] counts the
    characters of a matched occurrence that are still to be passed over. *)
Fixpoint replace_from (old new : string) (skip : nat) (s : string) : string :=
  match s with
  | EmptyString => EmptyString
  | String c s' =>
      match skip with
      | S k => replace_from old new k s'
      | O =>
          if String.prefix old s
          then new +:+ replace_from old new (String.length old - 1) s'
          else String c (replace_from old new 0 s')
      end
  end.

Definition str_replace (old new s : string) : string := replace_from old new 0 s.

(** [s[n:]] *)
Fixpoint str_drop (n : nat) (s : string) : string :=
  match n, s with
  | S n', String _ s' => str_drop n' s'
  | _, _ => s
  end.

(** Rewriting a leading [old] only. *)
Definition rewrite_prefix (old new s : string) : string :=
  if String.prefix old s then new +:+ str_drop (String.length old) s else s.

(** Does [old] occur in [s] at some position other than the first? *)
Fixpoint occurs (old s : string) : bool :=
  match s with
  | EmptyString => false
  | String _ s' => String.prefix old s || occurs old s'
  end.

Definition occurs_after_start (old s : string) : bool :=
  match s with
  | EmptyString => false
  | String _ s' => occurs old s'
  end.

(** ** The library calls *)

Section Program.

Variable E : Env.

Definition get : M World := fun w => (Ok w, w).

Definition guard (op : Op) : M unit :=
  fun w =>
    match env_fault E op with
    | Some e => (Raise e, w)
    | None => (Ok tt, w)
    end.

(** [now = fmt_ts_seconds(round(time.time()))] *)
Definition now : PyVal := VFmtSeconds (VInt (env_time E)).

Definition pd_read_csv (path : string) : M DataFrame :=
  emit (EvReadCsv path) ;;
  let! w := get in
  match files w !! path with
  | None => raise (Exn "FileNotFoundError" path)
  | Some content =>
      match env_parse_csv E content with
      | Raise e => raise e
      | Ok t => ret (with_range_index t)
      end
  end.

(** [mlflow.set_experiment(name)]: the experiment is created when it does
    not exist, and becomes the active one. *)
Definition mlflow_set_experiment (name : string) : M unit :=
  guard OpSetExperiment ;;
  let! w := get in
  let x := match experiments w !! name with
           | Some x => x
           | None => mkExperiment (env_experiment_id E (size (experiments w))) ∅
           end in
  modify (fun w => set_active_experiment (Some (e_id x))
                     (set_experiments (<[name := x]> (experiments w)) w)) ;;
  emit (EvSetExperiment name).

Definition client_get_experiment_by_name (name : string) : M (option Experiment) :=
  guard OpGetExperimentByName ;;
  emit (EvGetExperimentByName name) ;;
  let! w := get in
  ret (experiments w !! name).

(** [exp.experiment_id] on what [get_experiment_by_name] returned. *)
Definition experiment_id_of (exp : option Experiment) : M string :=
  match exp with
  | Some x => ret (e_id x)
  | None => raise (Exn "AttributeError" "'NoneType' object has no attribute 'experiment_id'")
  end.

Definition client_set_experiment_tag (experiment_id key : string) (v : PyVal) : M unit :=
  guard (OpSetExperimentTag key) ;;
  modify (fun w => set_experiments
     ((fun x => if String.eqb (e_id x) experiment_id then add_experiment_tag key v x else x)
        <$> experiments w) w) ;;
  emit (EvSetExperimentTag experiment_id key v).

Definition client_get_experiment (experiment_id : string) : M unit :=
  guard OpGetExperiment ;;
  emit (EvGetExperiment experiment_id).

(** [mlflow.start_run(run_name=...)]: refuses to start while another run is
    active; the new run belongs to the active experiment, or to the default
    experiment ["0"]. *)
Definition mlflow_start_run (run_name : option RunName) : M Run :=
  guard OpStartRun ;;
  let! w := get in
  match active_runs w with
  | _ :: _ => raise (Exn "Exception" "a run is already active")
  | [] =>
      let rid := env_run_id E (size (runs w)) in
      let r := mkRun (default "0" (active_experiment w)) run_name RUNNING
                     (env_clock E (length (trace w))) None ∅ ∅ ∅ [] in
      modify (fun w => set_active_runs (rid :: active_runs w)
                         (set_runs (<[rid := r]> (runs w)) w)) ;;
      emit (EvStartRun rid run_name) ;;
      ret (mkHandle rid r)
  end.

(** [mlflow.end_run(status)]: pops the active run and terminates it in the
    store, which fixes its end time. *)
Definition mlflow_end_run (status : RunStatus) (w : World) : World :=
  match active_runs w with
  | [] => w
  | rid :: rest =>
      log_event (EvEndRun rid status)
        (set_active_runs rest
           (set_runs (alter (terminate status (env_clock E (length (trace w)))) rid (runs w)) w))
  end.

(** [with mlflow.start_run(run_name=run_name) as run: body].  On leaving the
    block [ActiveRun.__exit__] ends the run, as FINISHED when the body
    completed and as FAILED when it raised, and does not suppress the
    exception. *)
Definition with_start_run {A} (run_name : option RunName) (body : Run -> M A) : M A :=
  let! run := mlflow_start_run run_name in
  fun w =>
    match body run w with
    | (Ok a, w') => (Ok a, mlflow_end_run FINISHED w')
    | (Raise e, w') => (Raise e, mlflow_end_run FAILED w')
    end.

(** The run the fluent API writes to: the active one, started on demand. *)
Definition active_run_id : M string :=
  let! w := get in
  match active_runs w with
  | rid :: _ => ret rid
  | [] => let! run := mlflow_start_run None in ret (info_run_id run)
  end.

Definition update_run (rid : string) (f : RunRec -> RunRec) : M unit :=
  modify (fun w => set_runs (alter f rid (runs w)) w).

Definition mlflow_set_tag (key : string) (v : PyVal) : M unit :=
  guard (OpSetTag key) ;;
  let! rid := active_run_id in
  update_run rid (add_tag key v) ;;
  emit (EvSetTag rid key v).

Definition mlflow_log_param (key : string) (v : PyVal) : M unit :=
  guard (OpLogParam key) ;;
  let! rid := active_run_id in
  update_run rid (add_param key v) ;;
  emit (EvLogParam rid key v).

Definition mlflow_log_metric (key : string) (v : MetricVal) : M unit :=
  guard (OpLogMetric key) ;;
  let! rid := active_run_id in
  update_run rid (add_metric key v) ;;
  emit (EvLogMetric rid key v).

Definition shortuuid_uuid : M string :=
  let! w := get in ret (env_uuid E (length (trace w))).

Definition model_fit (m : Model) (X y : DataFrame) : M Model :=
  guard OpFit ;;
  emit (EvFit m) ;;
  ret (Fitted m X y).

Definition model_predict (m : Model) (X : DataFrame) : M Predictions :=
  guard OpPredict ;;
  emit (EvPredict m) ;;
  ret (Predict m X).

(** A call into [sklearn.metrics] (and [np.sqrt] around it). *)
Definition metric (name : string) (v : MetricVal) : M MetricVal :=
  guard (OpMetric name) ;;
  ret v.

Definition mlflow_infer_signature (X : DataFrame) (p : Predictions) : M Signature :=
  guard OpInferSignature ;;
  ret (infer_signature X p).

Definition mlflow_sklearn_log_model (m : Model) (artifact_path : string)
    (signature : option Signature) : M unit :=
  guard OpLogModel ;;
  let! rid := active_run_id in
  update_run rid (add_artifact (ASklearnModel artifact_path m signature)) ;;
  emit (EvLogModel rid artifact_path m signature).

(** Modelled from the spec: [wine_quality.mlflow_utils.register_model] is
    not part of the sources.  The Registrar, given a logged model reference,
    creates or transitions a registered-model version for the run; only the
    call is recorded. *)
Definition mlflow_utils_register_model (artifact_path name stage : string)
    (archive_existing_versions : bool) (run : Run) : M unit :=
  guard OpRegisterModel ;;
  emit (EvRegisterModel (info_run_id run) artifact_path name stage archive_existing_versions).

(** Modelled from the spec: [wine_quality.onnx_utils.log_model] is not part
    of the sources.  The Exporter converts the fitted model and logs it as a
    secondary artifact tagged with the registration name. *)
Definition onnx_utils_log_model (m : Model) (artifact_path : string)
    (name : option string) (X : DataFrame) : M unit :=
  guard OpOnnxLogModel ;;
  let! rid := active_run_id in
  update_run rid (add_artifact (AOnnxModel artifact_path m X)) ;;
  emit (EvOnnxLogModel rid artifact_path name).

(** Modelled from the spec: [wine_quality.plot_utils.create_plot_file] is
    not part of the sources.  It renders the predicted-versus-actual plot to
    the image file it is given. *)
Definition plot_utils_create_plot_file (y : DataFrame) (p : Predictions)
    (plot_file : string) : M unit :=
  guard OpCreatePlotFile ;;
  modify (fun w => set_files (<[plot_file := FPlot y p]> (files w)) w) ;;
  emit (EvCreatePlotFile plot_file).

Definition mlflow_log_artifact (local_path : string) : M unit :=
  guard OpLogArtifact ;;
  let! rid := active_run_id in
  update_run rid (add_artifact (AFile local_path)) ;;
  emit (EvLogArtifact rid local_path).

(** [open(path, "w", encoding="utf-8")]: creates or truncates the file. *)
Definition open_w (path : string) : M string :=
  guard OpOpen ;;
  modify (fun w => set_files (<[path := FText ""]> (files w)) w) ;;
  emit (EvOpen path) ;;
  ret path.

Definition text_of (d : option FileData) : string :=
  match d with
  | Some (FText s) => s
  | _ => ""
  end.

(** [f.write(data)] on a file opened by [open_w]: appends to what has been
    written since the file was opened. *)
Definition file_write (f : string) (data : string) : M unit :=
  guard OpWrite ;;
  modify (fun w => set_files (<[f := FText (text_of (files w !! f) +:+ data)]> (files w)) w) ;;
  emit (EvWrite f data).

Definition client_get_run (run_id : string) : M Run :=
  guard OpGetRun ;;
  emit (EvGetRun run_id) ;;
  let! w := get in
  match runs w !! run_id with
  | Some r => ret (mkHandle run_id r)
  | None => raise (Exn "MlflowException" "RESOURCE_DOES_NOT_EXIST")
  end.

Definition client_set_tag (run_id key : string) (v : PyVal) : M unit :=
  guard (OpClientSetTag key) ;;
  update_run run_id (add_tag key v) ;;
  emit (EvClientSetTag run_id key v).

(** Python's [if s: body] for an optional string. *)
Definition when_str (o : option string) (body : string -> M unit) : M unit :=
  match o with
  | Some s => if String.eqb s "" then ret tt else body s
  | None => ret tt
  end.

(** ** The program *)

Record Trainer := mkTrainer {
  experiment_name : option string;
  data_path : string;
  run_origin : option string;
  log_as_onnx : bool;
  save_signature : bool;
  use_run_id_as_run_name : bool;
  X_train : DataFrame;
  X_test : DataFrame;
  y_train : DataFrame;
  y_test : DataFrame
}.

(** [Trainer._build_data] *)
Definition _build_data (data_path : string)
  : M (DataFrame * DataFrame * DataFrame * DataFrame) :=
  let! data := pd_read_csv data_path in
  let! (train, test) := lift (train_test_split (env_permutation E) data) in
  let! X_train := lift (df_drop col_label train) in
  let! X_test := lift (df_drop col_label test) in
  let! y_train := lift (df_getitem col_label train) in
  let! y_test := lift (df_getitem col_label test) in
  ret (X_train, X_test, y_train, y_test).

(** [Trainer.__init__] *)
Definition Trainer_init (experiment_name : option string) (data_path : string)
    (log_as_onnx save_signature : bool) (run_origin : option string)
    (use_run_id_as_run_name : bool) : M Trainer :=
  let! (X_train, X_test, y_train, y_test) := _build_data data_path in
  when_str experiment_name (fun name =>
    mlflow_set_experiment name ;;
    let! exp := client_get_experiment_by_name name in
    let! exp_id := experiment_id_of exp in
    client_set_experiment_tag exp_id "version_mlflow" (VStr (env_mlflow_version E)) ;;
    client_set_experiment_tag exp_id "experiment_created" now) ;;
  ret (mkTrainer experiment_name data_path run_origin log_as_onnx save_signature
                 use_run_id_as_run_name X_train X_test y_train y_test).

(** The body of the [with] block of [Trainer.train] (lines 80 to 159). *)
Definition train_body (self : Trainer) (registered_model_name : option string)
    (registered_model_version_stage : string) (archive_existing_versions : bool)
    (output_path : option string) (max_depth : option Z) (max_leaf_nodes : Z)
    (run : Run) : M (string * string) :=
  let run_id := info_run_id run in
  let experiment_id := r_experiment_id (info run) in
  client_get_experiment experiment_id ;;
  (* MLflow tags *)
  when (use_run_id_as_run_name self) (mlflow_set_tag "mlflow.runName" (VStr run_id)) ;;
  mlflow_set_tag "run_id" (VStr run_id) ;;
  mlflow_set_tag "save_signature" (VBool (save_signature self)) ;;
  mlflow_set_tag "data_path" (VStr (data_path self)) ;;
  mlflow_set_tag "registered_model_name" (of_opt_str registered_model_name) ;;
  mlflow_set_tag "registered_model_version_stage" (VStr registered_model_version_stage) ;;
  let! uuid := shortuuid_uuid in
  mlflow_set_tag "uuid" (VStr uuid) ;;
  mlflow_set_tag "dataset" (VStr "wine-quality") ;;
  mlflow_set_tag "run_origin" (of_opt_str (run_origin self)) ;;
  mlflow_set_tag "timestamp" now ;;
  mlflow_set_tag "version.mlflow" (VStr (env_mlflow_version E)) ;;
  mlflow_set_tag "version.sklearn" (VStr (env_sklearn_version E)) ;;
  mlflow_set_tag "version.platform" (VStr (env_platform E)) ;;
  mlflow_set_tag "version.python" (VStr (env_python_version E)) ;;
  (* Create model, fit and predict *)
  let model := DecisionTreeRegressor max_depth max_leaf_nodes in
  let! model := model_fit model (X_train self) (y_train self) in
  let! predictions := model_predict model (X_test self) in
  (* MLflow params *)
  mlflow_log_param "max_depth" (of_opt_int max_depth) ;;
  mlflow_log_param "max_leaf_nodes" (VInt max_leaf_nodes) ;;
  (* MLflow metrics *)
  let! rmse := metric "rmse" (np_sqrt (mean_squared_error (y_test self) predictions)) in
  let! mae := metric "mae" (mean_absolute_error (y_test self) predictions) in
  let! r2 := metric "r2" (r2_score (y_test self) predictions) in
  mlflow_log_metric "rmse" rmse ;;
  mlflow_log_metric "r2" r2 ;;
  mlflow_log_metric "mae" mae ;;
  (* Create signature *)
  let! signature :=
    (if save_signature self
     then let! s := mlflow_infer_signature (X_train self) predictions in ret (Some s)
     else ret None) in
  (* MLflow log model *)
  mlflow_sklearn_log_model model "model" signature ;;
  when_str registered_model_name (fun name =>
    mlflow_utils_register_model "model" name registered_model_version_stage
      archive_existing_versions run) ;;
  (* Convert sklearn model to ONNX and log model *)
  when (log_as_onnx self)
    (onnx_utils_log_model model "onnx-model" registered_model_name (X_test self)) ;;
  (* MLflow artifact - plot file *)
  let plot_file := "plot.png" in
  plot_utils_create_plot_file (y_test self) predictions plot_file ;;
  mlflow_log_artifact plot_file ;;
  (* Write run ID to file *)
  when_str output_path (fun output_path =>
    mlflow_set_tag "output_path" (VStr output_path) ;;
    let output_path := str_replace "dbfs:" "/dbfs" output_path in
    let! f := open_w output_path in
    file_write f run_id) ;;
  ret (experiment_id, run_id).

(** The statements of [Trainer.train] after the [with] block (lines 162 to
    168). *)
Definition train_finalize (experiment_id run_id : string) : M (string * string) :=
  let! run := client_get_run run_id in
  client_set_tag run_id "run.info.start_time" (VInt (r_start_time (info run))) ;;
  client_set_tag run_id "run.info.end_time" (of_opt_int (r_end_time (info run))) ;;
  client_set_tag run_id "run.info._start_time" (VFmtMillis (VInt (r_start_time (info run)))) ;;
  client_set_tag run_id "run.info._end_time" (VFmtMillis (of_opt_int (r_end_time (info run)))) ;;
  ret (experiment_id, run_id).

(** [run_name] of [Trainer.train]: the f-string when [self.run_origin] is
    truthy, [None] otherwise. *)
Definition run_name (self : Trainer) : option RunName :=
  match run_origin self with
  | Some o => if String.eqb o "" then None
              else Some (mkRunName now o (env_mlflow_version E))
  | None => None
  end.

(** [Trainer.train] *)
Definition train (self : Trainer) (registered_model_name : option string)
    (registered_model_version_stage : string) (archive_existing_versions : bool)
    (output_path : option string) (max_depth : option Z) (max_leaf_nodes : Z)
  : M (string * string) :=
  let run_name := run_name self in
  let! (experiment_id, run_id) :=
    with_start_run run_name
      (train_body self registered_model_name registered_model_version_stage
                  archive_existing_versions output_path max_depth max_leaf_nodes) in
  train_finalize experiment_id run_id.

(** The twelve options of [main]. *)
Record Options := mkOptions {
  o_experiment_name : option string;
  o_data_path : string;
  o_model_name : option string;
  o_model_version_stage : string;
  o_archive_existing_versions : bool;
  o_save_signature : bool;
  o_log_as_onnx : bool;
  o_max_depth : option Z;
  o_max_leaf_nodes : Z;
  o_run_origin : option string;
  o_output_path : option string;
  o_use_run_id_as_run_name : bool
}.

(** [main] *)
Definition main (o : Options) : M unit :=
  let! trainer := Trainer_init (o_experiment_name o) (o_data_path o) (o_log_as_onnx o)
                    (o_save_signature o) (o_run_origin o) (o_use_run_id_as_run_name o) in
  train trainer (o_model_name o) (o_model_version_stage o)
        (o_archive_existing_versions o) (o_output_path o) (o_max_depth o)
        (o_max_leaf_nodes o) ;;
  ret tt.

(** *** Calling [main]

    [main] declares twelve positional parameters without defaults.  Python
    binds the arguments before the body runs, and raises [TypeError] when
    their number differs from the number of parameters. *)

Definition main_parameters : list string :=
  [ "experiment_name"; "data_path"; "model_name"; "model_version_stage";
    "archive_existing_versions"; "save_signature"; "log_as_onnx"; "max_depth";
    "max_leaf_nodes"; "run_origin"; "output_path"; "use_run_id_as_run_name" ].

(** The typed reading of the dynamically typed arguments. *)
Definition as_opt_str (v : PyVal) : option string :=
  match v with VStr s => Some s | _ => None end.

Definition as_str (v : PyVal) : string :=
  match v with VStr s => s | _ => "" end.

Definition as_opt_int (v : PyVal) : option Z :=
  match v with VInt z => Some z | _ => None end.

Definition as_int (v : PyVal) : Z :=
  match v with VInt z => z | _ => 0%Z end.

Definition as_bool (v : PyVal) : bool :=
  match v with
  | VNone => false
  | VBool b => b
  | VInt z => negb (z =? 0)%Z
  | VStr s => negb (String.eqb s "")
  | _ => true
  end.

Definition call_main (args : list PyVal) : M unit :=
  match args with
  | [experiment_name; data_path; model_name; model_version_stage;
     archive_existing_versions; save_signature; log_as_onnx; max_depth;
     max_leaf_nodes; run_origin; output_path; use_run_id_as_run_name] =>
      main (mkOptions (as_opt_str experiment_name) (as_str data_path)
              (as_opt_str model_name) (as_str model_version_stage)
              (as_bool archive_existing_versions) (as_bool save_signature)
              (as_bool log_as_onnx) (as_opt_int max_depth) (as_int max_leaf_nodes)
              (as_opt_str run_origin) (as_opt_str output_path)
              (as_bool use_run_id_as_run_name))
  | _ =>
      raise (Exn "TypeError"
               (if (length args <? length main_parameters)%nat
                then "main() missing required positional arguments"
                else "main() takes 12 positional arguments but more were given"))
  end.

(** [if __name__ == "__main__": main()] *)
Definition run_as_script : M unit := call_main [].

End Program.

(** ** The calls of a run that completes

    The library calls that [train_body] makes, in order, when none of them
    raises; [uuid] is the token drawn for the run. *)
Definition logging_events (E : Env) (self : Trainer)
    (registered_model_name : option string) (registered_model_version_stage : string)
    (archive_existing_versions : bool)
    (max_depth : option Z) (max_leaf_nodes : Z) (run_id experiment_id uuid : string)
  : list Event :=
  let model := Fitted (DecisionTreeRegressor max_depth max_leaf_nodes)
                      (X_train self) (y_train self) in
  let predictions := Predict model (X_test self) in
  [EvGetExperiment experiment_id] ++
  (if use_run_id_as_run_name self
   then [EvSetTag run_id "mlflow.runName" (VStr run_id)] else []) ++
  [ EvSetTag run_id "run_id" (VStr run_id);
    EvSetTag run_id "save_signature" (VBool (save_signature self));
    EvSetTag run_id "data_path" (VStr (data_path self));
    EvSetTag run_id "registered_model_name" (of_opt_str registered_model_name);
    EvSetTag run_id "registered_model_version_stage" (VStr registered_model_version_stage);
    EvSetTag run_id "uuid" (VStr uuid);
    EvSetTag run_id "dataset" (VStr "wine-quality");
    EvSetTag run_id "run_origin" (of_opt_str (run_origin self));
    EvSetTag run_id "timestamp" (now E);
    EvSetTag run_id "version.mlflow" (VStr (env_mlflow_version E));
    EvSetTag run_id "version.sklearn" (VStr (env_sklearn_version E));
    EvSetTag run_id "version.platform" (VStr (env_platform E));
    EvSetTag run_id "version.python" (VStr (env_python_version E));
    EvFit (DecisionTreeRegressor max_depth max_leaf_nodes);
    EvPredict model;
    EvLogParam run_id "max_depth" (of_opt_int max_depth);
    EvLogParam run_id "max_leaf_nodes" (VInt max_leaf_nodes);
    EvLogMetric run_id "rmse" (np_sqrt (mean_squared_error (y_test self) predictions));
    EvLogMetric run_id "r2" (r2_score (y_test self) predictions);
    EvLogMetric run_id "mae" (mean_absolute_error (y_test self) predictions);
    EvLogModel run_id "model" model
      (if save_signature self
       then Some (infer_signature (X_train self) predictions) else None) ] ++
  (if truthy registered_model_name
   then [EvRegisterModel run_id "model" (default "" registered_model_name)
           registered_model_version_stage archive_existing_versions]
   else []) ++
  (if log_as_onnx self
   then [EvOnnxLogModel run_id "onnx-model" registered_model_name] else []) ++
  [ EvCreatePlotFile "plot.png"; EvLogArtifact run_id "plot.png" ].

(** The calls of the [if (output_path)] block, the last of the body. *)
Definition output_events (output_path : option string) (run_id : string) : list Event :=
  if truthy output_path
  then let p := str_replace "dbfs:" "/dbfs" (default "" output_path) in
       [ EvSetTag run_id "output_path" (VStr (default "" output_path));
         EvOpen p; EvWrite p run_id ]
  else [].

Definition expected_body_events (E : Env) (self : Trainer)
    (registered_model_name : option string) (registered_model_version_stage : string)
    (archive_existing_versions : bool) (output_path : option string)
    (max_depth : option Z) (max_leaf_nodes : Z) (run_id experiment_id uuid : string)
  : list Event :=
  logging_events E self registered_model_name registered_model_version_stage
                 archive_existing_versions max_depth max_leaf_nodes
                 run_id experiment_id uuid ++
  output_events output_path run_id.

(** The four tags written after the run has been closed, from the start
    and end time that [client.get_run] reports. *)
Definition timing_tags (start_time : Z) (end_time : option Z) : list (string * PyVal) :=
  [ ("run.info.start_time", VInt start_time);
    ("run.info.end_time", of_opt_int end_time);
    ("run.info._start_time", VFmtMillis (VInt start_time));
    ("run.info._end_time", VFmtMillis (of_opt_int end_time)) ].

(** The files after a run that completes. *)
Definition expected_files (self : Trainer) (output_path : option string)
    (max_depth : option Z) (max_leaf_nodes : Z) (run_id : string)
    (fs : gmap string FileData) : gmap string FileData :=
  let model := Fitted (DecisionTreeRegressor max_depth max_leaf_nodes)
                      (X_train self) (y_train self) in
  let fs1 := <["plot.png" := FPlot (y_test self) (Predict model (X_test self))]> fs in
  if truthy output_path
  then <[str_replace "dbfs:" "/dbfs" (default "" output_path) := FText run_id]> fs1
  else fs1.

(** ** Observations on worlds and calls *)

Definition is_write (ev : Event) : bool :=
  match ev with EvWrite _ _ => true | _ => false end.

Definition is_end_run (ev : Event) : bool :=
  match ev with EvEndRun _ _ => true | _ => false end.

Definition is_log_model (ev : Event) : bool :=
  match ev with EvLogModel _ _ _ _ => true | _ => false end.

Definition is_client_set_tag (ev : Event) : bool :=
  match ev with EvClientSetTag _ _ _ => true | _ => false end.

Definition is_experiment_call (ev : Event) : bool :=
  match ev with
  | EvSetExperiment _ | EvSetExperimentTag _ _ _ => true
  | _ => false
  end.



(** [same_lifecycle r r']: the record [r'] differs from [r] in tags,
    parameters, metrics and artifacts only. *)
Definition same_lifecycle (r r' : RunRec) : Prop :=
  r_status r' = r_status r /\ r_start_time r' = r_start_time r /\
  r_end_time r' = r_end_time r /\ r_experiment_id r' = r_experiment_id r.

(** [frame P w w']: from [w] to [w'] only calls satisfying [P] were made,
    the stack of active runs is the same, and every run of the store is
    still there, in the same state of its life cycle. *)
Definition frame (P : Event -> Prop) (w w' : World) : Prop :=
  active_runs w' = active_runs w /\
  experiments w' = experiments w /\
  active_experiment w' = active_experiment w /\
  (forall rid r, runs w !! rid = Some r ->
     exists r', runs w' !! rid = Some r' /\ same_lifecycle r r') /\
  exists evs, trace w' = trace w ++ evs /\ Forall P evs.

(** [calls Q w w']: from [w] to [w'] only calls satisfying [Q] were made. *)
Definition calls (Q : Event -> Prop) (w w' : World) : Prop :=
  exists evs, trace w' = trace w ++ evs /\ Forall Q evs.

(** [emits Q m]: [m] makes only calls satisfying [Q], whether it returns or
    raises. *)
Definition emits {A} (Q : Event -> Prop) (m : M A) : Prop :=
  forall w r w', m w = (r, w') -> calls Q w w'.

(** The model and the signature that [train] passes to [log_model]. *)
Definition fitted_model (self : Trainer) (max_depth : option Z) (max_leaf_nodes : Z)
  : Model :=
  Fitted (DecisionTreeRegressor max_depth max_leaf_nodes) (X_train self) (y_train self).

Definition holdout_predictions (self : Trainer) (max_depth : option Z)
    (max_leaf_nodes : Z) : Predictions :=
  Predict (fitted_model self max_depth max_leaf_nodes) (X_test self).

Definition expected_signature (self : Trainer) (max_depth : option Z)
    (max_leaf_nodes : Z) : option Signature :=
  if save_signature self
  then Some (infer_signature (X_train self)
                             (holdout_predictions self max_depth max_leaf_nodes))
  else None.


(** [framed P m w]: started in [w] with a run active, [m] stays within
    [frame P], whether it returns or raises. *)
Definition framed {A} (P : Event -> Prop) (m : M A) (w : World) : Prop :=
  active_runs w <> [] -> forall r w', m w = (r, w') -> frame P w w'.

(** ** Columns of the prepared tables *)



(** ** More observations on calls *)

(** Calls that persist, register or export the model, or log the plot. *)
Definition is_artifact_call (ev : Event) : bool :=
  match ev with
  | EvLogModel _ _ _ _ | EvRegisterModel _ _ _ _ _ | EvOnnxLogModel _ _ _
  | EvCreatePlotFile _ | EvLogArtifact _ _ => true
  | _ => false
  end.

(** Calls that open or write a file for the output path. *)
Definition is_output_call (ev : Event) : bool :=
  match ev with
  | EvOpen _ | EvWrite _ _ => true
  | _ => false
  end.

(** ** What the calls record about a run *)

(** Calls that start or end a run, or write one of its tags, parameters or
    metrics. *)
Definition is_run_call (ev : Event) : bool :=
  match ev with
  | EvStartRun _ _ | EvEndRun _ _ | EvSetTag _ _ _ | EvClientSetTag _ _ _
  | EvLogParam _ _ _ | EvLogMetric _ _ _ => true
  | _ => false
  end.

Definition is_lifecycle_call (ev : Event) : bool :=
  match ev with
  | EvStartRun _ _ | EvEndRun _ _ => true
  | _ => false
  end.

(** The tags of run [rid] after one more call: starting the run clears
    them, a [set_tag] on the run adds one. *)
Definition tag_step (rid : string) (m : gmap string PyVal) (ev : Event)
  : gmap string PyVal :=
  match ev with
  | EvStartRun r _ => if String.eqb r rid then ∅ else m
  | EvSetTag r k v | EvClientSetTag r k v => if String.eqb r rid then <[k := v]> m else m
  | _ => m
  end.

Definition param_step (rid : string) (m : gmap string PyVal) (ev : Event)
  : gmap string PyVal :=
  match ev with
  | EvStartRun r _ => if String.eqb r rid then ∅ else m
  | EvLogParam r k v => if String.eqb r rid then <[k := v]> m else m
  | _ => m
  end.

Definition metric_step (rid : string) (m : gmap string MetricVal) (ev : Event)
  : gmap string MetricVal :=
  match ev with
  | EvStartRun r _ => if String.eqb r rid then ∅ else m
  | EvLogMetric r k v => if String.eqb r rid then <[k := v]> m else m
  | _ => m
  end.

Definition tags_of (rid : string) (calls : list Event) : gmap string PyVal :=
  foldl (tag_step rid) ∅ calls.

Definition params_of (rid : string) (calls : list Event) : gmap string PyVal :=
  foldl (param_step rid) ∅ calls.

Definition metrics_of (rid : string) (calls : list Event) : gmap string MetricVal :=
  foldl (metric_step rid) ∅ calls.

(** [recorded rid w]: the store holds run [rid], and its tags, parameters
    and metrics are those that the calls made so far gave it. *)
Definition recorded (rid : string) (w : World) : Prop :=
  exists r, runs w !! rid = Some r /\
    r_tags r = tags_of rid (trace w) /\
    r_params r = params_of rid (trace w) /\
    r_metrics r = metrics_of rid (trace w).

(** One effect of a library call between the start and the end of a run:
    a call that is only recorded, an artifact added to a run, a tag, a
    parameter or a metric written, or a file written at a path allowed by
    [F]. *)
Inductive step (F : string -> Prop) : World -> World -> Prop :=
| step_call ev w :
    is_run_call ev = false -> step F w (log_event ev w)
| step_artifact rid a ev w :
    is_run_call ev = false -> step F w (on_run rid (add_artifact a) ev w)
| step_tag rid k v w :
    step F w (on_run rid (add_tag k v) (EvSetTag rid k v) w)
| step_client_tag rid k v w :
    step F w (on_run rid (add_tag k v) (EvClientSetTag rid k v) w)
| step_param rid k v w :
    step F w (on_run rid (add_param k v) (EvLogParam rid k v) w)
| step_metric rid k v w :
    step F w (on_run rid (add_metric k v) (EvLogMetric rid k v) w)
| step_file path d w :
    F path -> step F w (set_files (<[path := d]> (files w)) w).

Definition steps (F : string -> Prop) : World -> World -> Prop := rtc (step F).

(** [reaches fluent F m w]: whatever its outcome, [m] started in [w] gets
    to its final world by [steps F]; with [fluent] set, this is claimed only
    where a run is active. *)
Definition reaches {A} (fluent : bool) (F : string -> Prop) (m : M A) (w : World) : Prop :=
  (fluent = true -> active_runs w <> []) ->
  forall r w', m w = (r, w') -> steps F w w'.

(** The paths at which [train] may write: the plot and the normalized
    output path. *)
Definition train_writes (output_path : option string) (path : string) : Prop :=
  path = "plot.png" \/
  (truthy output_path = true /\
   path = str_replace "dbfs:" "/dbfs" (default "" output_path)).




(** [apart w w']: from [w] to [w'] no run was started, ended or written to,
    no file was changed, and only calls that are not run calls were made. *)
Definition apart (w w' : World) : Prop :=
  runs w' = runs w /\ active_runs w' = active_runs w /\ files w' = files w /\
  exists evs, trace w' = trace w ++ evs /\ Forall (fun ev => is_run_call ev = false) evs.

(** [stays_apart m]: [m] keeps away from runs and files, whether it returns
    or raises. *)
Definition stays_apart {A} (m : M A) : Prop :=
  forall w r w', m w = (r, w') -> apart w w'.

(** ** Runs that raise *)

(** An error that one of the library calls of the environment raises. *)
Definition thrown_by_call (E : Env) (e : exn) : Prop :=
  exists op, env_fault E op = Some e.

(** [plays E rid evs a m w]: from [w], [m] keeps the stack of active runs
    and the record of every run other than [rid]; when it returns, it
    returns [a] after exactly the calls [evs]; when it raises, the error is
    one that a library call raised, and the calls made so far are an initial
    segment of [evs]. *)
Definition plays {A} (E : Env) (rid : string) (evs : list Event) (a : A) (m : M A)
    (w : World) : Prop :=
  forall r w', m w = (r, w') ->
    active_runs w' = active_runs w /\
    (forall other, other <> rid -> runs w' !! other = runs w !! other) /\
    exists made, trace w' = trace w ++ made /\
      match r with
      | Ok x => x = a /\ made = evs
      | Raise e => thrown_by_call E e /\ made `prefix_of` evs
      end.

(** The calls after the [with] block of [train]. *)
Definition closing_events (run_id : string) (start_time : Z) (end_time : option Z)
  : list Event :=
  EvGetRun run_id ::
  map (fun kv => EvClientSetTag run_id kv.1 kv.2) (timing_tags start_time end_time).

(** ** Constructing the trainer again *)

(** [settled E name w]: the experiment [name] exists and is the active one,
    and every experiment with its identifier carries the two tags of the
    constructor. *)
Definition settled (E : Env) (name : string) (w : World) : Prop :=
  exists x, experiments w !! name = Some x /\
    active_experiment w = Some (e_id x) /\
    forall n y, experiments w !! n = Some y -> e_id y = e_id x ->
      e_tags y !! "version_mlflow" = Some (VStr (env_mlflow_version E)) /\
      e_tags y !! "experiment_created" = Some (now E).

(** ** Sample inputs *)

Definition wine_table (n : nat) : Table :=
  mkTable [("alcohol", Float64); ("pH", Float64); ("quality", Int64)]
          (map (fun i => [CFloat "9.4"; CFloat "3.51"; CInt (Z.of_nat (3 + i mod 7))])
               (seq 0 n)).

Definition unlabeled_table : Table :=
  mkTable [("alcohol", Float64); ("pH", Float64)]
          (map (fun _ => [CFloat "9.4"; CFloat "3.51"]) (seq 0 4)).

Definition no_fault : Op -> option exn := fun _ => None.

(** [model.fit] raises. *)
Definition fit_fails : Op -> option exn :=
  fun op =>
    match op with
    | OpFit => Some (Exn "ValueError" "Input X contains NaN")
    | _ => None
    end.

Definition sample_frame (columns : list (string * DType)) (rows : list (nat * list Cell))
  : DataFrame := mkDF columns rows.

Definition sample_trainer (save_signature : bool) : Trainer :=
  mkTrainer (Some "wine") "wine-quality.csv" (Some "demo") false save_signature false
    (sample_frame [("alcohol", Float64); ("pH", Float64)]
                  [(2, [CFloat "9.4"; CFloat "3.51"]); (0, [CFloat "9.8"; CFloat "3.2"])])
    (sample_frame [("alcohol", Float64); ("pH", Float64)]
                  [(1, [CFloat "10.1"; CFloat "3.3"])])
    (sample_frame [("quality", Int64)] [(2, [CInt 5]); (0, [CInt 6])])
    (sample_frame [("quality", Int64)] [(1, [CInt 5])]).

(** An environment that parses every file to [parsed] and whose seeded
    permutation reverses the positions. *)
Definition sample_env (fault : Op -> option exn) (parsed : result Table) : Env :=
  mkEnv fault (fun _ => parsed) (fun n => rev (seq 0 n))
        (fun _ => "5f1c9a") (fun _ => "1") (fun k => 1700000000000 + Z.of_nat k)%Z
        (fun _ => "Zq8xK") 1700000000 "2.9.2" "1.3.2" "Linux-6.1" "3.10.12".

Definition sample_world : World :=
  mkWorld {[ "wine-quality.csv" := FText "alcohol,pH,quality" ]} ∅ None ∅ [] [].

(** A run of [train] in which [model.fit] raises: the run as started, the
    world in which the body starts, and the world in which it stops. *)
Definition failing_env : Env := sample_env fit_fails (Ok (wine_table 10)).

Definition failing_start : result Run * World :=
  mlflow_start_run failing_env (run_name failing_env (sample_trainer true)) sample_world.

Definition failing_run : Run :=
  mkHandle "5f1c9a"
    (mkRun "0" (Some (mkRunName (VFmtSeconds (VInt 1700000000)) "demo" "2.9.2")) RUNNING
           1700000000000 None ∅ ∅ ∅ []).


(** A run of [train] that completes. *)
Definition quiet_env : Env := sample_env no_fault (Ok (wine_table 10)).

(** Constructing a trainer, without and with an experiment name. *)
Definition sample_init (experiment_name : option string) : result Trainer * World :=
  Trainer_init quiet_env experiment_name "wine-quality.csv" false true None false
               sample_world.

Definition sample_init_trainer : Trainer :=
  match (sample_init (Some "wine")).1 with
  | Ok t => t
  | Raise _ => sample_trainer true
  end.

Definition completed (output_path : option string) : result (string * string) * World :=
  train quiet_env (sample_trainer true) (Some "wine-model") "Staging" true
        output_path None 32 sample_world.

(** A run of [train] whose body completes and in which writing the
    end-time tag raises afterwards. *)
Definition end_time_tag_fails : Op -> option exn :=
  fun op =>
    match op with
    | OpClientSetTag "run.info.end_time" => Some (Exn "MlflowException" "INTERNAL_ERROR")
    | _ => None
    end.

Definition late_env : Env := sample_env end_time_tag_fails (Ok (wine_table 10)).

Definition late_start : result Run * World :=
  mlflow_start_run late_env (run_name late_env (sample_trainer true)) sample_world.

Definition late_body : result (string * string) * World :=
  train_body late_env (sample_trainer true) (Some "wine-model") "Staging" true
             (Some "/tmp/run_id.txt") None 32 failing_run late_start.2.

Definition late_finalize : result (string * string) * World :=
  train_finalize late_env "0" "5f1c9a" (mlflow_end_run late_env FINISHED late_body.2).

Definition late_train : result (string * string) * World :=
  train late_env (sample_trainer true) (Some "wine-model") "Staging" true
        (Some "/tmp/run_id.txt") None 32 sample_world.

Definition failing_train : result (string * string) * World :=
  train failing_env (sample_trainer true) (Some "wine-model") "Staging" true
        (Some "/tmp/run_id.txt") None 32 sample_world.

(** * Properties *)

(** ** Running steps of the monad *)

Lemma bind_inv {A B} (m : M A) (k : A -> M B) w r w' :
  bind m k w = (r, w') ->
  (exists a w1, m w = (Ok a, w1) /\ k a w1 = (r, w')) \/
  (exists e, m w = (Raise e, w') /\ r = Raise e).
Proof.
  unfold bind. destruct (m w) as [[a|e] w1]; intros H.
  - left. eauto.
  - right. inversion H; subst. eauto.
Qed.

(** ** The script entry point *)

(** C9: executed as a script, the module calls [main] with no argument
    although [main] has twelve required positional parameters; the call
    raises [TypeError] and leaves the world untouched, so no dataset has been
    read and no run has been started. *)
Theorem run_as_script_type_error (E : Env) (w : World) :
  length main_parameters = 12 /\
  exists msg,
    run_as_script E w = (Raise (Exn "TypeError" msg), w) /\
    ~ (exists p, EvReadCsv p ∈ drop (length (trace w)) (trace (run_as_script E w).2)) /\
    ~ (exists rid n, EvStartRun rid n ∈ drop (length (trace w)) (trace (run_as_script E w).2)).
Proof.
  split; [reflexivity|].
  eexists. split; [reflexivity|].
  cbn. rewrite drop_ge by lia.
  split; intros H; destruct H as (? & H); [|destruct H as (? & H)];
    by apply not_elem_of_nil in H.
Qed.

(** ** The partition *)

Section Partition.

Implicit Types (rows : list (nat * list Cell)) (p : list nat).

Lemma rows_at_total rows p k :
  Forall2 (fun i r => rows !! i = Some r) p k ->
  k = (fun i => rows !!! i) <$> p.
Proof.
  induction 1 as [|i r p k Hi _ IH]; [done|].
  cbn. f_equal; [|done]. symmetry. by apply list_lookup_total_correct.
Qed.

Lemma rows_at_range rows :
  (fun i => rows !!! i) <$> seq 0 (length rows) = rows.
Proof.
  apply list_eq. intros i. rewrite list_lookup_fmap.
  destruct (decide (i < length rows)) as [Hlt|Hge].
  - rewrite lookup_seq_lt by done. cbn.
    destruct (lookup_lt_is_Some_2 rows i Hlt) as [r Hr].
    rewrite Hr. f_equal. by apply list_lookup_total_correct.
  - rewrite (lookup_ge_None_2 rows) by lia.
    rewrite (lookup_ge_None_2 (seq 0 (length rows))); [done|].
    rewrite length_seq. lia.
Qed.

(** Rows fetched at a permutation of the positions are a permutation of
    the rows. *)
Lemma rows_at_permutation rows p k :
  p ≡ₚ seq 0 (length rows) ->
  Forall2 (fun i r => rows !! i = Some r) p k ->
  k ≡ₚ rows.
Proof.
  intros Hp Hk. rewrite (rows_at_total _ _ _ Hk).
  rewrite Hp. by rewrite rows_at_range.
Qed.

Lemma iloc_Ok d p d' :
  iloc d p = Ok d' ->
  df_columns d' = df_columns d /\
  Forall2 (fun i r => df_rows d !! i = Some r) p (df_rows d').
Proof.
  unfold iloc. destruct (mapM _ p) as [k|] eqn:Hk; [|done].
  intros [= <-]. split; [done|]. by apply mapM_Some_1.
Qed.

Lemma iloc_in_range d p :
  Forall (fun i => i < df_len d) p -> exists d', iloc d p = Ok d'.
Proof.
  intros Hp. unfold iloc.
  destruct (mapM _ p) as [k|] eqn:Hk; [eauto|].
  exfalso. apply mapM_None_1 in Hk. apply Exists_exists in Hk as (i & Hi & Hnone).
  rewrite Forall_forall in Hp. specialize (Hp i Hi).
  apply lookup_ge_None_1 in Hnone. unfold df_len in Hp. lia.
Qed.

Lemma n_test_le n : n_test_of n <= n.
Proof.
  unfold n_test_of. apply Nat.lt_succ_r, Nat.Div0.div_lt_upper_bound. lia.
Qed.

Lemma split_pieces p n :
  length p = n ->
  take (n_test_of n) p ++ take (n - n_test_of n) (drop (n_test_of n) p) = p.
Proof.
  intros Hn. rewrite (take_ge (drop _ _)); [apply take_drop|].
  rewrite length_drop. lia.
Qed.

(** What [train_test_split] returns when the seeded permutation is a
    permutation of the row positions. *)
Lemma train_test_split_Ok perm d train test :
  perm (df_len d) ≡ₚ seq 0 (df_len d) ->
  train_test_split perm d = Ok (train, test) ->
  df_columns train = df_columns d /\
  df_columns test = df_columns d /\
  df_len test = n_test_of (df_len d) /\
  df_len train = df_len d - n_test_of (df_len d) /\
  df_rows test ++ df_rows train ≡ₚ df_rows d.
Proof.
  intros Hp. unfold train_test_split.
  destruct (_ =? 0)%nat eqn:Hz; [done|].
  destruct (iloc d (take _ (drop _ _))) as [tr|] eqn:Htr; [|done].
  destruct (iloc d (take (n_test_of _) _)) as [te|] eqn:Hte; [|done].
  intros [= <- <-].
  apply iloc_Ok in Htr as [Hc1 Hr1]. apply iloc_Ok in Hte as [Hc2 Hr2].
  assert (Hlen : length (perm (df_len d)) = df_len d).
  { rewrite Hp. apply length_seq. }
  pose proof (n_test_le (df_len d)) as Hle.
  repeat split; try done.
  - unfold df_len at 1. rewrite <- (Forall2_length _ _ _ Hr2).
    rewrite length_take. lia.
  - unfold df_len at 1. rewrite <- (Forall2_length _ _ _ Hr1).
    rewrite length_take, length_drop. lia.
  - eapply rows_at_permutation; [|apply Forall2_app; eassumption].
    rewrite split_pieces by done. exact Hp.
Qed.

Lemma train_test_split_total perm d :
  perm (df_len d) ≡ₚ seq 0 (df_len d) ->
  2 <= df_len d ->
  exists train test, train_test_split perm d = Ok (train, test).
Proof.
  intros Hp Hn. unfold train_test_split.
  assert (Hlt : n_test_of (df_len d) < df_len d).
  { unfold n_test_of. apply Nat.Div0.div_lt_upper_bound. lia. }
  destruct (_ =? 0)%nat eqn:Hz; [apply Nat.eqb_eq in Hz; lia|].
  assert (Hall : Forall (fun i => i < df_len d) (perm (df_len d))).
  { rewrite Hp. apply Forall_forall. intros i Hi. apply elem_of_seq in Hi. lia. }
  destruct (iloc_in_range d (take (df_len d - n_test_of (df_len d))
                               (drop (n_test_of (df_len d)) (perm (df_len d)))))
    as [tr ->].
  { by apply Forall_take, Forall_drop. }
  destruct (iloc_in_range d (take (n_test_of (df_len d)) (perm (df_len d)))) as [te ->].
  { by apply Forall_take. }
  eauto.
Qed.

Lemma select_columns_index keep d :
  df_index (select_columns keep d) = df_index d.
Proof.
  unfold df_index, select_columns. cbn.
  rewrite <- list_fmap_compose. by apply list_fmap_ext.
Qed.

Lemma select_columns_len keep d :
  df_len (select_columns keep d) = df_len d.
Proof. unfold df_len, select_columns. cbn. by rewrite length_fmap. Qed.

Lemma range_index_index t :
  df_index (with_range_index t) = seq 0 (length (t_records t)).
Proof.
  unfold df_index, with_range_index. cbn. apply fst_zip. by rewrite length_seq.
Qed.

Lemma range_index_len t : df_len (with_range_index t) = length (t_records t).
Proof.
  unfold df_len, with_range_index. cbn. rewrite length_zip, length_seq. lia.
Qed.

End Partition.

(** ** Data preparation *)

Section BuildData.

Variable E : Env.

Lemma build_data_world p w : (_build_data E p w).2 = log_event (EvReadCsv p) w.
Proof.
  unfold _build_data, pd_read_csv, bind, emit, get, lift, raise, ret. cbn.
  destruct (files w !! p) as [c|]; [|done].
  destruct (env_parse_csv E c) as [t|]; [|done].
  destruct (train_test_split _ _) as [[train test]|]; [|done].
  destruct (df_drop col_label train); [|done].
  destruct (df_drop col_label test); [|done].
  destruct (df_getitem col_label train); [|done].
  by destruct (df_getitem col_label test).
Qed.

Lemma build_data_missing p w :
  files w !! p = None ->
  (_build_data E p w).1 = Raise (Exn "FileNotFoundError" p).
Proof.
  intros H. unfold _build_data, pd_read_csv, bind, emit, get, lift, raise, ret. cbn.
  by rewrite H.
Qed.

Lemma build_data_malformed p w c e :
  files w !! p = Some c -> env_parse_csv E c = Raise e ->
  (_build_data E p w).1 = Raise e.
Proof.
  intros H1 H2. unfold _build_data, pd_read_csv, bind, emit, get, lift, raise, ret. cbn.
  by rewrite H1, H2.
Qed.

Lemma build_data_loaded p w c t :
  files w !! p = Some c -> env_parse_csv E c = Ok t ->
  (_build_data E p w).1 =
  match train_test_split (env_permutation E) (with_range_index t) with
  | Raise e => Raise e
  | Ok (train, test) =>
      match df_drop col_label train, df_drop col_label test,
            df_getitem col_label train, df_getitem col_label test with
      | Ok X_train, Ok X_test, Ok y_train, Ok y_test =>
          Ok (X_train, X_test, y_train, y_test)
      | Raise e, _, _, _ => Raise e
      | _, Raise e, _, _ => Raise e
      | _, _, Raise e, _ => Raise e
      | _, _, _, Raise e => Raise e
      end
  end.
Proof.
  intros H1 H2. unfold _build_data, pd_read_csv, bind, emit, get, lift, raise, ret. cbn.
  rewrite H1, H2.
  destruct (train_test_split _ _) as [[train test]|]; [|done].
  destruct (df_drop col_label train); [|done].
  destruct (df_drop col_label test); [|done].
  destruct (df_getitem col_label train); [|done].
  by destruct (df_getitem col_label test).
Qed.

End BuildData.

Lemma sample_permutation n : rev (seq 0 n) ≡ₚ seq 0 n.
Proof. symmetry. apply Permutation_rev. Qed.

Lemma iloc_raises d p e : iloc d p = Raise e -> exn_class e = "IndexError".
Proof. unfold iloc. destruct (mapM _ p); [done|]. by intros [= <-]. Qed.

Lemma train_test_split_raises perm d e :
  train_test_split perm d = Raise e ->
  exn_class e = "ValueError" \/ exn_class e = "IndexError".
Proof.
  unfold train_test_split. destruct (_ =? 0)%nat.
  - intros [= <-]. by left.
  - destruct (iloc d (take _ (drop _ _))) eqn:H1.
    + destruct (iloc d (take (n_test_of _) _)) eqn:H2; [done|].
      intros [= <-]. right. by eapply iloc_raises.
    + intros [= <-]. right. by eapply iloc_raises.
Qed.

Lemma df_drop_raises label d e : df_drop label d = Raise e -> exn_class e = "KeyError".
Proof. unfold df_drop. destruct (has_column label d); [done|]. by intros [= <-]. Qed.

Lemma df_getitem_raises label d e :
  df_getitem label d = Raise e -> exn_class e = "KeyError".
Proof. unfold df_getitem. destruct (has_column label d); [done|]. by intros [= <-]. Qed.

(** C5, as stated, fails: a missing file surfaces as pandas'
    [FileNotFoundError] and an absent label column as [KeyError]; neither is
    wrapped into [DataLoadError] or [SchemaError]. *)
Lemma build_data_errors_not_wrapped :
  files sample_world !! "missing.csv" = None /\
  (_build_data (sample_env no_fault (Ok (wine_table 10))) "missing.csv" sample_world).1
    = Raise (Exn "FileNotFoundError" "missing.csv") /\
  "FileNotFoundError" <> "DataLoadError" /\
  has_column col_label (with_range_index unlabeled_table) = false /\
  (_build_data (sample_env no_fault (Ok unlabeled_table)) "wine-quality.csv" sample_world).1
    = Raise (Exn "KeyError" "not found in axis") /\
  "KeyError" <> "SchemaError".
Proof. repeat split; try done; vm_compute; reflexivity. Qed.

(** C5 (amended): [_build_data] fails with [FileNotFoundError] when the
    file is missing, with the CSV reader's own error, unchanged, when the
    file is malformed, and with [KeyError] when the label column [quality]
    is absent from a loaded table of at least two rows; the program itself
    never raises [DataLoadError] or [SchemaError]. *)
Theorem build_data_errors (E : Env) (p : string) (w : World) :
  (files w !! p = None ->
     (_build_data E p w).1 = Raise (Exn "FileNotFoundError" p)) /\
  (forall c e, files w !! p = Some c -> env_parse_csv E c = Raise e ->
     (_build_data E p w).1 = Raise e) /\
  (forall c t, files w !! p = Some c -> env_parse_csv E c = Ok t ->
     has_column col_label (with_range_index t) = false ->
     2 <= length (t_records t) ->
     env_permutation E (length (t_records t)) ≡ₚ seq 0 (length (t_records t)) ->
     exists msg, (_build_data E p w).1 = Raise (Exn "KeyError" msg)) /\
  (forall e, (_build_data E p w).1 = Raise e ->
     exn_class e = "DataLoadError" \/ exn_class e = "SchemaError" ->
     exists c, files w !! p = Some c /\ env_parse_csv E c = Raise e).
Proof.
  split; [apply build_data_missing|].
  split; [intros; by eapply build_data_malformed|].
  split.
  - intros c t Hf Hp Hcol Hn Hperm.
    rewrite (build_data_loaded E p w c t Hf Hp).
    rewrite <- range_index_len in Hn, Hperm.
    destruct (train_test_split_total _ _ Hperm Hn) as (train & test & Hs).
    rewrite Hs. apply train_test_split_Ok in Hs as (Hc & _); [|done].
    unfold df_drop, has_column, column_names in *. rewrite Hc, Hcol. eauto.
  - intros e He Hcls.
    destruct (files w !! p) as [c|] eqn:Hf.
    2:{ rewrite build_data_missing in He by done. injection He as <-.
        cbn in Hcls. by destruct Hcls. }
    exists c. split; [done|].
    destruct (env_parse_csv E c) as [t|e'] eqn:Hp.
    2:{ rewrite (build_data_malformed E p w c e' Hf Hp) in He. congruence. }
    exfalso. rewrite (build_data_loaded E p w c t Hf Hp) in He.
    assert (Hown : exn_class e = "ValueError" \/ exn_class e = "IndexError"
                   \/ exn_class e = "KeyError").
    { destruct (train_test_split _ _) as [[train test]|e1] eqn:Hs.
      2:{ injection He as <-. apply train_test_split_raises in Hs. tauto. }
      destruct (df_drop col_label train) as [?|e1] eqn:H1.
      2:{ injection He as <-. apply df_drop_raises in H1. tauto. }
      destruct (df_drop col_label test) as [?|e1] eqn:H2.
      2:{ injection He as <-. apply df_drop_raises in H2. tauto. }
      destruct (df_getitem col_label train) as [?|e1] eqn:H3.
      2:{ injection He as <-. apply df_getitem_raises in H3. tauto. }
      destruct (df_getitem col_label test) as [?|e1] eqn:H4; [done|].
      injection He as <-. apply df_getitem_raises in H4. tauto. }
    destruct Hcls as [Hc|Hc]; rewrite Hc in Hown;
      destruct Hown as [?|[?|?]]; discriminate.
Qed.

Lemma build_data_errors_witness :
  (_build_data (sample_env no_fault (Ok (wine_table 10))) "missing.csv" sample_world).1
    = Raise (Exn "FileNotFoundError" "missing.csv") /\
  exists msg,
    (_build_data (sample_env no_fault (Ok unlabeled_table)) "wine-quality.csv" sample_world).1
      = Raise (Exn "KeyError" msg).
Proof.
  split.
  - apply (build_data_errors (sample_env no_fault (Ok (wine_table 10)))
             "missing.csv" sample_world). reflexivity.
  - apply (build_data_errors (sample_env no_fault (Ok unlabeled_table))
             "wine-quality.csv" sample_world) with (c := FText "alcohol,pH,quality")
                                                   (t := unlabeled_table).
    + reflexivity.
    + reflexivity.
    + reflexivity.
    + cbn. lia.
    + apply sample_permutation.
Defined.

(** C6: whenever the partitioner returns, the train and test partitions
    are cut from one permutation of the rows: no row label occurs in both,
    together they are exactly the rows of the loaded table, and the feature
    and label tables of each side carry the same rows.  A table of 1000 rows
    gives 300 test rows and 700 train rows.  The partitioner does return for
    every table of at least two rows that has the label column. *)
Theorem build_data_partition (E : Env) (p : string) (w : World) (c : FileData) (t : Table) :
  files w !! p = Some c ->
  env_parse_csv E c = Ok t ->
  env_permutation E (length (t_records t)) ≡ₚ seq 0 (length (t_records t)) ->
  let data := with_range_index t in
  (has_column col_label data = true -> 2 <= df_len data ->
     exists q, (_build_data E p w).1 = Ok q) /\
  (forall X_train X_test y_train y_test,
     (_build_data E p w).1 = Ok (X_train, X_test, y_train, y_test) ->
     exists train test,
       X_train = select_columns (fun c => negb (String.eqb col_label c)) train /\
       y_train = select_columns (String.eqb col_label) train /\
       X_test = select_columns (fun c => negb (String.eqb col_label c)) test /\
       y_test = select_columns (String.eqb col_label) test /\
       df_rows train ++ df_rows test ≡ₚ df_rows data /\
       df_index y_train = df_index X_train /\
       df_index y_test = df_index X_test /\
       NoDup (df_index X_train ++ df_index X_test) /\
       (forall i, i ∈ df_index X_train -> i ∉ df_index X_test) /\
       df_index X_train ++ df_index X_test ≡ₚ df_index data /\
       (df_len data = 1000 ->
          df_len X_test = 300 /\ df_len X_train = 700 /\
          df_len y_test = 300 /\ df_len y_train = 700)).
Proof.
  intros Hf Hp Hperm data. subst data.
  rewrite <- range_index_len in Hperm.
  rewrite (build_data_loaded E p w c t Hf Hp).
  split.
  - intros Hcol Hn.
    destruct (train_test_split_total _ _ Hperm Hn) as (train & test & Hs).
    rewrite Hs. apply train_test_split_Ok in Hs as (Hc1 & Hc2 & _); [|done].
    unfold df_drop, df_getitem, has_column, column_names in *.
    rewrite Hc1, Hc2, Hcol. eauto.
  - intros X_train X_test y_train y_test Hq.
    destruct (train_test_split _ _) as [[train test]|] eqn:Hs; [|done].
    apply train_test_split_Ok in Hs as (_ & _ & Hlte & Hltr & Hrows); [|done].
    unfold df_drop, df_getitem in Hq.
    destruct (has_column col_label train); [|done].
    destruct (has_column col_label test); [|done].
    injection Hq as <- <- <- <-.
    assert (Hidx : df_index train ++ df_index test ≡ₚ df_index (with_range_index t)).
    { unfold df_index. rewrite <- fmap_app.
      rewrite (Permutation_app_comm (df_rows train)). by rewrite Hrows. }
    assert (Hnd : NoDup (df_index train ++ df_index test)).
    { rewrite Hidx, range_index_index. apply NoDup_seq. }
    exists train, test. rewrite !select_columns_index, !select_columns_len.
    repeat split; try done.
    + rewrite (Permutation_app_comm (df_rows train)). done.
    + apply NoDup_app in Hnd. apply Hnd.
    + rewrite Hlte, H. reflexivity.
    + rewrite Hltr, H. reflexivity.
    + rewrite Hlte, H. reflexivity.
    + rewrite Hltr, H. reflexivity.
Qed.

Lemma build_data_partition_witness :
  exists q,
    (_build_data (sample_env no_fault (Ok (wine_table 1000))) "wine-quality.csv"
                 sample_world).1 = Ok q /\
    df_len q.1.1.2 = 300 /\ df_len q.1.1.1 = 700.
Proof.
  destruct (build_data_partition (sample_env no_fault (Ok (wine_table 1000)))
              "wine-quality.csv" sample_world (FText "alcohol,pH,quality")
              (wine_table 1000) eq_refl eq_refl (sample_permutation _))
    as [Hret Hpart].
  destruct Hret as [[[[X_train X_test] y_train] y_test] Hq].
  - vm_compute. reflexivity.
  - vm_compute. lia.
  - exists (X_train, X_test, y_train, y_test). split; [exact Hq|].
    destruct (Hpart _ _ _ _ Hq)
      as (train & test & _ & _ & _ & _ & _ & _ & _ & _ & _ & _ & Hsize).
    destruct Hsize as (H300 & H700 & _); [vm_compute; reflexivity|].
    cbn. auto.
Defined.

(** ** Successful steps *)

Section Steps.

Variable E : Env.

Lemma bind_Ok {A B} (m : M A) (k : A -> M B) w b w' :
  bind m k w = (Ok b, w') ->
  exists a w1, m w = (Ok a, w1) /\ k a w1 = (Ok b, w').
Proof.
  unfold bind. destruct (m w) as [[a|e] w1]; [eauto|discriminate].
Qed.

Lemma bind_Raise {A B} (m : M A) (k : A -> M B) w e w' :
  bind m k w = (Raise e, w') ->
  m w = (Raise e, w') \/ exists a w1, m w = (Ok a, w1) /\ k a w1 = (Raise e, w').
Proof.
  unfold bind. destruct (m w) as [[a|e1] w1]; [eauto|]. intros [= <- <-]. by left.
Qed.

Lemma guard_Ok op w u w' :
  guard E op w = (Ok u, w') -> env_fault E op = None /\ w' = w.
Proof. unfold guard. destruct (env_fault E op); [discriminate|]. by intros [= <-]. Qed.

Lemma emit_Ok ev w u w' : emit ev w = (Ok u, w') -> w' = log_event ev w.
Proof. by intros [= <-]. Qed.

Lemma modify_Ok f w u w' : modify f w = (Ok u, w') -> w' = f w.
Proof. by intros [= <-]. Qed.

Lemma ret_Ok {A} (a b : A) w w' : ret a w = (Ok b, w') -> b = a /\ w' = w.
Proof. by intros [= <- <-]. Qed.

Lemma when_str_truthy o body :
  truthy o = true -> exists s, o = Some s /\ s <> "" /\ when_str o body = body s.
Proof.
  destruct o as [s|]; [|done]. cbn.
  destruct (String.eqb_spec s ""); [done|]. eauto.
Qed.

Lemma when_str_falsy o body : truthy o = false -> when_str o body = ret tt.
Proof. destruct o as [s|]; [|done]. cbn. by destruct (String.eqb s ""). Qed.

Lemma active_run_id_Ok rid rest w a w' :
  active_runs w = rid :: rest ->
  active_run_id E w = (Ok a, w') -> a = rid /\ w' = w.
Proof.
  intros Ha. unfold active_run_id, bind, get. rewrite Ha. by intros [= <- <-].
Qed.

Lemma fluent_Ok op f ev rid rest w u w' :
  active_runs w = rid :: rest ->
  (guard E op ;;
   let! r := active_run_id E in
   update_run r (f r) ;; emit (ev r)) w = (Ok u, w') ->
  env_fault E op = None /\ w' = on_run rid (f rid) (ev rid) w.
Proof.
  intros Ha H.
  apply bind_Ok in H as (? & w1 & H1 & H). apply guard_Ok in H1 as [Hf ->].
  apply bind_Ok in H as (r & w2 & H2 & H).
  apply (active_run_id_Ok _ _ _ _ _ Ha) in H2 as [-> ->].
  apply bind_Ok in H as (? & w3 & H3 & H). apply modify_Ok in H3 as ->.
  apply emit_Ok in H as ->. done.
Qed.

Lemma set_tag_Ok key v rid rest w u w' :
  active_runs w = rid :: rest ->
  mlflow_set_tag E key v w = (Ok u, w') ->
  w' = on_run rid (add_tag key v) (EvSetTag rid key v) w.
Proof.
  intros Ha H.
  by apply (fluent_Ok _ (fun _ => add_tag key v) (fun r => EvSetTag r key v) _ _ _ _ _ Ha) in H as [_ ->].
Qed.

Lemma log_param_Ok key v rid rest w u w' :
  active_runs w = rid :: rest ->
  mlflow_log_param E key v w = (Ok u, w') ->
  w' = on_run rid (add_param key v) (EvLogParam rid key v) w.
Proof.
  intros Ha H.
  by apply (fluent_Ok _ (fun _ => add_param key v) (fun r => EvLogParam r key v) _ _ _ _ _ Ha) in H as [_ ->].
Qed.

Lemma log_metric_Ok key v rid rest w u w' :
  active_runs w = rid :: rest ->
  mlflow_log_metric E key v w = (Ok u, w') ->
  w' = on_run rid (add_metric key v) (EvLogMetric rid key v) w.
Proof.
  intros Ha H.
  by apply (fluent_Ok _ (fun _ => add_metric key v) (fun r => EvLogMetric r key v) _ _ _ _ _ Ha) in H as [_ ->].
Qed.

Lemma log_model_Ok m path sg rid rest w u w' :
  active_runs w = rid :: rest ->
  mlflow_sklearn_log_model E m path sg w = (Ok u, w') ->
  w' = on_run rid (add_artifact (ASklearnModel path m sg)) (EvLogModel rid path m sg) w.
Proof.
  intros Ha H.
  by apply (fluent_Ok _ (fun _ => add_artifact (ASklearnModel path m sg))
              (fun r => EvLogModel r path m sg) _ _ _ _ _ Ha) in H as [_ ->].
Qed.

Lemma onnx_log_model_Ok m path name X rid rest w u w' :
  active_runs w = rid :: rest ->
  onnx_utils_log_model E m path name X w = (Ok u, w') ->
  w' = on_run rid (add_artifact (AOnnxModel path m X)) (EvOnnxLogModel rid path name) w.
Proof.
  intros Ha H.
  by apply (fluent_Ok _ (fun _ => add_artifact (AOnnxModel path m X))
              (fun r => EvOnnxLogModel r path name) _ _ _ _ _ Ha) in H as [_ ->].
Qed.

Lemma log_artifact_Ok path rid rest w u w' :
  active_runs w = rid :: rest ->
  mlflow_log_artifact E path w = (Ok u, w') ->
  w' = on_run rid (add_artifact (AFile path)) (EvLogArtifact rid path) w.
Proof.
  intros Ha H.
  by apply (fluent_Ok _ (fun _ => add_artifact (AFile path))
              (fun r => EvLogArtifact r path) _ _ _ _ _ Ha) in H as [_ ->].
Qed.

Lemma guarded_emit_Ok op ev w u w' :
  (guard E op ;; emit ev) w = (Ok u, w') -> w' = log_event ev w.
Proof.
  intros H. apply bind_Ok in H as (? & w1 & H1 & H).
  apply guard_Ok in H1 as [_ ->]. by apply emit_Ok in H.
Qed.

Lemma model_fit_Ok m X y w m' w' :
  model_fit E m X y w = (Ok m', w') -> m' = Fitted m X y /\ w' = log_event (EvFit m) w.
Proof.
  intros H. apply bind_Ok in H as (? & w1 & H1 & H). apply guard_Ok in H1 as [_ ->].
  apply bind_Ok in H as (? & w2 & H2 & H). apply emit_Ok in H2 as ->.
  by apply ret_Ok in H.
Qed.

Lemma model_predict_Ok m X w p w' :
  model_predict E m X w = (Ok p, w') -> p = Predict m X /\ w' = log_event (EvPredict m) w.
Proof.
  intros H. apply bind_Ok in H as (? & w1 & H1 & H). apply guard_Ok in H1 as [_ ->].
  apply bind_Ok in H as (? & w2 & H2 & H). apply emit_Ok in H2 as ->.
  by apply ret_Ok in H.
Qed.

Lemma metric_Ok name v w v' w' :
  metric E name v w = (Ok v', w') -> v' = v /\ w' = w.
Proof.
  intros H. apply bind_Ok in H as (? & w1 & H1 & H). apply guard_Ok in H1 as [_ ->].
  by apply ret_Ok in H.
Qed.

Lemma infer_signature_Ok X p w s w' :
  mlflow_infer_signature E X p w = (Ok s, w') -> s = infer_signature X p /\ w' = w.
Proof.
  intros H. apply bind_Ok in H as (? & w1 & H1 & H). apply guard_Ok in H1 as [_ ->].
  by apply ret_Ok in H.
Qed.

Lemma create_plot_file_Ok y p path w u w' :
  plot_utils_create_plot_file E y p path w = (Ok u, w') ->
  w' = log_event (EvCreatePlotFile path) (set_files (<[path := FPlot y p]> (files w)) w).
Proof.
  intros H. apply bind_Ok in H as (? & w1 & H1 & H). apply guard_Ok in H1 as [_ ->].
  apply bind_Ok in H as (? & w2 & H2 & H). apply modify_Ok in H2 as ->.
  by apply emit_Ok in H.
Qed.

Lemma open_w_Ok path w f w' :
  open_w E path w = (Ok f, w') ->
  f = path /\ w' = log_event (EvOpen path) (set_files (<[path := FText ""]> (files w)) w).
Proof.
  intros H. apply bind_Ok in H as (? & w1 & H1 & H). apply guard_Ok in H1 as [_ ->].
  apply bind_Ok in H as (? & w2 & H2 & H). apply modify_Ok in H2 as ->.
  apply bind_Ok in H as (? & w3 & H3 & H). apply emit_Ok in H3 as ->.
  by apply ret_Ok in H.
Qed.

Lemma file_write_Ok f data w u w' :
  file_write E f data w = (Ok u, w') ->
  w' = log_event (EvWrite f data)
         (set_files (<[f := FText (text_of (files w !! f) +:+ data)]> (files w)) w).
Proof.
  intros H. apply bind_Ok in H as (? & w1 & H1 & H). apply guard_Ok in H1 as [_ ->].
  apply bind_Ok in H as (? & w2 & H2 & H). apply modify_Ok in H2 as ->.
  by apply emit_Ok in H.
Qed.

Lemma client_get_run_Ok rid w run w' :
  client_get_run E rid w = (Ok run, w') ->
  w' = log_event (EvGetRun rid) w /\
  exists r, runs w !! rid = Some r /\ run = mkHandle rid r.
Proof.
  intros H. apply bind_Ok in H as (? & w1 & H1 & H). apply guard_Ok in H1 as [_ ->].
  apply bind_Ok in H as (? & w2 & H2 & H). apply emit_Ok in H2 as ->.
  unfold bind, get in H. cbn in H.
  destruct (runs w !! rid) as [r|]; [|discriminate].
  apply ret_Ok in H as [-> ->]. eauto.
Qed.

Lemma client_set_tag_Ok rid key v w u w' :
  client_set_tag E rid key v w = (Ok u, w') ->
  w' = on_run rid (add_tag key v) (EvClientSetTag rid key v) w.
Proof.
  intros H. apply bind_Ok in H as (? & w1 & H1 & H). apply guard_Ok in H1 as [_ ->].
  apply bind_Ok in H as (? & w2 & H2 & H). apply modify_Ok in H2 as ->.
  by apply emit_Ok in H.
Qed.

Lemma start_run_Ok name w run w' :
  mlflow_start_run E name w = (Ok run, w') ->
  active_runs w = [] /\
  let rid := env_run_id E (size (runs w)) in
  let r := mkRun (default "0" (active_experiment w)) name RUNNING
                 (env_clock E (length (trace w))) None ∅ ∅ ∅ [] in
  run = mkHandle rid r /\
  w' = log_event (EvStartRun rid name)
         (set_active_runs [rid] (set_runs (<[rid := r]> (runs w)) w)).
Proof.
  intros H. apply bind_Ok in H as (? & w1 & H1 & H). apply guard_Ok in H1 as [_ ->].
  unfold bind, get in H. cbn in H.
  destruct (active_runs w) eqn:Ha; [|discriminate]. cbn in H.
  injection H as <- <-. split; [done|]. cbn. split; [done|].
  unfold log_event, set_active_runs, set_runs. cbn. by rewrite Ha.
Qed.

End Steps.

(** ** What every call of the run body leaves alone *)

Section Frame.

Variable E : Env.
Variable P : Event -> Prop.

Lemma same_lifecycle_refl r : same_lifecycle r r.
Proof. by repeat split. Qed.

Lemma same_lifecycle_trans r1 r2 r3 :
  same_lifecycle r1 r2 -> same_lifecycle r2 r3 -> same_lifecycle r1 r3.
Proof.
  intros (a1 & a2 & a3 & a4) (b1 & b2 & b3 & b4).
  repeat split; congruence.
Qed.

Lemma frame_refl w : frame P w w.
Proof.
  repeat split; try done.
  - intros rid r Hr. exists r. split; [done|apply same_lifecycle_refl].
  - exists []. by rewrite app_nil_r.
Qed.

Lemma frame_trans w1 w2 w3 : frame P w1 w2 -> frame P w2 w3 -> frame P w1 w3.
Proof.
  intros (a1 & a2 & a3 & a4 & evs1 & a5 & a6) (b1 & b2 & b3 & b4 & evs2 & b5 & b6).
  repeat split; try congruence.
  - intros rid r Hr. destruct (a4 _ _ Hr) as (r' & Hr' & Hl).
    destruct (b4 _ _ Hr') as (r'' & Hr'' & Hl').
    exists r''. split; [done|]. by eapply same_lifecycle_trans.
  - exists (evs1 ++ evs2). split.
    + rewrite b5, a5. by rewrite app_assoc.
    + by apply Forall_app.
Qed.

Lemma framed_ret {A} (a : A) w : framed P (ret a) w.
Proof. intros _ r w' [= <- <-]. apply frame_refl. Qed.

Lemma framed_raise {A} e w : framed P (@raise A e) w.
Proof. intros _ r w' [= <- <-]. apply frame_refl. Qed.

Lemma framed_guard op w : framed P (guard E op) w.
Proof.
  intros _ r w'. unfold guard. destruct (env_fault E op); intros [= <- <-];
    apply frame_refl.
Qed.

Lemma framed_emit ev w : P ev -> framed P (emit ev) w.
Proof.
  intros Hev _ r w' [= <- <-]. repeat split; try done.
  - intros rid r Hr. exists r. split; [done|apply same_lifecycle_refl].
  - exists [ev]. split; [done|]. by apply Forall_singleton.
Qed.

Lemma framed_update_run rid f w :
  (forall r, same_lifecycle r (f r)) -> framed P (update_run rid f) w.
Proof.
  intros Hf _ r w' [= <- <-]. repeat split; try done.
  - intros rid' r Hr. cbn. destruct (decide (rid = rid')) as [->|Hne].
    + rewrite lookup_alter_eq, Hr. cbn. eauto.
    + rewrite lookup_alter_ne by done. exists r. split; [done|apply same_lifecycle_refl].
  - exists []. cbn. by rewrite app_nil_r.
Qed.

Lemma framed_set_files g w :
  framed P (modify (fun w => set_files (g (files w)) w)) w.
Proof.
  intros _ r w' [= <- <-]. repeat split; try done.
  - intros rid r Hr. exists r. split; [done|apply same_lifecycle_refl].
  - exists []. cbn. by rewrite app_nil_r.
Qed.

Lemma framed_bind {A B} (m : M A) (k : A -> M B) w :
  framed P m w ->
  (forall a w1, m w = (Ok a, w1) -> framed P (k a) w1) ->
  framed P (bind m k) w.
Proof.
  intros Hm Hk Hact r w' H. unfold bind in H.
  destruct (m w) as [[a|e] w1] eqn:Hmw.
  - pose proof (Hm Hact _ _ Hmw) as Hf1.
    eapply frame_trans; [exact Hf1|].
    eapply (Hk a w1 eq_refl); [|exact H].
    destruct Hf1 as (-> & _). exact Hact.
  - injection H as <- <-. by eapply Hm.
Qed.

Lemma framed_active_run_id w : framed P (active_run_id E) w.
Proof.
  intros Hact r w'. unfold active_run_id, bind, get.
  destruct (active_runs w) eqn:Ha; [done|]. intros [= <- <-]. apply frame_refl.
Qed.

Lemma framed_when b (m : M unit) w : framed P m w -> framed P (when b m) w.
Proof. destruct b; [done|]. intros _. apply framed_ret. Qed.

Lemma framed_when_str o (body : string -> M unit) w :
  (forall s, o = Some s -> s <> "" -> framed P (body s) w) ->
  framed P (when_str o body) w.
Proof.
  destruct o as [s|]; cbn; [|intros _; apply framed_ret].
  destruct (String.eqb_spec s ""); [intros _; apply framed_ret|]. eauto.
Qed.

Lemma add_tag_lifecycle k v r : same_lifecycle r (add_tag k v r).
Proof. by repeat split. Qed.
Lemma add_param_lifecycle k v r : same_lifecycle r (add_param k v r).
Proof. by repeat split. Qed.
Lemma add_metric_lifecycle k v r : same_lifecycle r (add_metric k v r).
Proof. by repeat split. Qed.
Lemma add_artifact_lifecycle a r : same_lifecycle r (add_artifact a r).
Proof. by repeat split. Qed.

End Frame.

Section FramedCalls.

Variable E : Env.
Variable P : Event -> Prop.

Lemma framed_fluent op (f : string -> RunRec -> RunRec) (ev : string -> Event) w :
  (forall rid r, same_lifecycle r (f rid r)) ->
  (forall rid, P (ev rid)) ->
  framed P (guard E op ;;
            let! r := active_run_id E in
            update_run r (f r) ;; emit (ev r)) w.
Proof.
  intros Hf Hev.
  apply framed_bind; [apply framed_guard|intros _ w1 _].
  apply framed_bind; [apply framed_active_run_id|intros rid w2 _].
  apply framed_bind; [by apply framed_update_run|intros _ w3 _].
  by apply framed_emit.
Qed.

Lemma framed_set_tag key v w :
  (forall rid, P (EvSetTag rid key v)) -> framed P (mlflow_set_tag E key v) w.
Proof.
  intros. apply (framed_fluent _ (fun _ => add_tag key v) (fun r => EvSetTag r key v));
    [intros; apply add_tag_lifecycle|done].
Qed.

Lemma framed_log_param key v w :
  (forall rid, P (EvLogParam rid key v)) -> framed P (mlflow_log_param E key v) w.
Proof.
  intros. apply (framed_fluent _ (fun _ => add_param key v) (fun r => EvLogParam r key v));
    [intros; apply add_param_lifecycle|done].
Qed.

Lemma framed_log_metric key v w :
  (forall rid, P (EvLogMetric rid key v)) -> framed P (mlflow_log_metric E key v) w.
Proof.
  intros. apply (framed_fluent _ (fun _ => add_metric key v) (fun r => EvLogMetric r key v));
    [intros; apply add_metric_lifecycle|done].
Qed.

Lemma framed_log_model m path sg w :
  (forall rid, P (EvLogModel rid path m sg)) ->
  framed P (mlflow_sklearn_log_model E m path sg) w.
Proof.
  intros. apply (framed_fluent _ (fun _ => add_artifact (ASklearnModel path m sg))
                   (fun r => EvLogModel r path m sg));
    [intros; apply add_artifact_lifecycle|done].
Qed.

Lemma framed_onnx_log_model m path name X w :
  (forall rid, P (EvOnnxLogModel rid path name)) ->
  framed P (onnx_utils_log_model E m path name X) w.
Proof.
  intros. apply (framed_fluent _ (fun _ => add_artifact (AOnnxModel path m X))
                   (fun r => EvOnnxLogModel r path name));
    [intros; apply add_artifact_lifecycle|done].
Qed.

Lemma framed_log_artifact path w :
  (forall rid, P (EvLogArtifact rid path)) -> framed P (mlflow_log_artifact E path) w.
Proof.
  intros. apply (framed_fluent _ (fun _ => add_artifact (AFile path))
                   (fun r => EvLogArtifact r path));
    [intros; apply add_artifact_lifecycle|done].
Qed.

Lemma framed_guarded_emit op ev w : P ev -> framed P (guard E op ;; emit ev) w.
Proof.
  intros. apply framed_bind; [apply framed_guard|intros _ w1 _]. by apply framed_emit.
Qed.

Lemma framed_guarded_ret {A} op (a : A) w : framed P (guard E op ;; ret a) w.
Proof. apply framed_bind; [apply framed_guard|intros _ w1 _]. apply framed_ret. Qed.

Lemma framed_model_fit m X y w : P (EvFit m) -> framed P (model_fit E m X y) w.
Proof.
  intros. apply framed_bind; [apply framed_guard|intros _ w1 _].
  apply framed_bind; [by apply framed_emit|intros _ w2 _]. apply framed_ret.
Qed.

Lemma framed_model_predict m X w : P (EvPredict m) -> framed P (model_predict E m X) w.
Proof.
  intros. apply framed_bind; [apply framed_guard|intros _ w1 _].
  apply framed_bind; [by apply framed_emit|intros _ w2 _]. apply framed_ret.
Qed.

Lemma framed_uuid w : framed P (shortuuid_uuid E) w.
Proof. intros _ r w' [= <- <-]. apply frame_refl. Qed.

Lemma framed_create_plot_file y p path w :
  P (EvCreatePlotFile path) -> framed P (plot_utils_create_plot_file E y p path) w.
Proof.
  intros. apply framed_bind; [apply framed_guard|intros _ w1 _].
  apply framed_bind; [|intros _ w2 _; by apply framed_emit].
  apply (framed_set_files P (fun fs => <[path := FPlot y p]> fs)).
Qed.

Lemma framed_open_w path w : P (EvOpen path) -> framed P (open_w E path) w.
Proof.
  intros. apply framed_bind; [apply framed_guard|intros _ w1 _].
  apply framed_bind; [apply (framed_set_files P (fun fs => <[path := FText ""]> fs))|].
  intros _ w2 _. apply framed_bind; [by apply framed_emit|intros _ w3 _]. apply framed_ret.
Qed.

Lemma framed_file_write f data w : P (EvWrite f data) -> framed P (file_write E f data) w.
Proof.
  intros. apply framed_bind; [apply framed_guard|intros _ w1 _].
  apply framed_bind; [|intros _ w2 _; by apply framed_emit].
  apply (framed_set_files P
           (fun fs => <[f := FText (text_of (fs !! f) +:+ data)]> fs)).
Qed.

End FramedCalls.

(** ** The run body stays within its frame *)

Section BodyFrame.

Variable E : Env.
Variable self : Trainer.
Variables (registered_model_name : option string) (stage : string) (archive : bool).
Variables (output_path : option string) (max_depth : option Z) (max_leaf_nodes : Z).
Variable P : Event -> Prop.

Hypothesis P_other : forall ev, is_log_model ev = false -> is_end_run ev = false -> P ev.
Hypothesis P_model :
  forall rid, P (EvLogModel rid "model" (fitted_model self max_depth max_leaf_nodes)
                   (expected_signature self max_depth max_leaf_nodes)).

Lemma signature_Ok w sg w1 :
  (if save_signature self
   then let! s := mlflow_infer_signature E (X_train self)
                    (holdout_predictions self max_depth max_leaf_nodes) in
        ret (Some s)
   else ret None) w = (Ok sg, w1) ->
  sg = expected_signature self max_depth max_leaf_nodes.
Proof.
  unfold expected_signature. destruct (save_signature self).
  - intros H. apply bind_Ok in H as (s & w2 & H1 & H).
    apply infer_signature_Ok in H1 as [-> _]. by apply ret_Ok in H as [-> _].
  - intros H. by apply ret_Ok in H as [-> _].
Qed.

Lemma framed_signature w :
  framed P (if save_signature self
            then let! s := mlflow_infer_signature E (X_train self)
                             (holdout_predictions self max_depth max_leaf_nodes) in
                 ret (Some s)
            else ret None) w.
Proof.
  destruct (save_signature self); [|apply framed_ret].
  apply framed_bind; [apply framed_guarded_ret|intros; apply framed_ret].
Qed.

Ltac other := intros; apply P_other; reflexivity.

Ltac fr :=
  lazymatch goal with
  | |- framed _ (bind _ _) _ =>
      apply framed_bind;
      [ fr
      | let a := fresh "a" in
        let w1 := fresh "w" in
        let Hs := fresh "Hs" in
        intros a w1 Hs;
        first [ apply model_fit_Ok in Hs as [-> _]
              | apply model_predict_Ok in Hs as [-> _]
              | apply metric_Ok in Hs as [-> _]
              | apply signature_Ok in Hs as ->
              | apply open_w_Ok in Hs as [-> _]
              | clear Hs ];
        fr ]
  | |- framed _ (mlflow_set_tag _ _ _) _ => apply framed_set_tag; other
  | |- framed _ (mlflow_log_param _ _ _) _ => apply framed_log_param; other
  | |- framed _ (mlflow_log_metric _ _ _) _ => apply framed_log_metric; other
  | |- framed _ (mlflow_sklearn_log_model _ _ _ _) _ => apply framed_log_model; apply P_model
  | |- framed _ (onnx_utils_log_model _ _ _ _ _) _ => apply framed_onnx_log_model; other
  | |- framed _ (mlflow_log_artifact _ _) _ => apply framed_log_artifact; other
  | |- framed _ (client_get_experiment _ _) _ => apply framed_guarded_emit; other
  | |- framed _ (mlflow_utils_register_model _ _ _ _ _ _) _ =>
      apply framed_guarded_emit; other
  | |- framed _ (plot_utils_create_plot_file _ _ _ _) _ =>
      apply framed_create_plot_file; other
  | |- framed _ (open_w _ _) _ => apply framed_open_w; other
  | |- framed _ (file_write _ _ _) _ => apply framed_file_write; other
  | |- framed _ (shortuuid_uuid _) _ => apply framed_uuid
  | |- framed _ (model_fit _ _ _ _) _ => apply framed_model_fit; other
  | |- framed _ (model_predict _ _ _) _ => apply framed_model_predict; other
  | |- framed _ (metric _ _ _) _ => apply framed_guarded_ret
  | |- framed _ (ret _) _ => apply framed_ret
  | |- framed _ (when _ _) _ => apply framed_when; fr
  | |- framed _ (when_str _ _) _ => apply framed_when_str; intros; fr
  | |- framed _ (if save_signature _ then _ else _) _ => apply framed_signature
  end.

Lemma train_body_framed run w :
  framed P (train_body E self registered_model_name stage archive output_path
                       max_depth max_leaf_nodes run) w.
Proof.
  unfold train_body. cbv zeta.
  change (Fitted (DecisionTreeRegressor max_depth max_leaf_nodes)
                 (X_train self) (y_train self))
    with (fitted_model self max_depth max_leaf_nodes).
  fr.
Qed.

End BodyFrame.

(** ** The run body *)

Section Body.

Variable E : Env.

Lemma uuid_Ok w a w' :
  shortuuid_uuid E w = (Ok a, w') -> a = env_uuid E (length (trace w)) /\ w' = w.
Proof. unfold shortuuid_uuid, bind, get, ret. by intros [= <- <-]. Qed.

(** Consume [H : m w = (Ok a, w')] and leave [H : w' = ...]. *)
Ltac run H :=
  lazymatch type of H with
  | bind _ _ _ = _ =>
      let u := fresh "u" in
      let w1 := fresh "w" in
      let Hs := fresh "Hs" in
      apply bind_Ok in H as (u & w1 & Hs & H);
      run Hs; subst w1; cbv beta zeta in H; run H
  | mlflow_set_tag _ _ _ _ = _ => eapply set_tag_Ok in H; [|reflexivity]
  | mlflow_log_param _ _ _ _ = _ => eapply log_param_Ok in H; [|reflexivity]
  | mlflow_log_metric _ _ _ _ = _ => eapply log_metric_Ok in H; [|reflexivity]
  | mlflow_sklearn_log_model _ _ _ _ _ = _ => eapply log_model_Ok in H; [|reflexivity]
  | onnx_utils_log_model _ _ _ _ _ _ = _ => eapply onnx_log_model_Ok in H; [|reflexivity]
  | mlflow_log_artifact _ _ _ = _ => eapply log_artifact_Ok in H; [|reflexivity]
  | client_get_experiment _ _ _ = _ => apply guarded_emit_Ok in H
  | mlflow_utils_register_model _ _ _ _ _ _ _ = _ => apply guarded_emit_Ok in H
  | plot_utils_create_plot_file _ _ _ _ _ = _ => apply create_plot_file_Ok in H
  | file_write _ _ _ _ = _ => apply file_write_Ok in H
  | client_set_tag _ _ _ _ _ = _ => apply client_set_tag_Ok in H
  | shortuuid_uuid _ _ = _ => apply uuid_Ok in H as [-> H]
  | model_fit _ _ _ _ _ = _ => apply model_fit_Ok in H as [-> H]
  | model_predict _ _ _ _ = _ => apply model_predict_Ok in H as [-> H]
  | metric _ _ _ _ = _ => apply metric_Ok in H as [-> H]
  | mlflow_infer_signature _ _ _ _ = _ => apply infer_signature_Ok in H as [-> H]
  | open_w _ _ _ = _ => apply open_w_Ok in H as [-> H]
  | ret _ _ = _ => apply ret_Ok in H as [-> H]
  | when ?b _ _ = _ =>
      unfold when in H; destruct b eqn:?; run H
  | (if ?b then _ else _) _ = _ =>
      destruct b eqn:?; run H
  | when_str ?o ?body _ = _ =>
      let Ht := fresh "Ht" in
      let s := fresh "s" in
      destruct (truthy o) eqn:Ht;
      [ let Hw := fresh "Hw" in
        let Hne := fresh "Hne" in
        destruct (when_str_truthy o body Ht) as (s & -> & Hne & Hw);
        rewrite Hw in H; clear Hw; run H
      | rewrite (when_str_falsy _ _ Ht) in H; run H ]
  end.

Lemma train_body_Ok self rmn stage arch out md mln run w r w' :
  active_runs w = [info_run_id run] ->
  train_body E self rmn stage arch out md mln run w = (Ok r, w') ->
  let rid := info_run_id run in
  let eid := r_experiment_id (info run) in
  r = (eid, rid) /\
  (exists uuid,
     trace w' = trace w ++
       expected_body_events E self rmn stage arch out md mln rid eid uuid) /\
  files w' = expected_files self out md mln rid (files w).
Proof.
  intros Ha H. unfold train_body in H. destruct w as [fs xs ax rs ar tr].
  cbn in Ha. subst ar. cbv zeta in H.
  run H.
  all: subst w'; cbv zeta;
    unfold expected_body_events, logging_events, output_events, expected_files.
  all: cbn [trace files on_run log_event set_files set_runs].
  all: rewrite ?Heqb, ?Heqb0, ?Heqb1, ?Ht, ?Ht0.
  all: split; [reflexivity|].
  all: split; [eexists; rewrite <- ?app_assoc; reflexivity|].
  all: first [ reflexivity
             | rewrite lookup_insert_eq; cbn [text_of String.append];
               rewrite insert_insert_eq; reflexivity ].
Qed.

(** ** The run context *)

Lemma with_start_run_inv {A} name (body : Run -> M A) w r w' :
  with_start_run E name body w = (r, w') ->
  (exists e, mlflow_start_run E name w = (Raise e, w') /\ r = Raise e) \/
  (exists run w1 w2,
     mlflow_start_run E name w = (Ok run, w1) /\ body run w1 = (r, w2) /\
     w' = mlflow_end_run E (match r with Ok _ => FINISHED | Raise _ => FAILED end) w2).
Proof.
  unfold with_start_run, bind.
  destruct (mlflow_start_run E name w) as [[run|e] w1] eqn:Hs.
  - destruct (body run w1) as [[a|e] w2] eqn:Hb; intros [= <- <-];
      right; exists run, w1, w2; by rewrite Hb.
  - intros [= <- <-]. left. eauto.
Qed.

Lemma end_run_closes status rid w r :
  active_runs w = [rid] -> runs w !! rid = Some r ->
  active_runs (mlflow_end_run E status w) = [] /\
  trace (mlflow_end_run E status w) = trace w ++ [EvEndRun rid status] /\
  files (mlflow_end_run E status w) = files w /\
  runs (mlflow_end_run E status w) !! rid
    = Some (terminate status (env_clock E (length (trace w))) r).
Proof.
  intros Ha Hr. unfold mlflow_end_run. rewrite Ha. cbn.
  repeat split; try done. by rewrite lookup_alter_eq, Hr.
Qed.

(** The world in which the body starts. *)
Lemma start_run_world name w run w1 :
  mlflow_start_run E name w = (Ok run, w1) ->
  active_runs w = [] /\
  info_run_id run = env_run_id E (size (runs w)) /\
  r_experiment_id (info run) = default "0" (active_experiment w) /\
  active_runs w1 = [info_run_id run] /\
  runs w1 !! info_run_id run = Some (info run) /\
  r_status (info run) = RUNNING /\
  r_start_time (info run) = env_clock E (length (trace w)) /\
  trace w1 = trace w ++ [EvStartRun (info_run_id run) name] /\
  files w1 = files w.
Proof.
  intros H. apply start_run_Ok in H as (Ha & -> & ->). cbn.
  repeat split; try done. by rewrite lookup_insert_eq.
Qed.

(** Whatever the body does, it leaves the run it was given active, open and
    in the store. *)
Lemma train_body_keeps_run self rmn stage arch out md mln run w1 r w2 r0 :
  active_runs w1 = [info_run_id run] ->
  runs w1 !! info_run_id run = Some r0 ->
  train_body E self rmn stage arch out md mln run w1 = (r, w2) ->
  active_runs w2 = [info_run_id run] /\
  exists r1, runs w2 !! info_run_id run = Some r1 /\ same_lifecycle r0 r1.
Proof.
  intros Ha Hr H.
  pose proof (train_body_framed E self rmn stage arch out md mln (fun _ => True)
                (fun _ _ _ => I) (fun _ => I) run w1) as Hf.
  destruct (Hf ltac:(by rewrite Ha) _ _ H) as (Ha2 & _ & _ & Hruns & _).
  split; [congruence|]. eauto.
Qed.

Lemma train_finalize_Ok eid rid w r w' r0 :
  runs w !! rid = Some r0 ->
  train_finalize E eid rid w = (Ok r, w') ->
  r = (eid, rid) /\
  trace w' = trace w ++ EvGetRun rid ::
    map (fun kv => EvClientSetTag rid kv.1 kv.2)
        (timing_tags (r_start_time r0) (r_end_time r0)) /\
  files w' = files w /\
  active_runs w' = active_runs w /\
  exists r1, runs w' !! rid = Some r1 /\ same_lifecycle r0 r1 /\
    Forall (fun kv => r_tags r1 !! kv.1 = Some kv.2)
           (timing_tags (r_start_time r0) (r_end_time r0)).
Proof.
  intros Hr H. unfold train_finalize in H.
  apply bind_Ok in H as (run & w1 & Hg & H).
  apply client_get_run_Ok in Hg as (-> & r0' & Hr' & ->).
  rewrite Hr in Hr'. injection Hr' as <-. cbn [info] in H.
  run H. subst w'.
  cbn [trace files active_runs runs on_run log_event set_files set_runs].
  split; [done|]. split; [by rewrite <- !app_assoc|]. do 2 (split; [done|]).
  rewrite !lookup_alter_eq, Hr. cbn [fmap option_fmap option_map].
  eexists. split; [reflexivity|]. split; [by repeat split|].
  unfold timing_tags. cbn [r_tags add_tag].
  repeat apply Forall_cons_2; try apply Forall_nil_2; cbn [fst snd].
  - do 3 (rewrite lookup_insert_ne by done). by rewrite lookup_insert_eq.
  - do 2 (rewrite lookup_insert_ne by done). by rewrite lookup_insert_eq.
  - rewrite lookup_insert_ne by done. by rewrite lookup_insert_eq.
  - by rewrite lookup_insert_eq.
Qed.

(** Everything that is known when [train] returns. *)
Lemma train_Ok self rmn stage arch out md mln w eid rid w' :
  train E self rmn stage arch out md mln w = (Ok (eid, rid), w') ->
  active_runs w = [] /\
  rid = env_run_id E (size (runs w)) /\
  eid = default "0" (active_experiment w) /\
  exists uuid t1 r,
    let t0 := env_clock E (length (trace w)) in
    trace w' = trace w ++
      EvStartRun rid (run_name E self) ::
      expected_body_events E self rmn stage arch out md mln rid eid uuid ++
      EvEndRun rid FINISHED :: EvGetRun rid ::
      map (fun kv => EvClientSetTag rid kv.1 kv.2) (timing_tags t0 (Some t1)) /\
    files w' = expected_files self out md mln rid (files w) /\
    active_runs w' = [] /\
    runs w' !! rid = Some r /\
    r_status r = FINISHED /\ r_start_time r = t0 /\ r_end_time r = Some t1 /\
    Forall (fun kv => r_tags r !! kv.1 = Some kv.2) (timing_tags t0 (Some t1)).
Proof.
  intros H. unfold train in H. cbv zeta in H.
  apply bind_Ok in H as ([eid' rid'] & w3 & Hwith & Hfin).
  apply with_start_run_inv in Hwith as [(e & _ & ?)|(run & w1 & w2 & Hs & Hb & ->)];
    [discriminate|].
  apply start_run_world in Hs
    as (Ha & Hrid & Heid & Ha1 & Hr1 & Hst & Ht0 & Htr1 & Hfs1).
  destruct (train_body_keeps_run _ _ _ _ _ _ _ _ _ _ _ _ Ha1 Hr1 Hb)
    as (Ha2 & r2 & Hr2 & Hl2 & Hl2' & Hl2'' & _).
  apply train_body_Ok in Hb as (Hres & (uuid & Htr2) & Hfs2); [|done].
  injection Hres as -> ->.
  destruct (end_run_closes FINISHED _ _ _ Ha2 Hr2) as (Ha3 & Htr3 & Hfs3 & Hr3).
  destruct (train_finalize_Ok _ _ _ _ _ _ Hr3 Hfin)
    as (Hres & Htr4 & Hfs4 & Ha4 & r4 & Hr4 & (Hl4 & Hl4' & Hl4'' & _) & Htags).
  injection Hres as -> ->.
  cbn [terminate r_start_time r_end_time r_status] in *.
  repeat split; try done.
  exists uuid, (env_clock E (length (trace w2))), r4. cbv zeta.
  rewrite Hl2', Ht0 in *.
  repeat split; try congruence.
  rewrite Htr4, Htr3, Htr2, Htr1, <- !app_assoc. reflexivity.
Qed.

End Body.

(** ** Errors raised in the run body *)



(** ** [str.replace] against rewriting a prefix *)

Example str_replace_dbfs :
  str_replace "dbfs:" "/dbfs" "dbfs:/tmp/run_id.txt" = "/dbfs/tmp/run_id.txt".
Proof. reflexivity. Qed.

Example str_replace_inner :
  str_replace "dbfs:" "/dbfs" "/tmp/dbfs:out/dbfs:x" = "/tmp//dbfsout//dbfsx".
Proof. reflexivity. Qed.

Lemma replace_no_occurrence old new s :
  occurs old s = false -> replace_from old new 0 s = s.
Proof.
  induction s as [|c s IH]; [done|].
  cbn [occurs replace_from]. intros H.
  apply orb_false_iff in H as [Hp Ho]. rewrite Hp. f_equal. by apply IH.
Qed.

Lemma replace_skip old new k s :
  replace_from old new k s = replace_from old new 0 (str_drop k s).
Proof.
  revert k. induction s as [|c s IH]; intros [|k]; try done. cbn [replace_from str_drop].
  apply IH.
Qed.

Lemma occurs_drop old k s : occurs old s = false -> occurs old (str_drop k s) = false.
Proof.
  revert k. induction s as [|c s IH]; intros [|k] H; try done.
  cbn [str_drop]. apply IH. cbn [occurs] in H. by apply orb_false_iff in H as [_ ?].
Qed.

(** Where [old] occurs at most at the start of [s], replacing every
    occurrence is rewriting the prefix. *)
Lemma str_replace_prefix a old new s :
  occurs_after_start (String a old) s = false ->
  str_replace (String a old) new s = rewrite_prefix (String a old) new s.
Proof.
  unfold str_replace, rewrite_prefix. destruct s as [|c s]; [done|].
  cbn [occurs_after_start replace_from]. intros Ho.
  replace (String.length (String a old) - 1) with (String.length old) by (cbn; lia).
  destruct (String.prefix (String a old) (String c s)); cbn [String.length str_drop].
  - f_equal. rewrite replace_skip.
    apply replace_no_occurrence. by apply occurs_drop.
  - f_equal. by apply replace_no_occurrence.
Qed.

(** ** The calls of a completed run, by kind *)

Lemma logging_events_kinds E self rmn stage arch md mln rid eid uuid :
  let l := logging_events E self rmn stage arch md mln rid eid uuid in
  existsb is_write l = false /\ existsb is_end_run l = false /\
  existsb is_client_set_tag l = false /\
  exists sg, List.filter is_log_model l =
    [EvLogModel rid "model"
       (Fitted (DecisionTreeRegressor md mln) (X_train self) (y_train self)) sg].
Proof.
  unfold logging_events.
  destruct (use_run_id_as_run_name self), (truthy rmn), (log_as_onnx self);
    (repeat split; [reflexivity..|]); eexists; reflexivity.
Qed.


Lemma output_events_write p rid :
  p <> "" ->
  output_events (Some p) rid =
    [ EvSetTag rid "output_path" (VStr p); EvOpen (str_replace "dbfs:" "/dbfs" p) ] ++
    [ EvWrite (str_replace "dbfs:" "/dbfs" p) rid ].
Proof.
  intros Hp. unfold output_events. cbn [truthy].
  by destruct (String.eqb_spec p "").
Qed.

Lemma timing_events_kinds rid t0 t1 :
  let l := map (fun kv => EvClientSetTag rid kv.1 kv.2) (timing_tags t0 t1) in
  existsb is_write l = false /\ existsb is_end_run l = false.
Proof. split; reflexivity. Qed.

(** ** After the run has closed *)




(** ** Writing the run identifier *)

(** C3, as stated, fails: in the completed sample run the write to the
    output path is the call just before [end_run]; no write follows the
    closing of the run. *)
Lemma write_precedes_close :
  (completed (Some "/tmp/run_id.txt")).1 = Ok ("0", "5f1c9a") /\
  drop 28 (trace (completed (Some "/tmp/run_id.txt")).2) =
    EvWrite "/tmp/run_id.txt" "5f1c9a" :: EvEndRun "5f1c9a" FINISHED ::
    drop 30 (trace (completed (Some "/tmp/run_id.txt")).2) /\
  existsb is_end_run (take 28 (trace (completed (Some "/tmp/run_id.txt")).2)) = false /\
  existsb is_write (drop 30 (trace (completed (Some "/tmp/run_id.txt")).2)) = false.
Proof. split_and!; vm_compute; reflexivity. Qed.

(** C3 (amended): for every run given a non-empty [output_path] that
    completes, the write of the run identifier is the last call of the run
    body: it is immediately followed by [end_run], no run is closed before
    it, and nothing is written after it. *)
Theorem write_before_close (E : Env) (self : Trainer)
    (registered_model_name : option string) (stage : string) (archive : bool)
    (path : string) (max_depth : option Z) (max_leaf_nodes : Z)
    (w : World) (experiment_id run_id : string) (w' : World) :
  path <> "" ->
  train E self registered_model_name stage archive (Some path)
        max_depth max_leaf_nodes w = (Ok (experiment_id, run_id), w') ->
  exists before after,
    trace w' = trace w ++ before ++
      EvWrite (str_replace "dbfs:" "/dbfs" path) run_id ::
      EvEndRun run_id FINISHED :: after /\
    existsb is_write before = false /\ existsb is_end_run before = false /\
    existsb is_write after = false /\ existsb is_end_run after = false.
Proof.
  intros Hp H.
  apply train_Ok in H as (_ & _ & _ & uuid & t1 & r & Htr & _).
  cbv zeta in Htr. unfold expected_body_events in Htr.
  rewrite (output_events_write _ _ Hp) in Htr.
  destruct (logging_events_kinds E self registered_model_name stage archive
              max_depth max_leaf_nodes run_id experiment_id uuid)
    as (Hw & He & _ & _).
  eexists (EvStartRun run_id (run_name E self) ::
           logging_events E self registered_model_name stage archive
             max_depth max_leaf_nodes run_id experiment_id uuid ++
           [ EvSetTag run_id "output_path" (VStr path);
             EvOpen (str_replace "dbfs:" "/dbfs" path) ]), _.
  split; [rewrite Htr; cbn; rewrite <- !app_assoc; reflexivity|].
  cbn [existsb is_write is_end_run orb]. rewrite !existsb_app, Hw, He.
  repeat split; reflexivity.
Qed.

Lemma write_before_close_witness :
  exists before after,
    trace (completed (Some "/tmp/run_id.txt")).2 = trace sample_world ++ before ++
      EvWrite (str_replace "dbfs:" "/dbfs" "/tmp/run_id.txt") "5f1c9a" ::
      EvEndRun "5f1c9a" FINISHED :: after /\
    existsb is_write before = false /\ existsb is_end_run before = false /\
    existsb is_write after = false /\ existsb is_end_run after = false.
Proof.
  apply (write_before_close quiet_env (sample_trainer true) (Some "wine-model")
           "Staging" true "/tmp/run_id.txt" None 32 sample_world "0").
  - discriminate.
  - vm_compute. reflexivity.
Defined.

(** C4, as stated, fails: with the output path ["/mnt/dbfs:out/run_id.txt"],
    which has no leading ["dbfs:"], rewriting a prefix leaves the path as it
    is, but the program replaces the inner occurrence as well and writes to
    ["/mnt//dbfsout/run_id.txt"]; there is no file at the path itself. *)
Lemma inner_dbfs_is_rewritten :
  (completed (Some "/mnt/dbfs:out/run_id.txt")).1 = Ok ("0", "5f1c9a") /\
  rewrite_prefix "dbfs:" "/dbfs" "/mnt/dbfs:out/run_id.txt" = "/mnt/dbfs:out/run_id.txt" /\
  files (completed (Some "/mnt/dbfs:out/run_id.txt")).2 !! "/mnt/dbfs:out/run_id.txt" = None /\
  files (completed (Some "/mnt/dbfs:out/run_id.txt")).2 !! "/mnt//dbfsout/run_id.txt"
    = Some (FText "5f1c9a").
Proof. split_and!; vm_compute; reflexivity. Qed.

(** C4 (amended): for every run given a non-empty [output_path] in which
    ["dbfs:"] does not occur after the first character, after [train]
    returns the file at the path with its leading ["dbfs:"], if any,
    rewritten to ["/dbfs"] contains exactly the run identifier that [train]
    returns. *)
Theorem output_file_holds_run_id (E : Env) (self : Trainer)
    (registered_model_name : option string) (stage : string) (archive : bool)
    (path : string) (max_depth : option Z) (max_leaf_nodes : Z)
    (w : World) (experiment_id run_id : string) (w' : World) :
  path <> "" ->
  occurs_after_start "dbfs:" path = false ->
  train E self registered_model_name stage archive (Some path)
        max_depth max_leaf_nodes w = (Ok (experiment_id, run_id), w') ->
  files w' !! rewrite_prefix "dbfs:" "/dbfs" path = Some (FText run_id).
Proof.
  intros Hp Ho H.
  apply train_Ok in H as (_ & _ & _ & uuid & t1 & r & _ & Hfs & _).
  rewrite Hfs. unfold expected_files. cbn [truthy default].
  destruct (String.eqb_spec path ""); [done|]. cbn [negb].
  rewrite <- (str_replace_prefix _ _ _ _ Ho). apply lookup_insert_eq.
Qed.

Lemma output_file_holds_run_id_witness :
  files (completed (Some "dbfs:/out/run_id.txt")).2 !! "/dbfs/out/run_id.txt"
    = Some (FText "5f1c9a").
Proof.
  apply (output_file_holds_run_id quiet_env (sample_trainer true) (Some "wine-model")
           "Staging" true "dbfs:/out/run_id.txt" None 32 sample_world "0").
  - discriminate.
  - reflexivity.
  - vm_compute. reflexivity.
Defined.

(** ** Constructing the trainer *)

Section Init.

Variable E : Env.

Lemma set_experiment_Ok name w u w' :
  mlflow_set_experiment E name w = (Ok u, w') ->
  let x := match experiments w !! name with
           | Some x => x
           | None => mkExperiment (env_experiment_id E (size (experiments w))) ∅
           end in
  w' = log_event (EvSetExperiment name)
         (set_active_experiment (Some (e_id x))
            (set_experiments (<[name := x]> (experiments w)) w)).
Proof.
  intros H. cbv zeta.
  unfold mlflow_set_experiment, bind, guard, get, modify, emit in H.
  destruct (env_fault E OpSetExperiment); [done|].
  cbn in H. by injection H as <-.
Qed.

Lemma get_experiment_by_name_Ok name w x w' :
  client_get_experiment_by_name E name w = (Ok x, w') ->
  x = experiments w !! name /\ w' = log_event (EvGetExperimentByName name) w.
Proof.
  intros H. apply bind_Ok in H as (? & w1 & H1 & H). apply guard_Ok in H1 as [_ ->].
  unfold bind, get in H. cbn in H. by injection H as <- <-.
Qed.

Lemma experiment_id_of_Ok exp w a w' :
  experiment_id_of exp w = (Ok a, w') -> exists x, exp = Some x /\ a = e_id x /\ w' = w.
Proof. destruct exp as [x|]; [|done]. intros [= <- <-]. eauto. Qed.

Lemma set_experiment_tag_Ok id key v w u w' :
  client_set_experiment_tag E id key v w = (Ok u, w') ->
  w' = log_event (EvSetExperimentTag id key v)
         (set_experiments
            ((fun x => if String.eqb (e_id x) id then add_experiment_tag key v x else x)
               <$> experiments w) w).
Proof.
  intros H. apply bind_Ok in H as (? & w1 & H1 & H). apply guard_Ok in H1 as [_ ->].
  unfold bind in H. cbn in H. by injection H as <-.
Qed.

Lemma build_data_split p w r w1 :
  _build_data E p w = (r, w1) -> w1 = log_event (EvReadCsv p) w.
Proof. intros H. rewrite <- (build_data_world E p w). by rewrite H. Qed.

(** Without an experiment name the constructor only reads the data. *)
Lemma init_without_experiment en dp onnx sg ro ur w :
  truthy en = false ->
  (Trainer_init E en dp onnx sg ro ur w).2 = log_event (EvReadCsv dp) w.
Proof.
  intros Ht. unfold Trainer_init, bind.
  destruct (_build_data E dp w) as [[[[[X1 X2] y1] y2]|e] w1] eqn:Hb;
    apply build_data_split in Hb as ->; [|done].
  by rewrite (when_str_falsy _ _ Ht).
Qed.

(** With an experiment name, a constructor that returns has selected the
    experiment and written its two tags. *)
Lemma init_with_experiment name dp onnx sg ro ur w t w' :
  name <> "" ->
  Trainer_init E (Some name) dp onnx sg ro ur w = (Ok t, w') ->
  exists x,
    trace w' = trace w ++
      [ EvReadCsv dp; EvSetExperiment name; EvGetExperimentByName name;
        EvSetExperimentTag (e_id x) "version_mlflow" (VStr (env_mlflow_version E));
        EvSetExperimentTag (e_id x) "experiment_created" (now E) ] /\
    active_experiment w' = Some (e_id x) /\
    exists x', experiments w' !! name = Some x' /\ e_id x' = e_id x /\
      e_tags x' !! "version_mlflow" = Some (VStr (env_mlflow_version E)) /\
      e_tags x' !! "experiment_created" = Some (now E).
Proof.
  intros Hne H. unfold Trainer_init in H.
  apply bind_Ok in H as ([[[X1 X2] y1] y2] & w1 & Hb & H).
  apply build_data_split in Hb as ->.
  apply bind_Ok in H as (? & w2 & Hw & H). apply ret_Ok in H as [_ ->].
  unfold when_str in Hw. destruct (String.eqb_spec name ""); [done|].
  apply bind_Ok in Hw as (? & w3 & H1 & Hw).
  apply set_experiment_Ok in H1. cbv zeta in H1. subst w3.
  apply bind_Ok in Hw as (exp & w4 & H2 & Hw).
  apply get_experiment_by_name_Ok in H2 as [-> ->].
  apply bind_Ok in Hw as (id & w5 & H3 & Hw).
  apply experiment_id_of_Ok in H3 as (xe & Hx & -> & ->).
  cbn in Hx. rewrite lookup_insert_eq in Hx. injection Hx as Hx.
  apply bind_Ok in Hw as (? & w6 & H4 & Hw). apply set_experiment_tag_Ok in H4. subst w6.
  apply set_experiment_tag_Ok in Hw. subst w2.
  exists xe. cbn. split; [by rewrite <- !app_assoc|]. split; [by rewrite Hx|].
  rewrite !lookup_fmap, lookup_insert_eq. cbn. rewrite Hx.
  rewrite String.eqb_refl. cbn. rewrite String.eqb_refl.
  eexists. split; [reflexivity|]. cbn. split; [done|].
  split; [by rewrite lookup_insert_ne, lookup_insert_eq|by rewrite lookup_insert_eq].
Qed.

End Init.

(** C10: when [experiment_name] is null or empty, constructing the trainer
    makes one call, the reading of the data file: no experiment is selected
    and no experiment tag is written, and the experiments of the store and
    the active experiment are as before.  A call that selects an experiment
    or writes an experiment tag is made only for a non-empty name, and a
    constructor that returns for such a name has selected the experiment and
    written exactly the tags [version_mlflow] and [experiment_created]. *)
Theorem init_experiment_tags (E : Env) (experiment_name : option string)
    (data_path : string) (log_as_onnx save_signature : bool)
    (run_origin : option string) (use_run_id_as_run_name : bool)
    (w : World) (r : result Trainer) (w' : World) :
  Trainer_init E experiment_name data_path log_as_onnx save_signature run_origin
               use_run_id_as_run_name w = (r, w') ->
  (truthy experiment_name = false ->
     trace w' = trace w ++ [EvReadCsv data_path] /\
     experiments w' = experiments w /\
     active_experiment w' = active_experiment w) /\
  (existsb is_experiment_call (drop (length (trace w)) (trace w')) = true ->
     truthy experiment_name = true) /\
  (forall t, r = Ok t -> truthy experiment_name = true ->
     exists name id,
       experiment_name = Some name /\ name <> "" /\
       drop (length (trace w)) (trace w') =
         [ EvReadCsv data_path; EvSetExperiment name; EvGetExperimentByName name;
           EvSetExperimentTag id "version_mlflow" (VStr (env_mlflow_version E));
           EvSetExperimentTag id "experiment_created" (now E) ] /\
       exists x, experiments w' !! name = Some x /\ e_id x = id /\
         e_tags x !! "version_mlflow" = Some (VStr (env_mlflow_version E)) /\
         e_tags x !! "experiment_created" = Some (now E)).
Proof.
  intros H.
  assert (Hfalsy : truthy experiment_name = false ->
            trace w' = trace w ++ [EvReadCsv data_path] /\
            experiments w' = experiments w /\
            active_experiment w' = active_experiment w).
  { intros Ht.
    pose proof (init_without_experiment E experiment_name data_path log_as_onnx
                  save_signature run_origin use_run_id_as_run_name w Ht) as Hw.
    rewrite H in Hw. cbn in Hw. by subst w'. }
  split; [exact Hfalsy|]. split.
  - intros Hex. destruct (truthy experiment_name) eqn:Ht; [done|].
    destruct (Hfalsy eq_refl) as (Htr & _). rewrite Htr, drop_app_length in Hex.
    discriminate.
  - intros t -> Ht.
    destruct experiment_name as [name|]; [|done]. cbn in Ht.
    destruct (String.eqb_spec name ""); [done|].
    destruct (init_with_experiment E name _ _ _ _ _ _ _ _ ltac:(done) H)
      as (x & Htr & _ & x' & Hx' & Hid & Ht1 & Ht2).
    exists name, (e_id x). rewrite Htr, drop_app_length. eauto 10.
Qed.

Lemma init_experiment_tags_witness :
  trace (sample_init None).2 = trace sample_world ++ [EvReadCsv "wine-quality.csv"] /\
  exists name id,
    Some "wine" = Some name /\
    drop (length (trace sample_world)) (trace (sample_init (Some "wine")).2) =
      [ EvReadCsv "wine-quality.csv"; EvSetExperiment name; EvGetExperimentByName name;
        EvSetExperimentTag id "version_mlflow" (VStr (env_mlflow_version quiet_env));
        EvSetExperimentTag id "experiment_created" (now quiet_env) ].
Proof.
  split.
  - apply (init_experiment_tags quiet_env None "wine-quality.csv" false true None false
             sample_world _ _ (surjective_pairing _)). reflexivity.
  - destruct (init_experiment_tags quiet_env (Some "wine") "wine-quality.csv" false true
                None false sample_world _ _ (surjective_pairing _)) as (_ & _ & Hyes).
    destruct (Hyes sample_init_trainer) as (name & id & Hn & _ & Htr & _).
    + vm_compute. reflexivity.
    + reflexivity.
    + exists name, id. split; [exact Hn|exact Htr].
Defined.

(** ** The calls of [train], whatever its outcome *)

Section Emits.

Variable E : Env.
Variable Q : Event -> Prop.

Lemma calls_refl w : calls Q w w.
Proof. exists []. by rewrite app_nil_r. Qed.






Lemma emits_raise {A} e : emits Q (@raise A e).
Proof. intros w r w' [= <- <-]. apply calls_refl. Qed.






Hypothesis Q_other : forall ev, is_log_model ev = false -> Q ev.




End Emits.


(** ** The signature of the persisted model *)



(** * Further properties *)

(** ** Data preparation: columns, sizes, small tables *)








(** X2: a file that parses to fewer than two rows cannot be split: the train
    part would be empty, and data preparation fails with [ValueError],
    whether or not the label column is there. *)
Theorem build_data_too_few_rows (E : Env) (p : string) (w : World)
    (c : FileData) (t : Table) :
  files w !! p = Some c ->
  env_parse_csv E c = Ok t ->
  length (t_records t) < 2 ->
  (_build_data E p w).1 = Raise (Exn "ValueError" "the resulting train set will be empty").
Proof.
  intros Hf Hp Hn. rewrite (build_data_loaded E p w c t Hf Hp).
  unfold train_test_split. rewrite range_index_len.
  destruct (length (t_records t)) as [|[|n]]; [done|done|lia].
Qed.

Lemma build_data_too_few_rows_witness :
  (_build_data (sample_env no_fault (Ok (wine_table 1))) "wine-quality.csv" sample_world).1
    = Raise (Exn "ValueError" "the resulting train set will be empty").
Proof.
  apply (build_data_too_few_rows (sample_env no_fault (Ok (wine_table 1)))
           "wine-quality.csv" sample_world (FText "alcohol,pH,quality") (wine_table 1)).
  - reflexivity.
  - reflexivity.
  - cbn. lia.
Defined.

(** X3: for a table of [n] rows that is split, the holdout has
    [ceil(0.3 n)] rows and the training part the other [n - ceil(0.3 n)];
    neither is empty, and each label table is as long as its feature
    table. *)
Theorem build_data_sizes (E : Env) (p : string) (w : World)
    (c : FileData) (t : Table) (X_train X_test y_train y_test : DataFrame) :
  files w !! p = Some c ->
  env_parse_csv E c = Ok t ->
  env_permutation E (length (t_records t)) ≡ₚ seq 0 (length (t_records t)) ->
  (_build_data E p w).1 = Ok (X_train, X_test, y_train, y_test) ->
  let n := length (t_records t) in
  3 * n <= 10 * df_len X_test /\ 10 * df_len X_test < 3 * n + 10 /\
  df_len X_train + df_len X_test = n /\
  1 <= df_len X_test /\ 1 <= df_len X_train /\
  df_len y_train = df_len X_train /\ df_len y_test = df_len X_test.
Proof.
  intros Hf Hp Hperm Hq n. subst n.
  rewrite <- range_index_len in Hperm.
  rewrite (build_data_loaded E p w c t Hf Hp) in Hq.
  destruct (train_test_split _ _) as [[train test]|] eqn:Hs; [|done].
  assert (Hnz : (df_len (with_range_index t) - n_test_of (df_len (with_range_index t))
                 =? 0)%nat = false).
  { unfold train_test_split in Hs. by destruct (_ =? 0)%nat. }
  apply Nat.eqb_neq in Hnz.
  apply train_test_split_Ok in Hs as (_ & _ & Hlte & Hltr & _); [|done].
  unfold df_drop, df_getitem in Hq.
  destruct (has_column col_label train); [|done].
  destruct (has_column col_label test); [|done].
  injection Hq as <- <- <- <-.
  rewrite !select_columns_len, Hlte, Hltr, range_index_len in *.
  unfold n_test_of in *.
  pose proof (Nat.div_mod_eq (3 * length (t_records t) + 9) 10) as Hdm.
  pose proof (Nat.mod_upper_bound (3 * length (t_records t) + 9) 10 ltac:(lia)) as Hub.
  lia.
Qed.

Lemma build_data_sizes_witness :
  exists X_train X_test y_train y_test,
    (_build_data quiet_env "wine-quality.csv" sample_world).1
      = Ok (X_train, X_test, y_train, y_test) /\
    df_len X_train + df_len X_test = 10 /\ 3 * 10 <= 10 * df_len X_test.
Proof.
  destruct (_build_data quiet_env "wine-quality.csv" sample_world).1
    as [[[[X1 X2] y1] y2]|e] eqn:Hq; [|vm_compute in Hq; discriminate].
  exists X1, X2, y1, y2. split; [done|].
  destruct (build_data_sizes quiet_env "wine-quality.csv" sample_world
              (FText "alcohol,pH,quality") (wine_table 10) X1 X2 y1 y2)
    as (H1 & _ & H3 & _);
    [reflexivity|reflexivity|apply sample_permutation|exact Hq|].
  split; [exact H3|exact H1].
Defined.

(** ** The constructor when the data cannot be prepared *)

(** X4: the constructor prepares the data before it touches the experiment:
    when data preparation raises, the constructor raises the same error, its
    only call has been the reading of the file, and no experiment has been
    selected or tagged, whatever the experiment name. *)
Theorem init_data_error (E : Env) (experiment_name : option string)
    (data_path : string) (log_as_onnx save_signature : bool)
    (run_origin : option string) (use_run_id_as_run_name : bool)
    (w : World) (e : exn) :
  (_build_data E data_path w).1 = Raise e ->
  Trainer_init E experiment_name data_path log_as_onnx save_signature run_origin
               use_run_id_as_run_name w
    = (Raise e, log_event (EvReadCsv data_path) w) /\
  experiments (log_event (EvReadCsv data_path) w) = experiments w /\
  active_experiment (log_event (EvReadCsv data_path) w) = active_experiment w /\
  trace (log_event (EvReadCsv data_path) w) = trace w ++ [EvReadCsv data_path].
Proof.
  intros He. split; [|done].
  unfold Trainer_init, bind.
  pose proof (build_data_world E data_path w) as Hw.
  destruct (_build_data E data_path w) as [r w1]. cbn in He, Hw. by subst.
Qed.

Lemma init_data_error_witness :
  Trainer_init quiet_env (Some "wine") "missing.csv" false true None false sample_world
    = (Raise (Exn "FileNotFoundError" "missing.csv"),
       log_event (EvReadCsv "missing.csv") sample_world).
Proof.
  apply (init_data_error quiet_env (Some "wine") "missing.csv" false true None false
           sample_world). vm_compute. reflexivity.
Defined.

(** ** Calling [main] with the wrong number of arguments *)

(** X5: [main] called with any number of positional arguments other than
    twelve raises [TypeError] when the arguments are bound, and nothing has
    happened by then. *)
Theorem call_main_arity (E : Env) (args : list PyVal) (w : World) :
  length args <> 12 ->
  exists msg, call_main E args w = (Raise (Exn "TypeError" msg), w).
Proof.
  intros Hn. unfold call_main.
  do 12 (destruct args as [|? args]; [eexists; reflexivity|]).
  destruct args; [cbn in Hn; lia|]. eexists; reflexivity.
Qed.

Lemma call_main_arity_witness :
  exists msg,
    call_main quiet_env [VStr "wine"; VStr "wine-quality.csv"] sample_world
      = (Raise (Exn "TypeError" msg), sample_world).
Proof.
  apply (call_main_arity quiet_env [VStr "wine"; VStr "wine-quality.csv"] sample_world).
  cbn. lia.
Defined.

(** ** The artifact calls of a completed run *)

Lemma logging_events_artifacts E self rmn stage arch md mln rid eid uuid :
  List.filter is_artifact_call
    (logging_events E self rmn stage arch md mln rid eid uuid) =
  [EvLogModel rid "model" (fitted_model self md mln) (expected_signature self md mln)] ++
  (if truthy rmn
   then [EvRegisterModel rid "model" (default "" rmn) stage arch] else []) ++
  (if log_as_onnx self then [EvOnnxLogModel rid "onnx-model" rmn] else []) ++
  [EvCreatePlotFile "plot.png"; EvLogArtifact rid "plot.png"] /\
  existsb is_output_call (logging_events E self rmn stage arch md mln rid eid uuid) = false.
Proof.
  unfold logging_events, expected_signature, holdout_predictions, fitted_model.
  destruct (use_run_id_as_run_name self), (truthy rmn), (log_as_onnx self);
    split; reflexivity.
Qed.

Lemma output_events_artifacts out rid :
  List.filter is_artifact_call (output_events out rid) = [].
Proof. unfold output_events. by destruct (truthy out). Qed.

(** X6: in a run that completes, the model is persisted first, then
    registered if and only if a non-empty registration name was given (under
    that name, with the requested stage and archive flag), then exported to
    ONNX if and only if [log_as_onnx] is set, and the plot is rendered and
    logged last; there is no other call of these kinds. *)
Theorem artifact_calls_in_order (E : Env) (self : Trainer)
    (registered_model_name : option string) (stage : string) (archive : bool)
    (output_path : option string) (max_depth : option Z) (max_leaf_nodes : Z)
    (w : World) (experiment_id run_id : string) (w' : World) :
  train E self registered_model_name stage archive output_path
        max_depth max_leaf_nodes w = (Ok (experiment_id, run_id), w') ->
  List.filter is_artifact_call (drop (length (trace w)) (trace w')) =
    [EvLogModel run_id "model" (fitted_model self max_depth max_leaf_nodes)
       (expected_signature self max_depth max_leaf_nodes)] ++
    (match registered_model_name with
     | Some name =>
         if String.eqb name "" then []
         else [EvRegisterModel run_id "model" name stage archive]
     | None => []
     end) ++
    (if log_as_onnx self
     then [EvOnnxLogModel run_id "onnx-model" registered_model_name] else []) ++
    [EvCreatePlotFile "plot.png"; EvLogArtifact run_id "plot.png"].
Proof.
  intros H. apply train_Ok in H as (_ & _ & _ & uuid & t1 & r & Htr & _).
  cbv zeta in Htr. rewrite Htr, drop_app_length. unfold expected_body_events.
  cbn [List.filter is_artifact_call].
  rewrite !List.filter_app, output_events_artifacts.
  destruct (logging_events_artifacts E self registered_model_name stage archive
              max_depth max_leaf_nodes run_id experiment_id uuid) as [-> _].
  destruct registered_model_name as [name|]; cbn [truthy default];
    [destruct (String.eqb name "")|]; cbn [negb];
    destruct (log_as_onnx self); reflexivity.
Qed.

Lemma artifact_calls_in_order_witness :
  List.filter is_artifact_call
    (drop (length (trace sample_world)) (trace (completed (Some "/tmp/run_id.txt")).2)) =
    [EvLogModel "5f1c9a" "model" (fitted_model (sample_trainer true) None 32)
       (expected_signature (sample_trainer true) None 32);
     EvRegisterModel "5f1c9a" "model" "wine-model" "Staging" true;
     EvCreatePlotFile "plot.png"; EvLogArtifact "5f1c9a" "plot.png"].
Proof.
  apply (artifact_calls_in_order quiet_env (sample_trainer true) (Some "wine-model")
           "Staging" true (Some "/tmp/run_id.txt") None 32 sample_world "0").
  vm_compute. reflexivity.
Defined.

(** ** Runs without an output path *)



(** ** Steps of a run and what they keep *)

Section StepFacts.

Variable F : string -> Prop.

Lemma step_active_runs w w' : step F w w' -> active_runs w' = active_runs w.
Proof. by destruct 1. Qed.

Lemma step_experiments w w' :
  step F w w' ->
  experiments w' = experiments w /\ active_experiment w' = active_experiment w.
Proof. by destruct 1. Qed.

Lemma step_files w w' q : step F w w' -> ~ F q -> files w' !! q = files w !! q.
Proof.
  destruct 1; intros Hq; try done. cbn.
  apply lookup_insert_ne. by intros ->.
Qed.

Lemma step_trace w w' :
  step F w w' ->
  exists evs, trace w' = trace w ++ evs /\
    Forall (fun ev => is_lifecycle_call ev = false) evs.
Proof.
  destruct 1 as [ev w Hev|rid a ev w Hev| | | | |];
    try (eexists [_]; split; [reflexivity|]; apply Forall_singleton; try done;
         by destruct ev);
    exists []; cbn; by rewrite app_nil_r.
Qed.

Lemma on_run_lookup rid f ev w rid' :
  runs (on_run rid f ev w) !! rid' =
  if decide (rid = rid') then f <$> runs w !! rid' else runs w !! rid'.
Proof.
  cbn. destruct (decide (rid = rid')) as [->|Hne].
  - by rewrite lookup_alter_eq.
  - by rewrite lookup_alter_ne.
Qed.

Lemma step_lifecycle w w' rid r :
  step F w w' -> runs w !! rid = Some r ->
  exists r', runs w' !! rid = Some r' /\ same_lifecycle r r'.
Proof.
  destruct 1 as [ev w Hev|rid0 a ev w Hev|rid0 k v w|rid0 k v w|rid0 k v w|rid0 k v w|];
    intros Hr;
    try (exists r; split; [done|by repeat split]);
    rewrite on_run_lookup, Hr; destruct (decide (rid0 = rid));
    eexists; (split; [reflexivity|by repeat split]).
Qed.

Lemma eqb_ne (a b : string) : a <> b -> String.eqb a b = false.
Proof. intros. by apply String.eqb_neq. Qed.

Lemma step_recorded w w' rid : step F w w' -> recorded rid w -> recorded rid w'.
Proof.
  intros Hs (r & Hr & Ht & Hp & Hm).
  destruct Hs as [ev w Hev|rid0 a ev w Hev|rid0 k v w|rid0 k v w|rid0 k v w|rid0 k v w|].
  - exists r. unfold tags_of, params_of, metrics_of. cbn [trace log_event runs].
    rewrite !foldl_snoc. split; [done|]. by destruct ev.
  - unfold recorded, tags_of, params_of, metrics_of.
    rewrite on_run_lookup, Hr. cbn [trace on_run log_event set_runs].
    rewrite !foldl_snoc.
    destruct (decide (rid0 = rid)); eexists; (split; [reflexivity|]); by destruct ev.
  - unfold recorded, tags_of, params_of, metrics_of.
    rewrite on_run_lookup, Hr. cbn [trace on_run log_event set_runs].
    rewrite !foldl_snoc. cbn [tag_step param_step metric_step].
    destruct (decide (rid0 = rid)) as [->|Hne].
    + rewrite String.eqb_refl. eexists. split; [reflexivity|]. cbn. by rewrite Ht.
    + rewrite (eqb_ne _ _ Hne). by eexists.
  - unfold recorded, tags_of, params_of, metrics_of.
    rewrite on_run_lookup, Hr. cbn [trace on_run log_event set_runs].
    rewrite !foldl_snoc. cbn [tag_step param_step metric_step].
    destruct (decide (rid0 = rid)) as [->|Hne].
    + rewrite String.eqb_refl. eexists. split; [reflexivity|]. cbn. by rewrite Ht.
    + rewrite (eqb_ne _ _ Hne). by eexists.
  - unfold recorded, tags_of, params_of, metrics_of.
    rewrite on_run_lookup, Hr. cbn [trace on_run log_event set_runs].
    rewrite !foldl_snoc. cbn [tag_step param_step metric_step].
    destruct (decide (rid0 = rid)) as [->|Hne].
    + rewrite String.eqb_refl. eexists. split; [reflexivity|]. cbn. by rewrite Hp.
    + rewrite (eqb_ne _ _ Hne). by eexists.
  - unfold recorded, tags_of, params_of, metrics_of.
    rewrite on_run_lookup, Hr. cbn [trace on_run log_event set_runs].
    rewrite !foldl_snoc. cbn [tag_step param_step metric_step].
    destruct (decide (rid0 = rid)) as [->|Hne].
    + rewrite String.eqb_refl. eexists. split; [reflexivity|]. cbn. by rewrite Hm.
    + rewrite (eqb_ne _ _ Hne). by eexists.
  - by exists r.
Qed.

Lemma steps_active_runs w w' : steps F w w' -> active_runs w' = active_runs w.
Proof.
  induction 1 as [|w1 w2 w3 H1 _ IH]; [done|]. rewrite IH. by eapply step_active_runs.
Qed.

Lemma steps_experiments w w' :
  steps F w w' ->
  experiments w' = experiments w /\ active_experiment w' = active_experiment w.
Proof.
  induction 1 as [|w1 w2 w3 H1 _ [IH1 IH2]]; [done|].
  apply step_experiments in H1 as [? ?]. split; congruence.
Qed.

Lemma steps_files w w' q : steps F w w' -> ~ F q -> files w' !! q = files w !! q.
Proof.
  induction 1 as [|w1 w2 w3 H1 _ IH]; [done|]. intros Hq.
  rewrite IH by done. by eapply step_files.
Qed.

Lemma steps_trace w w' :
  steps F w w' ->
  exists evs, trace w' = trace w ++ evs /\
    Forall (fun ev => is_lifecycle_call ev = false) evs.
Proof.
  induction 1 as [w|w1 w2 w3 H1 _ (evs2 & Ht2 & Hf2)].
  - exists []. by rewrite app_nil_r.
  - apply step_trace in H1 as (evs1 & Ht1 & Hf1).
    exists (evs1 ++ evs2). split; [by rewrite Ht2, Ht1, app_assoc|by apply Forall_app].
Qed.

Lemma steps_lifecycle w w' rid r :
  steps F w w' -> runs w !! rid = Some r ->
  exists r', runs w' !! rid = Some r' /\ same_lifecycle r r'.
Proof.
  intros Hs. revert r. induction Hs as [w|w1 w2 w3 H1 _ IH]; intros r Hr.
  - exists r. split; [done|by repeat split].
  - destruct (step_lifecycle _ _ _ _ H1 Hr) as (r2 & Hr2 & Hl2).
    destruct (IH _ Hr2) as (r3 & Hr3 & Hl3).
    exists r3. split; [done|]. by eapply same_lifecycle_trans.
Qed.

Lemma steps_recorded w w' rid : steps F w w' -> recorded rid w -> recorded rid w'.
Proof.
  induction 1 as [|w1 w2 w3 H1 _ IH]; [done|]. intros Hr.
  apply IH. by eapply step_recorded.
Qed.

End StepFacts.

(** ** The program moves by steps *)

Section Reach.

Variable E : Env.
Variable F : string -> Prop.

Lemma steps_one w w' : step F w w' -> steps F w w'.
Proof. apply rtc_once. Qed.

Lemma steps_two w w1 w' : step F w w1 -> step F w1 w' -> steps F w w'.
Proof. intros H1 H2. eapply rtc_l; [exact H1|by apply rtc_once]. Qed.

Lemma reaches_weaken {A} (m : M A) w : reaches false F m w -> reaches true F m w.
Proof. intros H _. by apply H. Qed.

Lemma reaches_bind {A B} fl (m : M A) (k : A -> M B) w :
  reaches fl F m w ->
  (forall a w1, m w = (Ok a, w1) -> reaches fl F (k a) w1) ->
  reaches fl F (bind m k) w.
Proof.
  intros Hm Hk Hact r w' H. unfold bind in H.
  destruct (m w) as [[a|e] w1] eqn:Hmw.
  - pose proof (Hm Hact _ _ Hmw) as H1.
    etrans; [exact H1|]. eapply (Hk a w1 eq_refl); [|exact H].
    intros Hfl. rewrite (steps_active_runs _ _ _ H1). by apply Hact.
  - injection H as <- <-. by eapply Hm.
Qed.

Lemma reaches_ret {A} fl (a : A) w : reaches fl F (ret a) w.
Proof. intros _ r w' [= <- <-]. done. Qed.

Lemma reaches_guard fl op w : reaches fl F (guard E op) w.
Proof.
  intros _ r w'. unfold guard. by destruct (env_fault E op); intros [= <- <-].
Qed.

Lemma reaches_guarded {A} fl op (m : M A) w :
  (forall w, reaches fl F m w) -> reaches fl F (guard E op ;; m) w.
Proof. intros. apply reaches_bind; [apply reaches_guard|done]. Qed.

Lemma reaches_emit fl ev w : is_run_call ev = false -> reaches fl F (emit ev) w.
Proof. intros Hev _ r w' [= <- <-]. by apply steps_one, step_call. Qed.

Lemma reaches_guarded_emit fl op ev w :
  is_run_call ev = false -> reaches fl F (guard E op ;; emit ev) w.
Proof. intros. apply reaches_guarded. intros. by apply reaches_emit. Qed.

Lemma reaches_guarded_ret {A} fl op (a : A) w : reaches fl F (guard E op ;; ret a) w.
Proof. apply reaches_guarded. intros. apply reaches_ret. Qed.

Lemma reaches_model_fit fl m X y w : reaches fl F (model_fit E m X y) w.
Proof.
  apply reaches_guarded. intros. apply reaches_bind; [by apply reaches_emit|].
  intros. apply reaches_ret.
Qed.

Lemma reaches_model_predict fl m X w : reaches fl F (model_predict E m X) w.
Proof.
  apply reaches_guarded. intros. apply reaches_bind; [by apply reaches_emit|].
  intros. apply reaches_ret.
Qed.

Lemma reaches_uuid fl w : reaches fl F (shortuuid_uuid E) w.
Proof. intros _ r w' [= <- <-]. done. Qed.

(** A fluent call: the run written to is the active one. *)
Lemma reaches_fluent op (f : string -> RunRec -> RunRec) (ev : string -> Event) w :
  (forall rid w, step F w (on_run rid (f rid) (ev rid) w)) ->
  reaches true F (guard E op ;;
                  let! r := active_run_id E in
                  update_run r (f r) ;; emit (ev r)) w.
Proof.
  intros Hstep Hact r w'. specialize (Hact eq_refl).
  cbv beta iota zeta delta [bind guard active_run_id get update_run modify emit ret].
  destruct (env_fault E op); [by intros [= <- <-]|].
  destruct (active_runs w) as [|rid rest]; [done|].
  intros [= <- <-]. apply steps_one, Hstep.
Qed.

Lemma reaches_set_tag key v w : reaches true F (mlflow_set_tag E key v) w.
Proof.
  apply (reaches_fluent _ (fun _ => add_tag key v) (fun r => EvSetTag r key v)).
  intros. apply step_tag.
Qed.

Lemma reaches_log_param key v w : reaches true F (mlflow_log_param E key v) w.
Proof.
  apply (reaches_fluent _ (fun _ => add_param key v) (fun r => EvLogParam r key v)).
  intros. apply step_param.
Qed.

Lemma reaches_log_metric key v w : reaches true F (mlflow_log_metric E key v) w.
Proof.
  apply (reaches_fluent _ (fun _ => add_metric key v) (fun r => EvLogMetric r key v)).
  intros. apply step_metric.
Qed.

Lemma reaches_log_model m path sg w :
  reaches true F (mlflow_sklearn_log_model E m path sg) w.
Proof.
  apply (reaches_fluent _ (fun _ => add_artifact (ASklearnModel path m sg))
           (fun r => EvLogModel r path m sg)).
  intros. by apply step_artifact.
Qed.

Lemma reaches_onnx_log_model m path name X w :
  reaches true F (onnx_utils_log_model E m path name X) w.
Proof.
  apply (reaches_fluent _ (fun _ => add_artifact (AOnnxModel path m X))
           (fun r => EvOnnxLogModel r path name)).
  intros. by apply step_artifact.
Qed.

Lemma reaches_log_artifact path w : reaches true F (mlflow_log_artifact E path) w.
Proof.
  apply (reaches_fluent _ (fun _ => add_artifact (AFile path))
           (fun r => EvLogArtifact r path)).
  intros. by apply step_artifact.
Qed.

Lemma reaches_create_plot_file fl y p path w :
  F path -> reaches fl F (plot_utils_create_plot_file E y p path) w.
Proof.
  intros HF _ r w'.
  unfold plot_utils_create_plot_file, bind, guard, modify, emit.
  destruct (env_fault E OpCreatePlotFile); intros [= <- <-]; [done|].
  eapply steps_two; [by apply step_file|by apply step_call].
Qed.

Lemma reaches_open_w fl path w : F path -> reaches fl F (open_w E path) w.
Proof.
  intros HF _ r w'. unfold open_w, bind, guard, modify, emit, ret.
  destruct (env_fault E OpOpen); intros [= <- <-]; [done|].
  eapply steps_two; [by apply step_file|by apply step_call].
Qed.

Lemma reaches_file_write fl f data w : F f -> reaches fl F (file_write E f data) w.
Proof.
  intros HF _ r w'. unfold file_write, bind, guard, modify, emit.
  destruct (env_fault E OpWrite); intros [= <- <-]; [done|].
  eapply steps_two; [by apply step_file|by apply step_call].
Qed.

Lemma reaches_get_run fl rid w : reaches fl F (client_get_run E rid) w.
Proof.
  intros _ r w'. unfold client_get_run, bind, guard, emit, get, ret, raise.
  destruct (env_fault E OpGetRun); [by intros [= <- <-]|]. cbn.
  destruct (runs w !! rid); intros [= <- <-]; by apply steps_one, step_call.
Qed.

Lemma reaches_client_set_tag fl rid key v w :
  reaches fl F (client_set_tag E rid key v) w.
Proof.
  intros _ r w'. unfold client_set_tag, bind, guard, update_run, modify, emit.
  destruct (env_fault E (OpClientSetTag key)); intros [= <- <-]; [done|].
  apply steps_one, step_client_tag.
Qed.

Lemma reaches_when fl b (m : M unit) w : reaches fl F m w -> reaches fl F (when b m) w.
Proof. destruct b; [done|]. intros _. apply reaches_ret. Qed.

Lemma reaches_when_str fl o (body : string -> M unit) w :
  (forall s, o = Some s -> s <> "" -> reaches fl F (body s) w) ->
  reaches fl F (when_str o body) w.
Proof.
  destruct o as [s|]; cbn; [|intros _; apply reaches_ret].
  destruct (String.eqb_spec s ""); [intros _; apply reaches_ret|]. eauto.
Qed.

Lemma reaches_finalize eid rid w : reaches false F (train_finalize E eid rid) w.
Proof.
  unfold train_finalize.
  apply reaches_bind; [apply reaches_get_run|intros run w1 _].
  repeat (apply reaches_bind; [apply reaches_client_set_tag|intros _ ? _]).
  apply reaches_ret.
Qed.

End Reach.

Lemma reaches_train_body E self rmn stage arch out md mln run w :
  reaches true (train_writes out)
    (train_body E self rmn stage arch out md mln run) w.
Proof.
  unfold train_body. cbv zeta.
  repeat first
    [ apply reaches_ret
    | apply reaches_set_tag | apply reaches_log_param | apply reaches_log_metric
    | apply reaches_log_model | apply reaches_onnx_log_model | apply reaches_log_artifact
    | apply reaches_guarded_emit; reflexivity
    | apply reaches_guarded_ret
    | apply reaches_model_fit | apply reaches_model_predict | apply reaches_uuid
    | apply reaches_create_plot_file; by left
    | apply reaches_when
    | apply reaches_when_str; intros s -> Hs
    | apply reaches_open_w; right; cbn; by destruct (String.eqb_spec s "")
    | match goal with
      | |- reaches _ _ (if save_signature _ then _ else _) _ =>
          destruct (save_signature self)
      | |- reaches _ _ (bind (open_w _ _) _) _ =>
          apply reaches_bind;
          [|let Ho := fresh in intros ? ? Ho; apply open_w_Ok in Ho as [-> _];
            apply reaches_file_write; right; cbn; by destruct (String.eqb_spec s "")]
      | |- reaches _ _ (bind _ _) _ => apply reaches_bind; [|intros ? ? _]
      end ].
Qed.

(** ** The shape of every run of [train] *)

Section Shape.

Variable E : Env.

Lemma start_run_Raise name w e w1 :
  mlflow_start_run E name w = (Raise e, w1) -> w1 = w.
Proof.
  cbv beta iota zeta delta [mlflow_start_run bind guard get modify emit ret raise].
  destruct (env_fault E OpStartRun); [by intros [= <- <-]|].
  destruct (active_runs w); [discriminate|]. by intros [= <- <-].
Qed.

Lemma start_run_recorded name w run w1 :
  mlflow_start_run E name w = (Ok run, w1) -> recorded (info_run_id run) w1.
Proof.
  intros H. apply start_run_Ok in H as (_ & -> & ->). cbn [info_run_id].
  eexists. split; [apply lookup_insert_eq|].
  unfold tags_of, params_of, metrics_of. cbn [trace log_event set_active_runs set_runs].
  rewrite !foldl_snoc. cbn. by rewrite String.eqb_refl.
Qed.

Lemma end_run_recorded status rid w :
  recorded rid w -> recorded rid (mlflow_end_run E status w).
Proof.
  intros (r & Hr & Ht & Hp & Hm). unfold mlflow_end_run.
  destruct (active_runs w) as [|rid0 rest]; [by exists r|].
  unfold recorded, tags_of, params_of, metrics_of.
  cbn [runs trace log_event set_active_runs set_runs]. rewrite !foldl_snoc.
  cbn [tag_step param_step metric_step].
  destruct (decide (rid0 = rid)) as [->|Hne].
  - rewrite lookup_alter_eq, Hr. by eexists.
  - rewrite lookup_alter_ne by done. by eexists.
Qed.

Lemma end_run_frame status w :
  files (mlflow_end_run E status w) = files w /\
  experiments (mlflow_end_run E status w) = experiments w /\
  active_experiment (mlflow_end_run E status w) = active_experiment w.
Proof. unfold mlflow_end_run. by destruct (active_runs w). Qed.

(** The three ways in which [train] ends. *)
Lemma train_cases self rmn stage arch out md mln w r w' :
  train E self rmn stage arch out md mln w = (r, w') ->
  (exists e, mlflow_start_run E (run_name E self) w = (Raise e, w') /\ r = Raise e) \/
  (exists run w1 e w2,
     mlflow_start_run E (run_name E self) w = (Ok run, w1) /\
     train_body E self rmn stage arch out md mln run w1 = (Raise e, w2) /\
     r = Raise e /\ w' = mlflow_end_run E FAILED w2) \/
  (exists run w1 res w2,
     mlflow_start_run E (run_name E self) w = (Ok run, w1) /\
     train_body E self rmn stage arch out md mln run w1 = (Ok res, w2) /\
     train_finalize E res.1 res.2 (mlflow_end_run E FINISHED w2) = (r, w')).
Proof.
  unfold train, bind. cbv zeta.
  destruct (with_start_run _ _ _ w) as [[[eid rid]|e] w3] eqn:Hw.
  - intros Hfin.
    apply with_start_run_inv in Hw as [(e & _ & ?)|(run & w1 & w2 & Hs & Hb & ->)];
      [discriminate|].
    right. right. by exists run, w1, (eid, rid), w2.
  - intros [= <- <-].
    apply with_start_run_inv in Hw as [(e' & Hs & [= ->])|(run & w1 & w2 & Hs & Hb & ->)].
    + left. eauto.
    + right. left. by exists run, w1, e, w2.
Qed.

(** Every run of [train]: either nothing was started and the world is as
    before, or one run was started, the body made its calls, the run was
    closed, and, if the body completed, the timing tags were attempted. *)
Lemma train_shape self rmn stage arch out md mln w r w' :
  train E self rmn stage arch out md mln w = (r, w') ->
  (w' = w /\ exists e, r = Raise e) \/
  exists rid status body_calls late_calls rec,
    active_runs w = [] /\
    rid = env_run_id E (size (runs w)) /\
    trace w' = trace w ++ EvStartRun rid (run_name E self) :: body_calls ++
                 EvEndRun rid status :: late_calls /\
    Forall (fun ev => is_lifecycle_call ev = false) body_calls /\
    Forall (fun ev => is_lifecycle_call ev = false) late_calls /\
    (status = FINISHED \/ status = FAILED /\ late_calls = [] /\ exists e, r = Raise e) /\
    active_runs w' = [] /\
    runs w' !! rid = Some rec /\ r_status rec = status /\ is_Some (r_end_time rec) /\
    r_experiment_id rec = default "0" (active_experiment w) /\
    recorded rid w' /\
    experiments w' = experiments w /\ active_experiment w' = active_experiment w /\
    forall q, ~ train_writes out q -> files w' !! q = files w !! q.
Proof.
  intros H.
  apply train_cases in H
    as [(e & Hs & ->)|[(run & w1 & e & w2 & Hs & Hb & -> & ->)
                      |(run & w1 & res & w2 & Hs & Hb & Hfin)]].
  { left. apply start_run_Raise in Hs. eauto. }
  - right.
    pose proof (start_run_recorded _ _ _ _ Hs) as Hrec1.
    pose proof (start_run_Ok _ _ _ _ _ Hs) as (_ & _ & Hw1).
    apply start_run_world in Hs
      as (Ha & Hrid & Heid & Ha1 & Hr1 & Hst & Ht0 & Htr1 & Hfs1).
    pose proof (reaches_train_body E self rmn stage arch out md mln run w1
                  ltac:(by rewrite Ha1) _ _ Hb) as Hsteps.
    pose proof (steps_active_runs _ _ _ Hsteps) as Ha2. rewrite Ha1 in Ha2.
    destruct (steps_lifecycle _ _ _ _ _ Hsteps Hr1) as (r2 & Hr2 & Hl1 & Hl2 & Hl3 & Hl4).
    destruct (steps_trace _ _ _ Hsteps) as (evs & Htr2 & Hevs).
    destruct (steps_experiments _ _ _ Hsteps) as [Hx2 Hax2].
    destruct (end_run_closes E FAILED _ _ _ Ha2 Hr2) as (Ha3 & Htr3 & Hfs3 & Hr3).
    destruct (end_run_frame FAILED w2) as (_ & Hx3 & Hax3).
    exists (info_run_id run), FAILED, evs, [], (terminate FAILED (env_clock E (length (trace w2))) r2).
    split_and!; try done.
    + rewrite Htr3, Htr2, Htr1, <- !app_assoc. reflexivity.
    + right. split_and!; eauto.
    + cbn. congruence.
    + by apply end_run_recorded, (steps_recorded _ _ _ _ Hsteps).
    + rewrite Hx3, Hx2. subst w1. reflexivity.
    + rewrite Hax3, Hax2. subst w1. reflexivity.
    + intros q Hq. rewrite Hfs3, (steps_files _ _ _ _ Hsteps Hq). by rewrite Hfs1.
  - right.
    pose proof (start_run_recorded _ _ _ _ Hs) as Hrec1.
    pose proof (start_run_Ok _ _ _ _ _ Hs) as (_ & _ & Hw1).
    apply start_run_world in Hs
      as (Ha & Hrid & Heid & Ha1 & Hr1 & Hst & Ht0 & Htr1 & Hfs1).
    pose proof (reaches_train_body E self rmn stage arch out md mln run w1
                  ltac:(by rewrite Ha1) _ _ Hb) as Hsteps.
    pose proof (steps_active_runs _ _ _ Hsteps) as Ha2. rewrite Ha1 in Ha2.
    destruct (steps_lifecycle _ _ _ _ _ Hsteps Hr1) as (r2 & Hr2 & Hl1 & Hl2 & Hl3 & Hl4).
    destruct (steps_trace _ _ _ Hsteps) as (evs & Htr2 & Hevs).
    destruct (steps_experiments _ _ _ Hsteps) as [Hx2 Hax2].
    destruct (end_run_closes E FINISHED _ _ _ Ha2 Hr2) as (Ha3 & Htr3 & Hfs3 & Hr3).
    destruct (end_run_frame FINISHED w2) as (_ & Hx3 & Hax3).
    pose proof (reaches_finalize E (train_writes out) res.1 res.2 _
                  ltac:(done) _ _ Hfin) as Hlate.
    pose proof (steps_active_runs _ _ _ Hlate) as Ha4.
    destruct (steps_lifecycle _ _ _ _ _ Hlate Hr3) as (r4 & Hr4 & Hm1 & Hm2 & Hm3 & Hm4).
    destruct (steps_trace _ _ _ Hlate) as (evs' & Htr4 & Hevs').
    destruct (steps_experiments _ _ _ Hlate) as [Hx4 Hax4].
    exists (info_run_id run), FINISHED, evs, evs', r4.
    split_and!; try done.
    + rewrite Htr4, Htr3, Htr2, Htr1, <- !app_assoc. reflexivity.
    + by left.
    + congruence.
    + rewrite Hm3. cbn. eauto.
    + rewrite Hm4. cbn. congruence.
    + apply (steps_recorded _ _ _ _ Hlate).
      by apply end_run_recorded, (steps_recorded _ _ _ _ Hsteps).
    + rewrite Hx4, Hx3, Hx2. subst w1. reflexivity.
    + rewrite Hax4, Hax3, Hax2. subst w1. reflexivity.
    + intros q Hq. rewrite (steps_files _ _ _ _ Hlate Hq), Hfs3,
        (steps_files _ _ _ _ Hsteps Hq). by rewrite Hfs1.
Qed.

End Shape.

(** ** No run is left open, other files are left alone *)





(** ** An error after the run has closed *)

(** X10: when the body completes and one of the calls after the [with]
    block raises [e] ([get_run] or one of the four [set_tag]s), [train]
    raises [e]; the run has been closed as FINISHED before that and stays
    FINISHED, with its end time, and no run is active. *)
Theorem train_error_after_close (E : Env) (self : Trainer)
    (registered_model_name : option string) (stage : string) (archive : bool)
    (output_path : option string) (max_depth : option Z) (max_leaf_nodes : Z)
    (w : World) (run : Run) (w1 : World) (res : string * string) (w2 : World)
    (e : exn) (w' : World) :
  mlflow_start_run E (run_name E self) w = (Ok run, w1) ->
  train_body E self registered_model_name stage archive output_path
             max_depth max_leaf_nodes run w1 = (Ok res, w2) ->
  train_finalize E res.1 res.2 (mlflow_end_run E FINISHED w2) = (Raise e, w') ->
  train E self registered_model_name stage archive output_path
        max_depth max_leaf_nodes w = (Raise e, w') /\
  active_runs w' = [] /\
  EvEndRun (info_run_id run) FINISHED ∈ trace w' /\
  exists rec, runs w' !! info_run_id run = Some rec /\
    r_status rec = FINISHED /\ is_Some (r_end_time rec).
Proof.
  intros Hs Hb Hfin.
  assert (Ht : train E self registered_model_name stage archive output_path
                     max_depth max_leaf_nodes w = (Raise e, w')).
  { unfold train, with_start_run, bind. cbv zeta. rewrite Hs, Hb.
    destruct res as [eid rid]. exact Hfin. }
  split; [exact Ht|].
  apply start_run_world in Hs as (_ & _ & _ & Ha1 & Hr1 & _).
  destruct (train_body_keeps_run _ _ _ _ _ _ _ _ _ _ _ _ _ Ha1 Hr1 Hb)
    as (Ha2 & r2 & Hr2 & _).
  destruct (end_run_closes E FINISHED _ _ _ Ha2 Hr2) as (Ha3 & Htr3 & _ & Hr3).
  pose proof (reaches_finalize E (fun _ => True) res.1 res.2 _ ltac:(done) _ _ Hfin)
    as Hlate.
  destruct (steps_trace _ _ _ Hlate) as (evs & Htr4 & _).
  destruct (steps_lifecycle _ _ _ _ _ Hlate Hr3) as (r4 & Hr4 & Hl1 & _ & Hl3 & _).
  split_and!.
  - by rewrite (steps_active_runs _ _ _ Hlate).
  - rewrite Htr4, Htr3. apply elem_of_app. left. apply elem_of_app. right.
    apply elem_of_cons. by left.
  - exists r4. split; [done|]. rewrite Hl1, Hl3. cbn. eauto.
Qed.

Lemma train_error_after_close_witness :
  late_train = (Raise (Exn "MlflowException" "INTERNAL_ERROR"), late_finalize.2) /\
  active_runs late_finalize.2 = [] /\
  exists rec, runs late_finalize.2 !! "5f1c9a" = Some rec /\
    r_status rec = FINISHED /\ is_Some (r_end_time rec).
Proof.
  destruct (train_error_after_close late_env (sample_trainer true) (Some "wine-model")
              "Staging" true (Some "/tmp/run_id.txt") None 32 sample_world
              failing_run late_start.2 ("0", "5f1c9a") late_body.2
              (Exn "MlflowException" "INTERNAL_ERROR") late_finalize.2)
    as (Ht & Ha & _ & Hrec).
  - vm_compute. reflexivity.
  - vm_compute. reflexivity.
  - vm_compute. reflexivity.
  - split; [exact Ht|]. split; [exact Ha|exact Hrec].
Defined.

(** ** What a completed run has on record *)

Section Record.

Variable E : Env.











(** The record of the run that [train] returns, against the calls. *)
Lemma train_record self rmn stage arch out md mln w eid rid w' :
  train E self rmn stage arch out md mln w = (Ok (eid, rid), w') ->
  exists uuid t1 rec,
    trace w' = trace w ++
      EvStartRun rid (run_name E self) ::
      expected_body_events E self rmn stage arch out md mln rid eid uuid ++
      EvEndRun rid FINISHED :: EvGetRun rid ::
      map (fun kv => EvClientSetTag rid kv.1 kv.2)
          (timing_tags (env_clock E (length (trace w))) (Some t1)) /\
    runs w' !! rid = Some rec /\
    r_status rec = FINISHED /\
    r_start_time rec = env_clock E (length (trace w)) /\
    r_end_time rec = Some t1 /\
    r_experiment_id rec = eid /\
    r_tags rec = tags_of rid (trace w') /\
    r_params rec = params_of rid (trace w') /\
    r_metrics rec = metrics_of rid (trace w').
Proof.
  intros H. pose proof H as H'.
  apply train_Ok in H
    as (_ & Hrid & Heid & uuid & t1 & rec & Htr & _ & _ & Hr & Hst & Ht0 & Ht1 & _).
  cbv zeta in *.
  apply train_shape in H'
    as [(_ & e & ?)|(rid' & st & body & late & rec' & _ & Hrid' & _ & _ & _ & _ & _ & Hr'
                     & _ & _ & Hexp & Hrec & _)]; [done|].
  assert (rid' = rid) as -> by congruence.
  rewrite Hr in Hr'. injection Hr' as <-.
  destruct Hrec as (rec'' & Hr'' & Ht & Hp & Hm).
  rewrite Hr in Hr''. injection Hr'' as <-.
  exists uuid, t1, rec. split_and!; try done. congruence.
Qed.

End Record.





(** ** [main]: the constructor, then the run *)

Section Main.

Variable E : Env.

Lemma apart_refl w : apart w w.
Proof. repeat split. exists []. by rewrite app_nil_r. Qed.

Lemma apart_trans w1 w2 w3 : apart w1 w2 -> apart w2 w3 -> apart w1 w3.
Proof.
  intros (a1 & a2 & a3 & l1 & a4 & a5) (b1 & b2 & b3 & l2 & b4 & b5).
  repeat split; try congruence.
  exists (l1 ++ l2). split; [by rewrite b4, a4, app_assoc|by apply Forall_app].
Qed.

Lemma stays_apart_bind {A B} (m : M A) (k : A -> M B) :
  stays_apart m -> (forall a, stays_apart (k a)) -> stays_apart (bind m k).
Proof.
  intros Hm Hk w r w'. unfold bind.
  destruct (m w) as [[a|e] w1] eqn:Hmw.
  - intros H. eapply apart_trans; [by eapply Hm|by eapply Hk].
  - intros [= <- <-]. by eapply Hm.
Qed.

Lemma stays_apart_ret {A} (a : A) : stays_apart (ret a).
Proof. intros w r w' [= <- <-]. apply apart_refl. Qed.

Lemma stays_apart_guard op : stays_apart (guard E op).
Proof.
  intros w r w'. unfold guard.
  destruct (env_fault E op); intros [= <- <-]; apply apart_refl.
Qed.

Lemma stays_apart_emit ev : is_run_call ev = false -> stays_apart (emit ev).
Proof.
  intros Hev w r w' [= <- <-]. repeat split.
  exists [ev]. split; [done|]. by apply Forall_singleton.
Qed.

Lemma stays_apart_build_data p : stays_apart (_build_data E p).
Proof.
  intros w r w' H. apply build_data_split in H as ->. repeat split.
  exists [EvReadCsv p]. split; [done|]. by apply Forall_singleton.
Qed.

Lemma stays_apart_set_experiment name : stays_apart (mlflow_set_experiment E name).
Proof.
  unfold mlflow_set_experiment.
  apply stays_apart_bind; [apply stays_apart_guard|intros _].
  intros w r w'. cbv beta iota zeta delta [bind get modify emit]. intros [= <- <-].
  repeat split. eexists [_]. split; [reflexivity|]. by apply Forall_singleton.
Qed.

Lemma stays_apart_get_experiment_by_name name :
  stays_apart (client_get_experiment_by_name E name).
Proof.
  unfold client_get_experiment_by_name.
  apply stays_apart_bind; [apply stays_apart_guard|intros _].
  apply stays_apart_bind; [by apply stays_apart_emit|intros _].
  intros w r w'. cbv beta iota zeta delta [bind get ret]. intros [= <- <-].
  apply apart_refl.
Qed.

Lemma stays_apart_experiment_id_of exp : stays_apart (experiment_id_of exp).
Proof. destruct exp; intros w r w' [= <- <-]; apply apart_refl. Qed.

Lemma stays_apart_set_experiment_tag id key v :
  stays_apart (client_set_experiment_tag E id key v).
Proof.
  unfold client_set_experiment_tag.
  apply stays_apart_bind; [apply stays_apart_guard|intros _].
  intros w r w'. cbv beta iota zeta delta [bind modify emit]. intros [= <- <-].
  repeat split. eexists [_]. split; [reflexivity|]. by apply Forall_singleton.
Qed.

(** The constructor keeps away from runs and files. *)
Lemma stays_apart_init en dp onnx sg ro ur :
  stays_apart (Trainer_init E en dp onnx sg ro ur).
Proof.
  unfold Trainer_init.
  apply stays_apart_bind; [apply stays_apart_build_data|intros [[[X1 X2] y1] y2]].
  apply stays_apart_bind; [|intros _; apply stays_apart_ret].
  unfold when_str. destruct en as [name|]; [|apply stays_apart_ret].
  destruct (String.eqb name ""); [apply stays_apart_ret|].
  apply stays_apart_bind; [apply stays_apart_set_experiment|intros _].
  apply stays_apart_bind; [apply stays_apart_get_experiment_by_name|intros exp].
  apply stays_apart_bind; [apply stays_apart_experiment_id_of|intros id].
  apply stays_apart_bind; [apply stays_apart_set_experiment_tag|intros _].
  apply stays_apart_set_experiment_tag.
Qed.

Lemma init_Ok_trainer en dp onnx sg ro ur w t w1 :
  Trainer_init E en dp onnx sg ro ur w = (Ok t, w1) ->
  exists X1 X2 y1 y2,
    (_build_data E dp w).1 = Ok (X1, X2, y1, y2) /\
    t = mkTrainer en dp ro onnx sg ur X1 X2 y1 y2.
Proof.
  intros H. unfold Trainer_init in H.
  apply bind_Ok in H as ([[[X1 X2] y1] y2] & w2 & Hb & H).
  apply bind_Ok in H as (? & w3 & _ & H). apply ret_Ok in H as [-> _].
  exists X1, X2, y1, y2. by rewrite Hb.
Qed.

Lemma main_Ok o w u w' :
  main E o w = (Ok u, w') ->
  exists t w1 eid rid,
    Trainer_init E (o_experiment_name o) (o_data_path o) (o_log_as_onnx o)
                 (o_save_signature o) (o_run_origin o) (o_use_run_id_as_run_name o) w
      = (Ok t, w1) /\
    train E t (o_model_name o) (o_model_version_stage o)
          (o_archive_existing_versions o) (o_output_path o) (o_max_depth o)
          (o_max_leaf_nodes o) w1 = (Ok (eid, rid), w').
Proof.
  intros H. unfold main in H.
  apply bind_Ok in H as (t & w1 & Hi & H).
  apply bind_Ok in H as ([eid rid] & w2 & Ht & H). apply ret_Ok in H as [_ ->].
  by exists t, w1, eid, rid.
Qed.

End Main.

(** X13: when [main] returns, there is a run in the store that is FINISHED
    and that was fitted on the tables prepared from [data_path].  Given a
    non-empty experiment name, the run belongs to the experiment of that
    name, which carries the tags [version_mlflow] and [experiment_created];
    given none, the run belongs to the experiment that was active before
    (["0"] when there was none) and the experiments are untouched. *)
Theorem main_run_belongs_to_experiment (E : Env) (o : Options) (w : World)
    (u : unit) (w' : World) :
  main E o w = (Ok u, w') ->
  exists rid rec X1 X2 y1 y2,
    (_build_data E (o_data_path o) w).1 = Ok (X1, X2, y1, y2) /\
    EvFit (DecisionTreeRegressor (o_max_depth o) (o_max_leaf_nodes o)) ∈ trace w' /\
    EvPredict (Fitted (DecisionTreeRegressor (o_max_depth o) (o_max_leaf_nodes o)) X1 y1)
      ∈ trace w' /\
    runs w' !! rid = Some rec /\ r_status rec = FINISHED /\
    (truthy (o_experiment_name o) = false ->
       r_experiment_id rec = default "0" (active_experiment w) /\
       experiments w' = experiments w) /\
    (forall name, o_experiment_name o = Some name -> name <> "" ->
       exists x, experiments w' !! name = Some x /\ r_experiment_id rec = e_id x /\
         e_tags x !! "version_mlflow" = Some (VStr (env_mlflow_version E)) /\
         e_tags x !! "experiment_created" = Some (now E)).
Proof.
  intros H. apply main_Ok in H as (t & w1 & eid & rid & Hi & Ht).
  destruct (init_Ok_trainer _ _ _ _ _ _ _ _ _ _ Hi) as (X1 & X2 & y1 & y2 & Hb & Htr).
  pose proof (train_Ok _ _ _ _ _ _ _ _ _ _ _ _ Ht) as (_ & _ & Heid & _).
  pose proof (train_shape _ _ _ _ _ _ _ _ _ _ _ Ht)
    as [(_ & e & ?)|(rid' & st & body & late & rec' & _ & _ & _ & _ & _ & _ & _ & _
                     & _ & _ & _ & _ & Hx & _)]; [done|].
  apply train_record in Ht
    as (uuid & t1 & rec & Htrace & Hr & Hst & _ & _ & Hexp & _).
  exists rid, rec, X1, X2, y1, y2. split; [done|].
  assert (Hin : forall ev,
            ev ∈ logging_events E t (o_model_name o) (o_model_version_stage o)
                   (o_archive_existing_versions o) (o_max_depth o) (o_max_leaf_nodes o)
                   rid eid uuid -> ev ∈ trace w').
  { intros ev Hev. rewrite Htrace. apply elem_of_app. right. apply elem_of_cons. right.
    apply elem_of_app. left. unfold expected_body_events. apply elem_of_app. by left. }
  split_and!; try done.
  - apply Hin. unfold logging_events. rewrite !elem_of_app. right. right. left.
    do 13 (apply elem_of_cons; right). apply elem_of_cons. by left.
  - apply Hin. unfold logging_events. rewrite !elem_of_app. right. right. left.
    do 14 (apply elem_of_cons; right). apply elem_of_cons. left. by rewrite Htr.
  - intros Hfalsy.
    pose proof (init_without_experiment E _ (o_data_path o) (o_log_as_onnx o)
                  (o_save_signature o) (o_run_origin o) (o_use_run_id_as_run_name o)
                  w Hfalsy) as Hw1.
    rewrite Hi in Hw1. cbn in Hw1. subst w1. cbn in Heid. split; [congruence|].
    by rewrite Hx.
  - intros name Hname Hne. rewrite Hname in Hi.
    destruct (init_with_experiment E name _ _ _ _ _ _ _ _ Hne Hi)
      as (x & _ & Hax & x' & Hx' & Hid & Ht1 & Ht2).
    exists x'. rewrite Hx. split_and!; try done.
    rewrite Hexp, Heid, Hax. cbn. congruence.
Qed.

Lemma main_run_belongs_to_experiment_witness :
  exists rid rec x,
    runs (main quiet_env
            (mkOptions (Some "wine") "wine-quality.csv" None "None" false true false
                       None 32 None None false) sample_world).2 !! rid = Some rec /\
    experiments (main quiet_env
            (mkOptions (Some "wine") "wine-quality.csv" None "None" false true false
                       None 32 None None false) sample_world).2 !! "wine" = Some x /\
    r_experiment_id rec = e_id x.
Proof.
  destruct (main_run_belongs_to_experiment quiet_env
              (mkOptions (Some "wine") "wine-quality.csv" None "None" false true false
                         None 32 None None false) sample_world tt
              (main quiet_env
                 (mkOptions (Some "wine") "wine-quality.csv" None "None" false true false
                            None 32 None None false) sample_world).2)
    as (rid & rec & X1 & X2 & y1 & y2 & _ & _ & _ & Hr & _ & _ & Hexp).
  - vm_compute. reflexivity.
  - destruct (Hexp "wine" eq_refl ltac:(discriminate)) as (x & Hx & Hid & _).
    exists rid, rec, x. split; [exact Hr|]. split; [exact Hx|exact Hid].
Defined.

(** X14: when the constructor raises, [main] raises the same error and
    never gets to [train]: no run has been started or written to, no file has
    been touched, and no run is active that was not before. *)
Theorem main_init_error_starts_no_run (E : Env) (o : Options) (w : World)
    (e : exn) (w1 : World) :
  Trainer_init E (o_experiment_name o) (o_data_path o) (o_log_as_onnx o)
               (o_save_signature o) (o_run_origin o) (o_use_run_id_as_run_name o) w
    = (Raise e, w1) ->
  main E o w = (Raise e, w1) /\
  runs w1 = runs w /\ active_runs w1 = active_runs w /\ files w1 = files w /\
  existsb is_run_call (drop (length (trace w)) (trace w1)) = false.
Proof.
  intros Hi. split.
  - unfold main, bind. by rewrite Hi.
  - destruct (stays_apart_init E _ _ _ _ _ _ _ _ _ Hi) as (Hr & Ha & Hf & evs & Htr & Hev).
    split_and!; try done. rewrite Htr, drop_app_length. clear Htr.
    induction Hev as [|ev l Hev _ IH]; [done|]. cbn. by rewrite Hev.
Qed.

Lemma main_init_error_starts_no_run_witness :
  main quiet_env
       (mkOptions (Some "wine") "missing.csv" None "None" false true false
                  None 32 None None false) sample_world
    = (Raise (Exn "FileNotFoundError" "missing.csv"),
       log_event (EvReadCsv "missing.csv") sample_world).
Proof.
  apply (main_init_error_starts_no_run quiet_env
           (mkOptions (Some "wine") "missing.csv" None "None" false true false
                      None 32 None None false) sample_world).
  vm_compute. reflexivity.
Defined.

(** ** The calls of a run that raises *)

Section Plays.

Variable E : Env.
Variable rid : string.

Lemma plays_bind {A B} (m : M A) (k : A -> M B) evs1 evs2 a b w :
  plays E rid evs1 a m w ->
  (forall w1, active_runs w1 = active_runs w -> trace w1 = trace w ++ evs1 ->
     plays E rid evs2 b (k a) w1) ->
  plays E rid (evs1 ++ evs2) b (bind m k) w.
Proof.
  intros Hm Hk r w'. unfold bind. destruct (m w) as [[x|e] w1] eqn:H1.
  - destruct (Hm _ _ H1) as (Ha & Ho & made & Ht & -> & ->). intros H2.
    destruct (Hk w1 Ha Ht _ _ H2) as (Ha2 & Ho2 & made2 & Ht2 & Hr).
    split; [congruence|]. split.
    { intros other Hne. by rewrite Ho2, Ho. }
    exists (evs1 ++ made2). split; [by rewrite Ht2, Ht, app_assoc|].
    destruct r as [y|e]; destruct Hr as [? ?]; split;
      [done|congruence|done|by apply prefix_app].
  - intros [= <- <-]. destruct (Hm _ _ H1) as (Ha & Ho & made & Ht & Hc & Hp).
    split; [done|]. split; [done|]. exists made. split; [done|]. split; [done|].
    by apply prefix_app_r.
Qed.

Lemma plays_bind_one {A B} (m : M A) (k : A -> M B) ev evs a b w :
  plays E rid [ev] a m w ->
  (forall w1, active_runs w1 = active_runs w -> trace w1 = trace w ++ [ev] ->
     plays E rid evs b (k a) w1) ->
  plays E rid (ev :: evs) b (bind m k) w.
Proof. apply (plays_bind m k [ev] evs). Qed.

Lemma plays_bind_none {A B} (m : M A) (k : A -> M B) evs a b w :
  plays E rid [] a m w ->
  (forall w1, active_runs w1 = active_runs w -> trace w1 = trace w ++ [] ->
     plays E rid evs b (k a) w1) ->
  plays E rid evs b (bind m k) w.
Proof. apply (plays_bind m k [] evs). Qed.

Lemma plays_bind_last {A B} (m : M A) (k : A -> M B) evs a b w :
  plays E rid evs a m w ->
  (forall w1, active_runs w1 = active_runs w -> trace w1 = trace w ++ evs ->
     plays E rid [] b (k a) w1) ->
  plays E rid evs b (bind m k) w.
Proof.
  intros Hm Hk. pose proof (plays_bind m k evs [] a b w Hm Hk) as H.
  by rewrite app_nil_r in H.
Qed.

Lemma plays_ret {A} (a : A) w : plays E rid [] a (ret a) w.
Proof.
  intros r w' [= <- <-]. split; [done|]. split; [done|]. exists [].
  by rewrite app_nil_r.
Qed.

Lemma plays_guarded {A} op evs (a : A) (m : M A) w :
  plays E rid evs a m w -> plays E rid evs a (guard E op ;; m) w.
Proof.
  intros Hm r w'. unfold bind, guard.
  destruct (env_fault E op) as [e|] eqn:Hf; [|apply Hm].
  intros [= <- <-]. split; [done|]. split; [done|]. exists []. rewrite app_nil_r.
  split; [done|]. split; [by exists op|apply prefix_nil].
Qed.

(** A call that leaves the runs alone and is recorded as [ev]. *)
Lemma plays_call {A} (a : A) ev (m : M A) w :
  (exists w', m w = (Ok a, w') /\ active_runs w' = active_runs w /\
     runs w' = runs w /\ trace w' = trace w ++ [ev]) ->
  plays E rid [ev] a m w.
Proof.
  intros (w1 & Hm & Ha & Hr & Ht) r w' H. rewrite Hm in H. injection H as <- <-.
  split; [done|]. split; [by rewrite Hr|]. by exists [ev].
Qed.

Lemma plays_emit ev w : plays E rid [ev] tt (emit ev) w.
Proof. apply plays_call. by eexists. Qed.

Lemma plays_guarded_emit op ev w : plays E rid [ev] tt (guard E op ;; emit ev) w.
Proof. apply plays_guarded, plays_emit. Qed.

Lemma plays_guarded_ret {A} op (a : A) w : plays E rid [] a (guard E op ;; ret a) w.
Proof. apply plays_guarded, plays_ret. Qed.

Lemma plays_model_fit m X y w :
  plays E rid [EvFit m] (Fitted m X y) (model_fit E m X y) w.
Proof. apply plays_guarded, plays_call. by eexists. Qed.

Lemma plays_model_predict m X w :
  plays E rid [EvPredict m] (Predict m X) (model_predict E m X) w.
Proof. apply plays_guarded, plays_call. by eexists. Qed.

Lemma plays_uuid w :
  plays E rid [] (env_uuid E (length (trace w))) (shortuuid_uuid E) w.
Proof.
  intros r w' [= <- <-]. split; [done|]. split; [done|]. exists [].
  by rewrite app_nil_r.
Qed.

Lemma plays_signature (b : bool) X p w :
  plays E rid [] (if b then Some (infer_signature X p) else None)
    (if b then let! s := mlflow_infer_signature E X p in ret (Some s) else ret None) w.
Proof.
  destruct b; [|apply plays_ret].
  eapply plays_bind_none; [apply plays_guarded_ret|]. intros. apply plays_ret.
Qed.

(** A fluent call writes to the run on top of the stack. *)
Lemma plays_fluent op (f : string -> RunRec -> RunRec) (ev : string -> Event) rest w :
  active_runs w = rid :: rest ->
  plays E rid [ev rid] tt
    (guard E op ;; let! r := active_run_id E in update_run r (f r) ;; emit (ev r)) w.
Proof.
  intros Ha. apply plays_guarded. intros r w'.
  cbv beta iota zeta delta [bind active_run_id get update_run modify emit ret].
  rewrite Ha. intros [= <- <-]. split; [done|]. split; [|by exists [ev rid]].
  intros other Hne. cbn [runs log_event set_runs]. by rewrite lookup_alter_ne.
Qed.

Lemma plays_set_tag key v rest w :
  active_runs w = rid :: rest ->
  plays E rid [EvSetTag rid key v] tt (mlflow_set_tag E key v) w.
Proof. apply (plays_fluent _ (fun _ => add_tag key v) (fun r => EvSetTag r key v)). Qed.

Lemma plays_log_param key v rest w :
  active_runs w = rid :: rest ->
  plays E rid [EvLogParam rid key v] tt (mlflow_log_param E key v) w.
Proof.
  apply (plays_fluent _ (fun _ => add_param key v) (fun r => EvLogParam r key v)).
Qed.

Lemma plays_log_metric key v rest w :
  active_runs w = rid :: rest ->
  plays E rid [EvLogMetric rid key v] tt (mlflow_log_metric E key v) w.
Proof.
  apply (plays_fluent _ (fun _ => add_metric key v) (fun r => EvLogMetric r key v)).
Qed.

Lemma plays_log_model m path sg rest w :
  active_runs w = rid :: rest ->
  plays E rid [EvLogModel rid path m sg] tt (mlflow_sklearn_log_model E m path sg) w.
Proof.
  apply (plays_fluent _ (fun _ => add_artifact (ASklearnModel path m sg))
           (fun r => EvLogModel r path m sg)).
Qed.

Lemma plays_onnx_log_model m path name X rest w :
  active_runs w = rid :: rest ->
  plays E rid [EvOnnxLogModel rid path name] tt (onnx_utils_log_model E m path name X) w.
Proof.
  apply (plays_fluent _ (fun _ => add_artifact (AOnnxModel path m X))
           (fun r => EvOnnxLogModel r path name)).
Qed.

Lemma plays_log_artifact path rest w :
  active_runs w = rid :: rest ->
  plays E rid [EvLogArtifact rid path] tt (mlflow_log_artifact E path) w.
Proof.
  apply (plays_fluent _ (fun _ => add_artifact (AFile path)) (fun r => EvLogArtifact r path)).
Qed.

Lemma plays_create_plot_file y p path w :
  plays E rid [EvCreatePlotFile path] tt (plot_utils_create_plot_file E y p path) w.
Proof. apply plays_guarded, plays_call. by eexists. Qed.

Lemma plays_open_w path w : plays E rid [EvOpen path] path (open_w E path) w.
Proof. apply plays_guarded, plays_call. by eexists. Qed.

Lemma plays_file_write f data w :
  plays E rid [EvWrite f data] tt (file_write E f data) w.
Proof. apply plays_guarded, plays_call. by eexists. Qed.

Lemma plays_get_run r0 w :
  runs w !! rid = Some r0 ->
  plays E rid [EvGetRun rid] (mkHandle rid r0) (client_get_run E rid) w.
Proof.
  intros Hr. apply plays_guarded, plays_call. eexists.
  cbv beta iota zeta delta [bind emit get ret raise].
  change (runs (log_event (EvGetRun rid) w)) with (runs w). rewrite Hr. done.
Qed.

Lemma plays_client_set_tag key v w :
  plays E rid [EvClientSetTag rid key v] tt (client_set_tag E rid key v) w.
Proof.
  apply plays_guarded. intros r w' [= <- <-]. split; [done|].
  split; [|by exists [EvClientSetTag rid key v]].
  intros other Hne. cbn [runs log_event set_runs]. by rewrite lookup_alter_ne.
Qed.

Lemma plays_when (b : bool) (m : M unit) evs w :
  plays E rid evs tt m w -> plays E rid (if b then evs else []) tt (when b m) w.
Proof. destruct b; [done|]. intros _. apply plays_ret. Qed.

Lemma plays_when_str o (body : string -> M unit) evs w :
  (forall s, o = Some s -> s <> "" -> plays E rid evs tt (body s) w) ->
  plays E rid (if truthy o then evs else []) tt (when_str o body) w.
Proof.
  destruct o as [s|]; cbn; [|intros _; apply plays_ret].
  destruct (String.eqb_spec s ""); cbn; [intros _; apply plays_ret|]. eauto.
Qed.

End Plays.

Section PlaysTrain.

Variable E : Env.

(** One call of the program, or a block of them; [next] introduces the world
    after a call. *)
Ltac play next :=
  lazymatch goal with
  | |- plays _ _ _ _ (ret _) _ => apply plays_ret
  | |- plays _ _ _ _ (bind ?m _) _ =>
      lazymatch m with
      | shortuuid_uuid _ => eapply plays_bind_none; [apply plays_uuid|]
      | metric _ _ _ => eapply plays_bind_none; [apply plays_guarded_ret|]
      | (if _ then _ else _) => eapply plays_bind_none; [apply plays_signature|]
      | when _ _ => eapply plays_bind; [play next|]
      | when_str _ _ =>
          first [eapply plays_bind; [play next|] | eapply plays_bind_last; [play next|]]
      | _ => eapply plays_bind_one; [play next|]
      end; next; play next
  | |- plays _ _ _ _ (when _ _) _ => apply plays_when; play next
  | |- plays _ _ _ _ (when_str _ _) _ =>
      let s := fresh "s" in
      apply plays_when_str; intros s -> ?; cbn [default]; play next
  | |- plays _ _ _ _ (client_get_experiment _ _) _ => apply plays_guarded_emit
  | |- plays _ _ _ _ (mlflow_utils_register_model _ _ _ _ _ _) _ =>
      apply plays_guarded_emit
  | |- plays _ _ _ _ (mlflow_set_tag _ _ _) _ => eapply plays_set_tag; eassumption
  | |- plays _ _ _ _ (mlflow_log_param _ _ _) _ => eapply plays_log_param; eassumption
  | |- plays _ _ _ _ (mlflow_log_metric _ _ _) _ => eapply plays_log_metric; eassumption
  | |- plays _ _ _ _ (mlflow_sklearn_log_model _ _ _ _) _ =>
      eapply plays_log_model; eassumption
  | |- plays _ _ _ _ (onnx_utils_log_model _ _ _ _ _) _ =>
      eapply plays_onnx_log_model; eassumption
  | |- plays _ _ _ _ (mlflow_log_artifact _ _) _ => eapply plays_log_artifact; eassumption
  | |- plays _ _ _ _ (model_fit _ _ _ _) _ => apply plays_model_fit
  | |- plays _ _ _ _ (model_predict _ _ _) _ => apply plays_model_predict
  | |- plays _ _ _ _ (plot_utils_create_plot_file _ _ _ _) _ =>
      apply plays_create_plot_file
  | |- plays _ _ _ _ (open_w _ _) _ => apply plays_open_w
  | |- plays _ _ _ _ (file_write _ _ _) _ => apply plays_file_write
  | |- plays _ _ _ _ (client_set_tag _ _ _ _) _ => apply plays_client_set_tag
  end.

(** The body of the [with] block: its calls are those of a complete run, or
    an initial segment of them when it raises. *)
Lemma train_body_plays self rmn stage arch out md mln run w rest :
  active_runs w = info_run_id run :: rest ->
  exists uuid,
    plays E (info_run_id run)
      (expected_body_events E self rmn stage arch out md mln (info_run_id run)
         (r_experiment_id (info run)) uuid)
      (r_experiment_id (info run), info_run_id run)
      (train_body E self rmn stage arch out md mln run) w.
Proof.
  intros Ha. eexists.
  assert (Ht : trace w = trace w ++ []) by (by rewrite app_nil_r).
  unfold train_body, expected_body_events, logging_events, output_events. cbv zeta.
  rewrite <- !app_assoc. cbn [app].
  play ltac:(intros ? Ha' Ht'; cbv beta;
             rewrite Ha in Ha'; rewrite Ht in Ht'; try rewrite Ht; clear Ha Ht;
             rename Ha' into Ha; rename Ht' into Ht).
Qed.

Lemma train_finalize_plays eid rid w r0 :
  runs w !! rid = Some r0 ->
  plays E rid (closing_events rid (r_start_time r0) (r_end_time r0)) (eid, rid)
    (train_finalize E eid rid) w.
Proof.
  intros Hr. unfold train_finalize, closing_events, timing_tags. cbn [map fst snd].
  eapply plays_bind_one; [by apply plays_get_run|]. intros w1 _ _. cbn [info].
  play ltac:(intros ? _ _).
Qed.

End PlaysTrain.

(** ** How [train] fails *)

Section Failures.

Variable E : Env.

Lemma start_run_error name w e w1 :
  mlflow_start_run E name w = (Raise e, w1) ->
  thrown_by_call E e \/
  (active_runs w <> [] /\ e = Exn "Exception" "a run is already active").
Proof.
  cbv beta iota zeta delta [mlflow_start_run bind guard get modify emit ret raise].
  destruct (env_fault E OpStartRun) eqn:Hf;
    [intros [= <- <-]; left; by exists OpStartRun|].
  destruct (active_runs w); [discriminate|]. intros [= <- <-]. by right.
Qed.

(** Everything that is known when [train] raises. *)
Lemma train_Raise self rmn stage arch out md mln w e w' :
  train E self rmn stage arch out md mln w = (Raise e, w') ->
  let rid := env_run_id E (size (runs w)) in
  let eid := default "0" (active_experiment w) in
  (w' = w /\
   (thrown_by_call E e \/
    (active_runs w <> [] /\ e = Exn "Exception" "a run is already active"))) \/
  (active_runs w = [] /\ thrown_by_call E e /\
   ((exists uuid made,
       made `prefix_of` expected_body_events E self rmn stage arch out md mln rid eid uuid /\
       trace w' = trace w ++
         EvStartRun rid (run_name E self) :: made ++ [EvEndRun rid FAILED]) \/
    (exists uuid t1 late,
       late `prefix_of` closing_events rid (env_clock E (length (trace w))) (Some t1) /\
       trace w' = trace w ++
         EvStartRun rid (run_name E self) ::
         expected_body_events E self rmn stage arch out md mln rid eid uuid ++
         EvEndRun rid FINISHED :: late))).
Proof.
  intros H rid eid. subst rid eid.
  apply train_cases in H
    as [(e' & Hs & [= <-])|[(run & w1 & e' & w2 & Hs & Hb & [= <-] & ->)
                           |(run & w1 & res & w2 & Hs & Hb & Hfin)]].
  - left. split; [by apply start_run_Raise in Hs|by apply start_run_error in Hs].
  - right.
    apply start_run_world in Hs
      as (Ha & Hrid & Heid & Ha1 & Hr1 & Hst & Ht0 & Htr1 & Hfs1).
    destruct (train_body_plays E self rmn stage arch out md mln run w1 [] Ha1)
      as (uuid & Hp).
    destruct (Hp _ _ Hb) as (Ha2 & _ & made & Ht2 & Hc & Hpre).
    split; [done|]. split; [done|]. left. exists uuid, made.
    rewrite Hrid, Heid in Hpre. split; [done|].
    unfold mlflow_end_run. rewrite Ha2, Ha1.
    cbn [trace log_event set_active_runs set_runs].
    rewrite Ht2, Htr1, Hrid. by rewrite <- !app_assoc.
  - right.
    apply start_run_world in Hs
      as (Ha & Hrid & Heid & Ha1 & Hr1 & Hst & Ht0 & Htr1 & Hfs1).
    destruct (train_body_keeps_run _ _ _ _ _ _ _ _ _ _ _ _ _ Ha1 Hr1 Hb)
      as (Ha2 & r2 & Hr2 & _ & Hl2 & _).
    destruct (train_body_plays E self rmn stage arch out md mln run w1 [] Ha1)
      as (uuid & Hp).
    destruct (Hp _ _ Hb) as (_ & _ & made & Ht2 & -> & ->). cbn [fst snd] in Hfin.
    destruct (end_run_closes E FINISHED _ _ _ Ha2 Hr2) as (Ha3 & Htr3 & _ & Hr3).
    destruct (train_finalize_plays E (r_experiment_id (info run)) (info_run_id run)
                _ _ Hr3 _ _ Hfin) as (_ & _ & late & Ht4 & Hc & Hpre).
    cbn [terminate r_start_time r_end_time] in Hpre.
    rewrite Hl2, Ht0, Hrid in Hpre.
    split; [done|]. split; [done|]. right.
    exists uuid, (env_clock E (length (trace w2))), late. split; [done|].
    rewrite Ht4, Htr3, Ht2, Htr1, Hrid, Heid. by rewrite <- !app_assoc.
Qed.

(** Whatever [train] does, it writes to the run it starts and to no other. *)
Lemma train_other_runs self rmn stage arch out md mln w r w' other :
  train E self rmn stage arch out md mln w = (r, w') ->
  other <> env_run_id E (size (runs w)) ->
  runs w' !! other = runs w !! other.
Proof.
  intros H Hne.
  assert (Hstart : forall run w1,
            mlflow_start_run E (run_name E self) w = (Ok run, w1) ->
            runs w1 !! other = runs w !! other).
  { intros run w1 Hs. apply start_run_Ok in Hs as (_ & _ & ->).
    cbn [runs log_event set_active_runs set_runs]. by rewrite lookup_insert_ne. }
  assert (Hend : forall status rid w2,
            active_runs w2 = [rid] -> other <> rid ->
            runs (mlflow_end_run E status w2) !! other = runs w2 !! other).
  { intros status rid w2 Ha2 Hne2. unfold mlflow_end_run. rewrite Ha2.
    cbn [runs log_event set_active_runs set_runs]. by rewrite lookup_alter_ne. }
  apply train_cases in H
    as [(e & Hs & ->)|[(run & w1 & e & w2 & Hs & Hb & -> & ->)
                      |(run & w1 & res & w2 & Hs & Hb & Hfin)]].
  - by apply start_run_Raise in Hs as ->.
  - rewrite <- (Hstart _ _ Hs).
    apply start_run_world in Hs as (_ & Hrid & _ & Ha1 & Hr1 & _).
    rewrite <- Hrid in Hne.
    destruct (train_body_keeps_run _ _ _ _ _ _ _ _ _ _ _ _ _ Ha1 Hr1 Hb) as (Ha2 & _).
    destruct (train_body_plays E self rmn stage arch out md mln run w1 [] Ha1)
      as (uuid & Hp).
    destruct (Hp _ _ Hb) as (_ & Ho & _).
    by rewrite (Hend _ _ _ Ha2 Hne), Ho.
  - rewrite <- (Hstart _ _ Hs).
    apply start_run_world in Hs as (_ & Hrid & _ & Ha1 & Hr1 & _).
    rewrite <- Hrid in Hne.
    destruct (train_body_keeps_run _ _ _ _ _ _ _ _ _ _ _ _ _ Ha1 Hr1 Hb)
      as (Ha2 & r2 & Hr2 & _).
    destruct (train_body_plays E self rmn stage arch out md mln run w1 [] Ha1)
      as (uuid & Hp).
    destruct (Hp _ _ Hb) as (_ & Ho & made & _ & -> & _). cbn [fst snd] in Hfin.
    destruct (end_run_closes E FINISHED _ _ _ Ha2 Hr2) as (_ & _ & _ & Hr3).
    destruct (train_finalize_plays E (r_experiment_id (info run)) (info_run_id run)
                _ _ Hr3 _ _ Hfin) as (_ & Ho4 & _).
    by rewrite Ho4, (Hend _ _ _ Ha2 Hne), Ho.
Qed.

End Failures.



(** X16: [train] has no error of its own: an error it raises was raised by
    one of the library calls it makes, or is the refusal of [start_run] to
    open a run while another one is active.  In particular [get_run] always
    finds the run that was just closed. *)
Theorem train_error_origin (E : Env) (self : Trainer)
    (registered_model_name : option string) (stage : string) (archive : bool)
    (output_path : option string) (max_depth : option Z) (max_leaf_nodes : Z)
    (w : World) (e : exn) (w' : World) :
  train E self registered_model_name stage archive output_path
        max_depth max_leaf_nodes w = (Raise e, w') ->
  thrown_by_call E e \/
  (active_runs w <> [] /\ e = Exn "Exception" "a run is already active").
Proof.
  intros H. apply train_Raise in H. cbv zeta in H.
  destruct H as [[_ H]|(_ & H & _)]; [done|by left].
Qed.

Lemma train_error_origin_witness :
  thrown_by_call failing_env (Exn "ValueError" "Input X contains NaN") \/
  (active_runs sample_world <> [] /\
   Exn "ValueError" "Input X contains NaN" = Exn "Exception" "a run is already active").
Proof.
  apply (train_error_origin failing_env (sample_trainer true) (Some "wine-model")
           "Staging" true (Some "/tmp/run_id.txt") None 32 sample_world
           (Exn "ValueError" "Input X contains NaN") failing_train.2).
  vm_compute. reflexivity.
Defined.

(** X17: when no run is active and none of the library calls raises,
    [train] returns: it closes the run and hands back the identifiers of the
    experiment and of the run. *)
Theorem train_returns (E : Env) (self : Trainer)
    (registered_model_name : option string) (stage : string) (archive : bool)
    (output_path : option string) (max_depth : option Z) (max_leaf_nodes : Z)
    (w : World) :
  (forall op, env_fault E op = None) ->
  active_runs w = [] ->
  exists w',
    train E self registered_model_name stage archive output_path
          max_depth max_leaf_nodes w
      = (Ok (default "0" (active_experiment w), env_run_id E (size (runs w))), w').
Proof.
  intros Hnf Ha.
  destruct (train E self registered_model_name stage archive output_path
              max_depth max_leaf_nodes w) as [[[eid rid]|e] w'] eqn:H.
  - apply train_Ok in H as (_ & -> & -> & _). by exists w'.
  - apply train_Raise in H. cbv zeta in H.
    destruct H as [[_ [(op & Hop)|(Hne & _)]]|(_ & (op & Hop) & _)];
      [by rewrite Hnf in Hop|done|by rewrite Hnf in Hop].
Qed.

Lemma train_returns_witness :
  exists w',
    train quiet_env (sample_trainer true) (Some "wine-model") "Staging" true
          (Some "/tmp/run_id.txt") None 32 sample_world
      = (Ok (default "0" (active_experiment sample_world),
             env_run_id quiet_env (size (runs sample_world))), w').
Proof.
  apply (train_returns quiet_env (sample_trainer true) (Some "wine-model") "Staging" true
           (Some "/tmp/run_id.txt") None 32 sample_world).
  - intros op. reflexivity.
  - reflexivity.
Defined.

(** X18: [train] does not nest runs: called while a run is active, it raises
    at [start_run] and leaves the world as it was; no call is recorded, the
    active run is neither written to nor closed. *)
Theorem train_inside_active_run (E : Env) (self : Trainer)
    (registered_model_name : option string) (stage : string) (archive : bool)
    (output_path : option string) (max_depth : option Z) (max_leaf_nodes : Z)
    (w : World) :
  active_runs w <> [] ->
  exists e,
    train E self registered_model_name stage archive output_path
          max_depth max_leaf_nodes w = (Raise e, w) /\
    (env_fault E OpStartRun = Some e \/
     env_fault E OpStartRun = None /\ e = Exn "Exception" "a run is already active").
Proof.
  intros Ha.
  cbv beta iota zeta delta [train with_start_run mlflow_start_run bind guard get raise].
  destruct (env_fault E OpStartRun) as [e|]; [exists e; by split; [|left]|].
  destruct (active_runs w); [done|]. eexists. split; [reflexivity|by right].
Qed.

Lemma train_inside_active_run_witness :
  exists e,
    train quiet_env (sample_trainer true) (Some "wine-model") "Staging" true
          (Some "/tmp/run_id.txt") None 32 failing_start.2 = (Raise e, failing_start.2) /\
    (env_fault quiet_env OpStartRun = Some e \/
     env_fault quiet_env OpStartRun = None /\ e = Exn "Exception" "a run is already active").
Proof.
  apply (train_inside_active_run quiet_env (sample_trainer true) (Some "wine-model")
           "Staging" true (Some "/tmp/run_id.txt") None 32 failing_start.2).
  vm_compute. discriminate.
Defined.

(** X19: however [train] ends, it writes to the run it starts and to no
    other: the record of every other run of the store is as it was. *)
Theorem train_keeps_other_runs (E : Env) (self : Trainer)
    (registered_model_name : option string) (stage : string) (archive : bool)
    (output_path : option string) (max_depth : option Z) (max_leaf_nodes : Z)
    (w : World) (r : result (string * string)) (w' : World) (other : string) :
  train E self registered_model_name stage archive output_path
        max_depth max_leaf_nodes w = (r, w') ->
  other <> env_run_id E (size (runs w)) ->
  runs w' !! other = runs w !! other.
Proof. apply train_other_runs. Qed.

Lemma train_keeps_other_runs_witness :
  runs late_train.2 !! "00aa11" = runs sample_world !! "00aa11".
Proof.
  apply (train_keeps_other_runs late_env (sample_trainer true) (Some "wine-model")
           "Staging" true (Some "/tmp/run_id.txt") None 32 sample_world
           late_train.1 late_train.2 "00aa11").
  - vm_compute. reflexivity.
  - vm_compute. discriminate.
Defined.

(** ** How the constructor and [main] fail *)

Section InitFailures.

Variable E : Env.

Lemma guarded_Raise {A} op (m : M A) w e w' :
  (guard E op ;; m) w = (Raise e, w') ->
  env_fault E op = Some e \/ m w = (Raise e, w').
Proof.
  unfold bind, guard. destruct (env_fault E op); [intros [= <- <-]; by left|].
  intros H. by right.
Qed.

Lemma set_experiment_Raise name w e w' :
  mlflow_set_experiment E name w = (Raise e, w') -> env_fault E OpSetExperiment = Some e.
Proof. intros H. by apply guarded_Raise in H as [H|H]. Qed.

Lemma get_experiment_by_name_Raise name w e w' :
  client_get_experiment_by_name E name w = (Raise e, w') ->
  env_fault E OpGetExperimentByName = Some e.
Proof. intros H. by apply guarded_Raise in H as [H|H]. Qed.

Lemma set_experiment_tag_Raise id key v w e w' :
  client_set_experiment_tag E id key v w = (Raise e, w') ->
  env_fault E (OpSetExperimentTag key) = Some e.
Proof. intros H. by apply guarded_Raise in H as [H|H]. Qed.

(** The calls of the constructor that can raise once the data is there. *)
Lemma init_Raise en dp onnx sg ro ur w e w' :
  Trainer_init E en dp onnx sg ro ur w = (Raise e, w') ->
  (_build_data E dp w).1 = Raise e \/
  (truthy en = true /\
   exists op,
     op ∈ [ OpSetExperiment; OpGetExperimentByName;
            OpSetExperimentTag "version_mlflow"; OpSetExperimentTag "experiment_created" ] /\
     env_fault E op = Some e).
Proof.
  intros H. unfold Trainer_init in H.
  apply bind_Raise in H as [H|([[[X1 X2] y1] y2] & w1 & Hb & H)]; [left; by rewrite H|].
  right.
  apply bind_Raise in H as [H|(? & w2 & _ & H)]; [|discriminate].
  unfold when_str in H. destruct en as [name|]; [|discriminate]. cbn [truthy].
  destruct (String.eqb name ""); [discriminate|]. split; [done|].
  apply bind_Raise in H as [H|(? & w3 & H1 & H)].
  { apply set_experiment_Raise in H. exists OpSetExperiment. split; [|done].
    apply elem_of_cons. by left. }
  apply set_experiment_Ok in H1. cbv zeta in H1. subst w3.
  apply bind_Raise in H as [H|(exp & w4 & H2 & H)].
  { apply get_experiment_by_name_Raise in H. exists OpGetExperimentByName.
    split; [|done]. do 1 (apply elem_of_cons; right). apply elem_of_cons. by left. }
  apply get_experiment_by_name_Ok in H2 as [-> ->].
  cbn [experiments log_event set_active_experiment set_experiments] in H.
  rewrite lookup_insert_eq in H.
  apply bind_Raise in H as [H|(id & w5 & H3 & H)]; [discriminate|].
  apply bind_Raise in H as [H|(? & w6 & _ & H)].
  - apply set_experiment_tag_Raise in H. exists (OpSetExperimentTag "version_mlflow").
    split; [|done]. do 2 (apply elem_of_cons; right). apply elem_of_cons. by left.
  - apply set_experiment_tag_Raise in H. exists (OpSetExperimentTag "experiment_created").
    split; [|done]. do 3 (apply elem_of_cons; right). apply elem_of_cons. by left.
Qed.

End InitFailures.

(** X20: the constructor fails only for a reason outside it: either data
    preparation raised (and the constructor passes that error on), or an
    experiment name was given and one of its four tracking calls raised
    ([set_experiment], [get_experiment_by_name], or one of the two
    [set_experiment_tag]).  The experiment looked up after [set_experiment] is
    always found, so reading its [experiment_id] never fails. *)
Theorem init_error_origin (E : Env) (experiment_name : option string)
    (data_path : string) (log_as_onnx save_signature : bool)
    (run_origin : option string) (use_run_id_as_run_name : bool)
    (w : World) (e : exn) (w' : World) :
  Trainer_init E experiment_name data_path log_as_onnx save_signature run_origin
               use_run_id_as_run_name w = (Raise e, w') ->
  (_build_data E data_path w).1 = Raise e \/
  (truthy experiment_name = true /\
   exists op,
     op ∈ [ OpSetExperiment; OpGetExperimentByName;
            OpSetExperimentTag "version_mlflow"; OpSetExperimentTag "experiment_created" ] /\
     env_fault E op = Some e).
Proof. apply init_Raise. Qed.

Lemma init_error_origin_witness :
  (_build_data quiet_env "missing.csv" sample_world).1
    = Raise (Exn "FileNotFoundError" "missing.csv") \/
  (truthy (Some "wine") = true /\
   exists op,
     op ∈ [ OpSetExperiment; OpGetExperimentByName;
            OpSetExperimentTag "version_mlflow"; OpSetExperimentTag "experiment_created" ] /\
     env_fault quiet_env op = Some (Exn "FileNotFoundError" "missing.csv")).
Proof.
  apply (init_error_origin quiet_env (Some "wine") "missing.csv" false true None false
           sample_world (Exn "FileNotFoundError" "missing.csv")
           (log_event (EvReadCsv "missing.csv") sample_world)).
  vm_compute. reflexivity.
Defined.

(** X21: [main] returns whenever the data can be prepared, no run is active
    and none of the library calls raises: the constructor and [train] have no
    failure of their own. *)
Theorem main_returns (E : Env) (o : Options) (w : World) :
  (forall op, env_fault E op = None) ->
  active_runs w = [] ->
  (forall e, (_build_data E (o_data_path o) w).1 <> Raise e) ->
  exists w', main E o w = (Ok tt, w').
Proof.
  intros Hnf Ha Hb. unfold main, bind.
  destruct (Trainer_init E (o_experiment_name o) (o_data_path o) (o_log_as_onnx o)
              (o_save_signature o) (o_run_origin o) (o_use_run_id_as_run_name o) w)
    as [[t|e] w1] eqn:Hi.
  - destruct (stays_apart_init E _ _ _ _ _ _ _ _ _ Hi) as (_ & Ha1 & _).
    destruct (train E t (o_model_name o) (o_model_version_stage o)
                (o_archive_existing_versions o) (o_output_path o) (o_max_depth o)
                (o_max_leaf_nodes o) w1) as [[res|e] w2] eqn:Ht; [by exists w2|].
    apply train_Raise in Ht. cbv zeta in Ht.
    destruct Ht as [[_ [(op & Hop)|(Hne & _)]]|(_ & (op & Hop) & _)].
    + by rewrite Hnf in Hop.
    + by rewrite Ha1, Ha in Hne.
    + by rewrite Hnf in Hop.
  - apply init_Raise in Hi as [Hi|(_ & op & _ & Hop)]; [by apply Hb in Hi|].
    by rewrite Hnf in Hop.
Qed.

Lemma main_returns_witness :
  exists w',
    main quiet_env
         (mkOptions (Some "wine") "wine-quality.csv" (Some "wine-model") "Staging" true
                    true false None 32 (Some "demo") (Some "/tmp/run_id.txt") false)
         sample_world = (Ok tt, w').
Proof.
  apply (main_returns quiet_env
           (mkOptions (Some "wine") "wine-quality.csv" (Some "wine-model") "Staging" true
                      true false None 32 (Some "demo") (Some "/tmp/run_id.txt") false)
           sample_world).
  - intros op. reflexivity.
  - reflexivity.
  - intros e. vm_compute. discriminate.
Defined.

(** ** Constructing the trainer again *)

Section Settled.

Variable E : Env.

Lemma guarded_any {A} op (m : M A) w r w' :
  (guard E op ;; m) w = (r, w') -> w' = w \/ m w = (r, w').
Proof.
  unfold bind, guard. destruct (env_fault E op); [intros [= <- <-]; by left|].
  intros H. by right.
Qed.

Lemma retag_fixed id key v (xs : gmap string Experiment) :
  (forall n y, xs !! n = Some y -> e_id y = id -> e_tags y !! key = Some v) ->
  (fun x => if String.eqb (e_id x) id then add_experiment_tag key v x else x) <$> xs = xs.
Proof.
  intros Hxs. apply map_eq. intros n. rewrite lookup_fmap.
  destruct (xs !! n) as [y|] eqn:Hy; [|done]. cbn. f_equal.
  destruct (String.eqb_spec (e_id y) id) as [Hid|]; [|done].
  destruct y as [i tags]. unfold add_experiment_tag. cbn. f_equal.
  apply insert_id. exact (Hxs _ _ Hy Hid).
Qed.

Lemma settled_log_event name ev w : settled E name w -> settled E name (log_event ev w).
Proof. done. Qed.

(** In a settled world the calls of the [if self.experiment_name] block
    change nothing but the record of calls, whether they return or raise. *)
Lemma settled_block name w r w' :
  settled E name w ->
  (mlflow_set_experiment E name ;;
   let! exp := client_get_experiment_by_name E name in
   let! exp_id := experiment_id_of exp in
   client_set_experiment_tag E exp_id "version_mlflow" (VStr (env_mlflow_version E)) ;;
   client_set_experiment_tag E exp_id "experiment_created" (now E)) w = (r, w') ->
  experiments w' = experiments w /\ active_experiment w' = active_experiment w.
Proof.
  intros (x & Hx & Hact & Htags) H.
  apply bind_inv in H as [(u & w1 & H1 & H)|(e & H1 & _)].
  2:{ apply guarded_any in H1 as [->|H1]; [done|discriminate]. }
  apply set_experiment_Ok in H1. cbv zeta in H1. rewrite Hx, insert_id in H1 by done.
  assert (Hw1 : experiments w1 = experiments w /\ active_experiment w1 = active_experiment w).
  { subst w1. by destruct w. }
  clear H1. destruct Hw1 as [He1 Ha1].
  apply bind_inv in H as [(exp & w2 & H2 & H)|(e & H2 & _)].
  2:{ apply guarded_any in H2 as [->|H2]; [done|discriminate]. }
  apply get_experiment_by_name_Ok in H2 as [-> ->]. rewrite He1, Hx in H.
  apply bind_inv in H as [(id & w3 & H3 & H)|(e & H3 & _)]; [|discriminate].
  injection H3 as <- <-.
  assert (Hfix : forall key v w0 r0 w0',
            experiments w0 = experiments w ->
            (forall n y, experiments w !! n = Some y -> e_id y = e_id x ->
               e_tags y !! key = Some v) ->
            client_set_experiment_tag E (e_id x) key v w0 = (r0, w0') ->
            experiments w0' = experiments w0 /\
            active_experiment w0' = active_experiment w0).
  { intros key v w0 r0 w0' He0 Hk H0. destruct r0 as [u0|e0].
    - apply set_experiment_tag_Ok in H0. subst w0'.
      cbn [experiments active_experiment log_event set_experiments].
      split; [|done]. apply retag_fixed. by rewrite He0.
    - apply guarded_any in H0 as [->|H0]; [done|discriminate]. }
  apply bind_inv in H as [(u4 & w4 & H4 & H)|(e & H4 & _)].
  - apply Hfix in H4 as [He4 Ha4]; [|done|intros n y Hy Hid; by apply (Htags n y)].
    apply Hfix in H as [He5 Ha5];
      [|by rewrite He4|intros n y Hy Hid; by apply (Htags n y)].
    split; [by rewrite He5, He4|by rewrite Ha5, Ha4].
  - apply Hfix in H4 as [He4 Ha4]; [|done|intros n y Hy Hid; by apply (Htags n y)].
    by rewrite He4, Ha4.
Qed.

Lemma settled_init name dp onnx sg ro ur w r w' :
  name <> "" -> settled E name w ->
  Trainer_init E (Some name) dp onnx sg ro ur w = (r, w') ->
  experiments w' = experiments w /\ active_experiment w' = active_experiment w.
Proof.
  intros Hne Hs H. unfold Trainer_init in H.
  apply bind_inv in H as [([[[X1 X2] y1] y2] & w1 & Hb & H)|(e & Hb & _)];
    apply build_data_split in Hb as ->; [|done].
  unfold when_str in H. destruct (String.eqb_spec name ""); [done|].
  apply bind_inv in H as [(u & w2 & Hw & H)|(e & Hw & _)].
  - injection H as _ <-. by apply settled_block in Hw.
  - by apply settled_block in Hw.
Qed.

(** A constructor that returns leaves the world settled. *)
Lemma init_settles name dp onnx sg ro ur w t w' :
  name <> "" ->
  Trainer_init E (Some name) dp onnx sg ro ur w = (Ok t, w') ->
  settled E name w'.
Proof.
  intros Hne H. unfold Trainer_init in H.
  apply bind_Ok in H as ([[[X1 X2] y1] y2] & w1 & Hb & H).
  apply build_data_split in Hb as ->.
  apply bind_Ok in H as (? & w2 & Hw & H). apply ret_Ok in H as [_ ->].
  unfold when_str in Hw. destruct (String.eqb_spec name ""); [done|].
  apply bind_Ok in Hw as (? & w3 & H1 & Hw).
  apply set_experiment_Ok in H1. cbv zeta in H1. subst w3.
  apply bind_Ok in Hw as (exp & w4 & H2 & Hw).
  apply get_experiment_by_name_Ok in H2 as [-> ->].
  apply bind_Ok in Hw as (id & w5 & H3 & Hw).
  apply experiment_id_of_Ok in H3 as (xe & Hx & -> & ->).
  cbn [experiments log_event set_active_experiment set_experiments] in Hx.
  rewrite lookup_insert_eq in Hx. injection Hx as Hx.
  apply bind_Ok in Hw as (? & w6 & H4 & Hw). apply set_experiment_tag_Ok in H4. subst w6.
  apply set_experiment_tag_Ok in Hw. subst w2. unfold settled.
  cbn [experiments active_experiment log_event set_active_experiment set_experiments].
  rewrite Hx. set (xs := <[name := xe]> (experiments w)).
  set (f1 := fun x => if String.eqb (e_id x) (e_id xe)
                      then add_experiment_tag "version_mlflow"
                             (VStr (env_mlflow_version E)) x else x).
  set (f2 := fun x => if String.eqb (e_id x) (e_id xe)
                      then add_experiment_tag "experiment_created" (now E) x else x).
  assert (Hid : forall y, e_id (f2 (f1 y)) = e_id y).
  { intros y. unfold f1, f2. by repeat (destruct (String.eqb _ _); cbn). }
  exists (f2 (f1 xe)). split.
  { rewrite !lookup_fmap. unfold xs. by rewrite lookup_insert_eq. }
  split; [by rewrite Hid|].
  intros k y Hy Hy'. rewrite !lookup_fmap in Hy.
  destruct (xs !! k) as [y0|]; [|done]. cbn in Hy. injection Hy as <-.
  rewrite !Hid in Hy'. unfold f1, f2. rewrite Hy'. rewrite String.eqb_refl.
  cbn [add_experiment_tag e_id]. rewrite ?Hy', String.eqb_refl.
  cbn [add_experiment_tag e_tags].
  split; [by rewrite lookup_insert_ne, lookup_insert_eq|by rewrite lookup_insert_eq].
Qed.

(** Data preparation depends on the files only. *)
Lemma build_data_files p w w1 :
  files w1 = files w -> (_build_data E p w1).1 = (_build_data E p w).1.
Proof.
  intros Hf. destruct (files w !! p) as [c|] eqn:Hc.
  - destruct (env_parse_csv E c) as [t|e] eqn:Hp.
    + rewrite !(build_data_loaded E p _ c t); by rewrite ?Hf.
    + rewrite !(build_data_malformed E p _ c e); by rewrite ?Hf.
  - rewrite !build_data_missing; by rewrite ?Hf.
Qed.

End Settled.

(** X22: constructing the trainer is idempotent on the experiments: after a
    constructor that returned, a second construction with the same arguments
    (in the same process, so with the same [now]) leaves the experiments and
    the active experiment exactly as they are, whether it returns or raises,
    and when it returns it yields the same trainer, with the same four
    tables. *)
Theorem init_twice (E : Env) (experiment_name : option string)
    (data_path : string) (log_as_onnx save_signature : bool)
    (run_origin : option string) (use_run_id_as_run_name : bool)
    (w : World) (t : Trainer) (w1 : World) (r : result Trainer) (w2 : World) :
  Trainer_init E experiment_name data_path log_as_onnx save_signature run_origin
               use_run_id_as_run_name w = (Ok t, w1) ->
  Trainer_init E experiment_name data_path log_as_onnx save_signature run_origin
               use_run_id_as_run_name w1 = (r, w2) ->
  experiments w2 = experiments w1 /\
  active_experiment w2 = active_experiment w1 /\
  forall t', r = Ok t' -> t' = t.
Proof.
  intros H1 H2.
  assert (He : experiments w2 = experiments w1 /\
               active_experiment w2 = active_experiment w1).
  { destruct (truthy experiment_name) eqn:Ht.
    - destruct experiment_name as [name|]; [|done]. cbn in Ht.
      destruct (String.eqb_spec name "") as [|Hne]; [done|].
      apply init_settles in H1; [|done].
      by apply (settled_init E name _ _ _ _ _ _ _ _ Hne H1) in H2.
    - pose proof (init_without_experiment E _ data_path log_as_onnx save_signature
                    run_origin use_run_id_as_run_name w1 Ht) as Hw.
      rewrite H2 in Hw. cbn in Hw. by subst w2. }
  destruct He as [He Ha]. split; [done|]. split; [done|].
  intros t' ->.
  destruct (stays_apart_init E _ _ _ _ _ _ _ _ _ H1) as (_ & _ & Hf & _).
  apply init_Ok_trainer in H1 as (X1 & X2 & y1 & y2 & Hb1 & ->).
  apply init_Ok_trainer in H2 as (X1' & X2' & y1' & y2' & Hb2 & ->).
  rewrite (build_data_files E _ _ _ Hf), Hb1 in Hb2. by injection Hb2 as <- <- <- <-.
Qed.

Lemma init_twice_witness :
  experiments (Trainer_init quiet_env (Some "wine") "wine-quality.csv" false true None
                 false (sample_init (Some "wine")).2).2
    = experiments (sample_init (Some "wine")).2.
Proof.
  destruct (init_twice quiet_env (Some "wine") "wine-quality.csv" false true None false
              sample_world sample_init_trainer (sample_init (Some "wine")).2
              (Trainer_init quiet_env (Some "wine") "wine-quality.csv" false true None
                 false (sample_init (Some "wine")).2).1
              (Trainer_init quiet_env (Some "wine") "wine-quality.csv" false true None
                 false (sample_init (Some "wine")).2).2) as [He _].
  - vm_compute. reflexivity.
  - vm_compute. reflexivity.
  - exact He.
Defined.

(** X23: for every non-empty [output_path], with or without ["dbfs:"] in
    it, after [train] returns the file at the path with every ["dbfs:"]
    replaced by ["/dbfs"] holds exactly the run identifier: whatever the file
    held before is gone. *)
Theorem output_file_overwritten (E : Env) (self : Trainer)
    (registered_model_name : option string) (stage : string) (archive : bool)
    (path : string) (max_depth : option Z) (max_leaf_nodes : Z)
    (w : World) (experiment_id run_id : string) (w' : World) :
  path <> "" ->
  train E self registered_model_name stage archive (Some path)
        max_depth max_leaf_nodes w = (Ok (experiment_id, run_id), w') ->
  files w' !! str_replace "dbfs:" "/dbfs" path = Some (FText run_id).
Proof.
  intros Hp H.
  apply train_Ok in H as (_ & _ & _ & uuid & t1 & r & _ & Hfs & _).
  rewrite Hfs. unfold expected_files. cbn [truthy default].
  destruct (String.eqb_spec path ""); [done|]. cbn [negb]. apply lookup_insert_eq.
Qed.

Lemma output_file_overwritten_witness :
  files (completed (Some "wine-quality.csv")).2 !! "wine-quality.csv"
    = Some (FText "5f1c9a").
Proof.
  apply (output_file_overwritten quiet_env (sample_trainer true) (Some "wine-model")
           "Staging" true "wine-quality.csv" None 32 sample_world "0").
  - discriminate.
  - vm_compute. reflexivity.
Defined.

(** X24: [train] only reads the experiment: however it ends, the experiments
    of the store, their tags and the active experiment are as they were
    before the call. *)
Theorem train_keeps_experiments (E : Env) (self : Trainer)
    (registered_model_name : option string) (stage : string) (archive : bool)
    (output_path : option string) (max_depth : option Z) (max_leaf_nodes : Z)
    (w : World) (r : result (string * string)) (w' : World) :
  train E self registered_model_name stage archive output_path
        max_depth max_leaf_nodes w = (r, w') ->
  experiments w' = experiments w /\ active_experiment w' = active_experiment w.
Proof.
  intros H.
  apply train_shape in H as [(-> & _)|(rid & st & body & late & rec & H)]; [done|].
  by destruct H as (_ & _ & _ & _ & _ & _ & _ & _ & _ & _ & _ & _ & He & Ha & _).
Qed.

Lemma train_keeps_experiments_witness :
  experiments (completed (Some "/tmp/run_id.txt")).2 = experiments sample_world /\
  active_experiment (completed (Some "/tmp/run_id.txt")).2 = active_experiment sample_world.
Proof.
  apply (train_keeps_experiments quiet_env (sample_trainer true) (Some "wine-model")
           "Staging" true (Some "/tmp/run_id.txt") None 32 sample_world
           (completed (Some "/tmp/run_id.txt")).1 (completed (Some "/tmp/run_id.txt")).2).
  vm_compute. reflexivity.
Defined.
